(** * ann.py: the SSE announcement scraper, embedded in Rocq

    A shallow embedding of [src/ann.py].  Python values that come out of
    [response.json()] are an inductive type [value]; exceptions are a sum
    type threaded through a small error monad; calls into the browser, the
    network, the clock, the console and the file system are recorded as a
    list of [event]s, and what the outside world answers is an explicit
    argument of every function that asks it something.

    Conventions.
    - A Python [str] is a [string]; the characters the program inspects
      ([-], [/], the nine characters [clean_filename] deletes) are ASCII,
      so reading a non-ASCII character as its UTF-8 bytes changes nothing
      the program does with it.  The one exception is [strptime], whose
      [\d] also takes the decimal digits of other scripts: [strptime]
      below is Python's on strings of ASCII characters, and a statement
      about the strings it refuses is about such strings ([ascii_only]).
    - Python integers are [Z].  JSON numbers with a fraction or an exponent
      (Python floats) are outside the model.
    - [time.sleep] takes seconds; events record milliseconds.
    - [os.path] is [posixpath]. *)

From Stdlib Require Import ZArith List String Ascii Bool Lia DecimalString.
Import ListNotations.

#[local] Set Warnings "-register-all".
#[local] Open Scope string_scope.
#[local] Open Scope Z_scope.

(* ================================================================= *)
(** ** Exceptions and the error monad *)

(** The exceptions the program can meet.  Those raised by the interpreter
    and the standard library ([datetime], [re], attribute lookup, [iter])
    are kept by class only.  Those whose text the program shows to the user
    carry it: [str(e)] is the [text].  Every class here derives from
    [Exception]; [KeyboardInterrupt] and [SystemExit], which do not, are
    outside the model. *)
Inductive exn : Type :=
| ValueError
| OverflowError
| AttributeError
| TypeError
| Exception (text : string)            (* raise Exception("...") in ann.py *)
| RequestException (text : string)     (* requests: connection errors, timeouts, broken streams *)
| HTTPError (text : string)            (* requests: Response.raise_for_status *)
| WebDriverException (text : string)   (* selenium *)
| OSError (text : string).             (* open, write, makedirs *)

(** [isinstance(e, requests.exceptions.RequestException)]: [HTTPError] is a
    subclass of [RequestException]. *)
Definition is_RequestException (e : exn) : bool :=
  match e with
  | RequestException _ | HTTPError _ => true
  | _ => false
  end.


Inductive result (A : Type) : Type :=
| Ok (a : A)
| Raise (e : exn).
Arguments Ok {A} a.
Arguments Raise {A} e.

Definition bind {A B : Type} (c : result A) (k : A -> result B) : result B :=
  match c with
  | Ok a => k a
  | Raise e => Raise e
  end.

Declare Scope py_scope.
Delimit Scope py_scope with py.
Notation "x <- c ;; k" := (bind c (fun x => k))
  (at level 61, c at next level, right associativity) : py_scope.
Notation "' p <- c ;; k" := (bind c (fun x => let 'p := x in k))
  (at level 61, p pattern, c at next level, right associativity) : py_scope.
#[local] Open Scope py_scope.

(** A [for] loop whose body may raise: the body is run on each element in
    order, threading the loop's variables, and the first exception ends it. *)
Fixpoint for_each {A S : Type} (body : S -> A -> result S) (l : list A) (s : S)
  : result S :=
  match l with
  | [] => Ok s
  | x :: rest => s' <- body s x ;; for_each body rest s'
  end.

(* ================================================================= *)
(** ** Python values *)

(** What [json.loads] builds.  A [VDict] lists its items in insertion
    order; a dict has no two items with one key, and [dict_lookup] reads the
    first. *)
Inductive value : Type :=
| VNone
| VBool (b : bool)
| VInt (n : Z)
| VStr (s : string)
| VList (l : list value)
| VDict (items : list (string * value)).

(** [bool(v)]: the test behind [if v], [not v] and [a and b]. *)
Definition truthy (v : value) : bool :=
  match v with
  | VNone => false
  | VBool b => b
  | VInt n => negb (n =? 0)
  | VStr s => negb (String.eqb s "")
  | VList l => match l with [] => false | _ => true end
  | VDict items => match items with [] => false | _ => true end
  end.

Fixpoint dict_lookup (key : string) (items : list (string * value)) : option value :=
  match items with
  | [] => None
  | (k, v) :: rest => if String.eqb k key then Some v else dict_lookup key rest
  end.

(** [v.get(key, default)]: only a dict has the method. *)
Definition get (v : value) (key : string) (default : value) : result value :=
  match v with
  | VDict items =>
      Ok (match dict_lookup key items with Some x => x | None => default end)
  | _ => Raise AttributeError
  end.

(** [iter(v)] as a [for] statement runs it: a list yields its elements, a
    dict its keys, a string its characters; nothing else is iterable. *)
Definition iterate (v : value) : result (list value) :=
  match v with
  | VList l => Ok l
  | VDict items => Ok (map (fun kv => VStr (fst kv)) items)
  | VStr s => Ok (map (fun c => VStr (String c "")) (list_ascii_of_string s))
  | VNone | VBool _ | VInt _ => Raise TypeError
  end.

(** [format(v, "")], what an f-string puts in place of [{v}].  A string is
    copied as it is.  For any other value Python shows its [repr], which this
    development takes as given. *)
Class Formatter : Type := repr : value -> string.

Definition fstring_field `{Formatter} (v : value) : string :=
  match v with
  | VStr s => s
  | _ => repr v
  end.

(* ================================================================= *)
(** ** Strings and paths *)

(** The character class of [clean_filename]'s pattern:
    backslash, slash, star, question mark, colon, double quote, less-than,
    greater-than, bar. *)
Definition double_quote : ascii := ascii_of_nat 34.

Definition illegal_characters : list ascii :=
  ["\"%char; "/"%char; "*"%char; "?"%char; ":"%char; double_quote;
   "<"%char; ">"%char; "|"%char].

Definition is_illegal (c : ascii) : bool :=
  existsb (Ascii.eqb c) illegal_characters.

(** [re.sub(pattern, "", s)] for a pattern that is one character class:
    every character of the class is dropped. *)
Fixpoint re_sub_class (cls : ascii -> bool) (s : string) : string :=
  match s with
  | EmptyString => EmptyString
  | String c rest =>
      if cls c then re_sub_class cls rest else String c (re_sub_class cls rest)
  end.

(** ann.py, lines 25-29.  [re.sub] takes a [str]; anything else is a
    [TypeError]. *)
Definition clean_filename (filename : value) : result string :=
  match filename with
  | VStr s => Ok (re_sub_class is_illegal s)
  | _ => Raise TypeError
  end.

Fixpoint ends_with_slash (s : string) : bool :=
  match s with
  | EmptyString => false
  | String c EmptyString => Ascii.eqb c "/"
  | String _ rest => ends_with_slash rest
  end.

Definition starts_with_slash (s : string) : bool :=
  match s with
  | String c _ => Ascii.eqb c "/"
  | EmptyString => false
  end.

(** [posixpath.join(a, b)]. *)
Definition path_join (a b : string) : string :=
  if starts_with_slash b then b
  else if String.eqb a "" || ends_with_slash a then a ++ b
  else a ++ "/" ++ b.

(** [posixpath.basename(p)]: what follows the last slash. *)
Fixpoint basename_from (seen p : string) : string :=
  match p with
  | EmptyString => seen
  | String c rest =>
      if Ascii.eqb c "/" then basename_from "" rest
      else basename_from (seen ++ String c "") rest
  end.

Definition basename (p : string) : string := basename_from "" p.


(* ================================================================= *)
(** ** datetime *)

(** A [datetime.datetime] whose time of day is midnight: every datetime
    the program builds comes from a date-only [strptime], from
    [datetime(y, 12, 31)] or from adding whole days. *)
Record datetime : Type := mkdatetime { year : Z; month : Z; day : Z }.

Definition MINYEAR : Z := 1.
Definition MAXYEAR : Z := 9999.

Definition is_leap (y : Z) : bool :=
  (y mod 4 =? 0) && (negb (y mod 100 =? 0) || (y mod 400 =? 0)).

Definition days_in_month (y m : Z) : Z :=
  match m with
  | 1 | 3 | 5 | 7 | 8 | 10 | 12 => 31
  | 4 | 6 | 9 | 11 => 30
  | 2 => if is_leap y then 29 else 28
  | _ => 0
  end.

Definition valid_date (y m d : Z) : bool :=
  (MINYEAR <=? y) && (y <=? MAXYEAR) && (1 <=? m) && (m <=? 12)
  && (1 <=? d) && (d <=? days_in_month y m).

Definition valid (d : datetime) : bool := valid_date (year d) (month d) (day d).

(** The constructor call [datetime(y, m, d)]. *)
Definition datetime_new (y m d : Z) : result datetime :=
  if valid_date y m d then Ok (mkdatetime y m d) else Raise ValueError.

(** [a < b] and [a <= b] on datetimes. *)
Definition datetime_lt (a b : datetime) : bool :=
  (year a <? year b)
  || ((year a =? year b)
      && ((month a <? month b) || ((month a =? month b) && (day a <? day b)))).

Definition datetime_le (a b : datetime) : bool := negb (datetime_lt b a).

(** [min(a, b)]: the first argument unless the second is smaller. *)
Definition min_datetime (a b : datetime) : datetime :=
  if datetime_lt b a then b else a.

(** [d + timedelta(days=1)]; past 9999-12-31 it is an [OverflowError]. *)
Definition next_day (d : datetime) : result datetime :=
  if day d <? days_in_month (year d) (month d) then
    Ok (mkdatetime (year d) (month d) (day d + 1))
  else if month d <? 12 then Ok (mkdatetime (year d) (month d + 1) 1)
  else if year d <? MAXYEAR then Ok (mkdatetime (year d + 1) 1 1)
  else Raise OverflowError.

(** [d + timedelta(days=n)] for [n >= 0]. *)
Fixpoint add_days (d : datetime) (n : nat) : result datetime :=
  match n with
  | O => Ok d
  | S k => d' <- next_day d ;; add_days d' k
  end.

(** *** strptime and strftime with the format [%Y-%m-%d] *)

Definition digit_of (c : ascii) : option Z :=
  let n := Z.of_nat (nat_of_ascii c) in
  if (48 <=? n) && (n <=? 57) then Some (n - 48) else None.

Definition digit_in (lo hi : Z) (c : ascii) : option Z :=
  match digit_of c with
  | Some n => if (lo <=? n) && (n <=? hi) then Some n else None
  | None => None
  end.

(** [%Y] is the pattern [\d\d\d\d]. *)
Definition parse_Y (s : string) : option (Z * string) :=
  match s with
  | String a (String b (String c (String d rest))) =>
      match digit_of a, digit_of b, digit_of c, digit_of d with
      | Some a, Some b, Some c, Some d =>
          Some (1000 * a + 100 * b + 10 * c + d, rest)
      | _, _, _, _ => None
      end
  | _ => None
  end.

(** [%m] is the pattern [1[0-2]|0[1-9]|[1-9]]; the alternatives are
    tried in this order. *)
Definition parse_m (s : string) : option (Z * string) :=
  match s with
  | String a rest =>
      let two :=
        match rest with
        | String b rest' =>
            match digit_in 1 1 a, digit_in 0 2 b with
            | Some _, Some b => Some (10 + b, rest')
            | _, _ =>
                match digit_in 0 0 a, digit_in 1 9 b with
                | Some _, Some b => Some (b, rest')
                | _, _ => None
                end
            end
        | EmptyString => None
        end in
      match two with
      | Some r => Some r
      | None =>
          match digit_in 1 9 a with
          | Some a => Some (a, rest)
          | None => None
          end
      end
  | EmptyString => None
  end.

(** [%d] is the pattern [3[0-1]|[1-2]\d|0[1-9]|[1-9]| [1-9]]. *)
Definition parse_d (s : string) : option (Z * string) :=
  match s with
  | String a rest =>
      let two :=
        match rest with
        | String b rest' =>
            match digit_in 3 3 a, digit_in 0 1 b with
            | Some _, Some b => Some (30 + b, rest')
            | _, _ =>
                match digit_in 1 2 a, digit_of b with
                | Some a, Some b => Some (10 * a + b, rest')
                | _, _ =>
                    match digit_in 0 0 a, digit_in 1 9 b with
                    | Some _, Some b => Some (b, rest')
                    | _, _ => None
                    end
                end
            end
        | EmptyString => None
        end in
      match two with
      | Some r => Some r
      | None =>
          match digit_in 1 9 a with
          | Some a => Some (a, rest)
          | None =>
              match rest with
              | String b rest' =>
                  if Ascii.eqb a " " then
                    match digit_in 1 9 b with
                    | Some b => Some (b, rest')
                    | None => None
                    end
                  else None
              | EmptyString => None
              end
          end
      end
  | EmptyString => None
  end.

Definition expect (c : ascii) (s : string) : option string :=
  match s with
  | String c' rest => if Ascii.eqb c c' then Some rest else None
  | EmptyString => None
  end.

(** [datetime.strptime(s, "%Y-%m-%d")] on a string of ASCII characters:
    the string must match the format's pattern with nothing left over,
    and the fields must make a date. *)
Definition strptime (s : string) : result datetime :=
  match parse_Y s with
  | Some (y, s1) =>
      match expect "-" s1 with
      | Some s2 =>
          match parse_m s2 with
          | Some (m, s3) =>
              match expect "-" s3 with
              | Some s4 =>
                  match parse_d s4 with
                  | Some (d, EmptyString) => datetime_new y m d
                  | _ => Raise ValueError
                  end
              | None => Raise ValueError
              end
          | None => Raise ValueError
          end
      | None => Raise ValueError
      end
  | None => Raise ValueError
  end.

Definition digit_char (n : Z) : ascii := ascii_of_nat (Z.to_nat (48 + n)).

Definition zero_pad2 (n : Z) : string :=
  String (digit_char (n / 10)) (String (digit_char (n mod 10)) "").

Definition zero_pad4 (n : Z) : string :=
  String (digit_char (n / 1000))
    (String (digit_char (n / 100 mod 10)) (zero_pad2 (n mod 100))).

(** [%Y] as the C library writes it for CPython 3.11 on Linux: the year
    in decimal, with no zero before it.  A year from 1000 on has its four
    digits; a year before 1000 has fewer, and [strptime] does not read it
    back. *)
Definition write_year (y : Z) : string :=
  if y <? 10 then String (digit_char y) ""
  else if y <? 100 then zero_pad2 y
  else if y <? 1000 then String (digit_char (y / 100)) (zero_pad2 (y mod 100))
  else zero_pad4 y.

(** [d.strftime("%Y-%m-%d")]. *)
Definition strftime (d : datetime) : string :=
  write_year (year d) ++ "-" ++ zero_pad2 (month d) ++ "-" ++ zero_pad2 (day d).

(** *** generate_yearly_date_ranges (ann.py, lines 31-52) *)

(** How a run stands when it is cut off: it has returned, an exception has
    left it, or it is still going (a loop's bound on its passes is used up,
    or the outside world has not answered yet). *)
Inductive outcome (A : Type) : Type :=
| Returned (a : A)
| Raised (e : exn)
| Unfinished.
Arguments Returned {A} a.
Arguments Raised {A} e.
Arguments Unfinished {A}.

(** One pass through the body of the [while] (lines 42-50): the list
    with the new range appended, and the next [current_start]. *)
Definition range_step (end_date current_start : datetime)
    (ranges : list (string * string))
  : result (list (string * string) * datetime) :=
  year_end <- datetime_new (year current_start) 12 31 ;;
  let current_end := min_datetime year_end end_date in
  let ranges := (ranges ++ [(strftime current_start, strftime current_end)])%list in
  current_start <- add_days year_end 1 ;;
  Ok (ranges, current_start).

(** The [while current_start <= end_date] loop (line 41). *)
Fixpoint range_loop (fuel : nat) (end_date current_start : datetime)
    (ranges : list (string * string)) : outcome (list (string * string)) :=
  if datetime_le current_start end_date then
    match fuel with
    | O => Unfinished
    | S fuel =>
        match range_step end_date current_start ranges with
        | Ok (ranges, current_start) =>
            range_loop fuel end_date current_start ranges
        | Raise e => Raised e
        end
    end
  else Returned ranges.

(** Every pass moves [current_start] to 1 January of the next year, and no
    datetime lies after [MAXYEAR]: this many passes are always enough
    ([generate_yearly_date_ranges_total] below). *)
Definition passes_left (current_start : datetime) : nat :=
  Z.to_nat (MAXYEAR + 1 - year current_start).

Definition generate_yearly_date_ranges (start_date_str end_date_str : string)
  : outcome (list (string * string)) :=
  match strptime start_date_str with
  | Raise e => Raised e
  | Ok start_date =>
      match strptime end_date_str with
      | Raise e => Raised e
      | Ok end_date =>
          range_loop (passes_left start_date) end_date start_date []
      end
  end.

(* ================================================================= *)
(** ** get_default_start_date and get_default_end_date (ann.py, lines 17-23) *)

(** [d - timedelta(days=1)]; before 0001-01-01 it is an [OverflowError]. *)
Definition previous_day (d : datetime) : result datetime :=
  if 1 <? day d then Ok (mkdatetime (year d) (month d) (day d - 1))
  else if 1 <? month d then
    Ok (mkdatetime (year d) (month d - 1) (days_in_month (year d) (month d - 1)))
  else if MINYEAR <? year d then Ok (mkdatetime (year d - 1) 12 31)
  else Raise OverflowError.

(** [d - timedelta(days=n)] for [n >= 0]. *)
Fixpoint subtract_days (d : datetime) (n : nat) : result datetime :=
  match n with
  | O => Ok d
  | S k => d' <- previous_day d ;; subtract_days d' k
  end.

(** Lines 17-19, [now] being the date [datetime.now()] gives: the time of
    day it also gives is kept by the subtraction and dropped by the
    format. *)
Definition get_default_start_date (now : datetime) : result string :=
  d <- subtract_days now (3 * 365) ;;
  Ok (strftime d).

(** Lines 21-23. *)
Definition get_default_end_date (now : datetime) : string := strftime now.

(* ================================================================= *)
(** ** The outside world: sessions, replies, events *)

(** A cookie as [driver.get_cookies()] lists it; the program reads the two
    keys ["name"] and ["value"]. *)
Record cookie : Type := { cookie_name : string; cookie_value : string }.

(** A [requests.Session]: its cookie jar and the headers the program set. *)
Record Session : Type :=
  { cookies : list (string * string); headers : list (string * string) }.

Definition new_Session : Session := {| cookies := []; headers := [] |}.

(** [jar.set(name, value)]: a cookie of that name is replaced, a new one is
    added at the end. *)
Fixpoint jar_set (name value : string) (jar : list (string * string))
  : list (string * string) :=
  match jar with
  | [] => [(name, value)]
  | (n, v) :: rest =>
      if String.eqb n name then (n, value) :: rest
      else (n, v) :: jar_set name value rest
  end.

(** [for cookie in cookies: session.cookies.set(cookie['name'], cookie['value'])] *)
Definition load_cookies (from_browser : list cookie) (s : Session) : Session :=
  {| cookies :=
       fold_left (fun jar c => jar_set (cookie_name c) (cookie_value c) jar)
         from_browser (cookies s);
     headers := headers s |}.

(** [session.headers.update(h)] on a session whose headers the program has
    not set before. *)
Definition update_headers (h : list (string * string)) (s : Session) : Session :=
  {| cookies := cookies s; headers := (headers s ++ h)%list |}.

Definition user_agent : string :=
  "Mozilla/5.0 (Windows NT 10.0; Win64; x64) AppleWebKit/537.36 (KHTML, like Gecko) Chrome/91.0.4472.124 Safari/537.36".

Definition browser_headers : list (string * string) :=
  [("User-Agent", user_agent); ("Referer", "https://www.sse.com.cn/")].

(** An HTTP response with a body of type [B]. *)
Record response (B : Type) : Type :=
  { status_code : Z; reason : string; response_url : string; body : B }.
Arguments status_code {B} r.
Arguments reason {B} r.
Arguments response_url {B} r.
Arguments body {B} r.

(** What [session.get] does: it raises a [RequestException] with some text,
    or it returns a response. *)
Inductive http (B : Type) : Type :=
| Failed (text : string)
| Responded (r : response B).
Arguments Failed {B} text.
Arguments Responded {B} r.

Definition decimal (n : Z) : string := NilZero.string_of_int (Z.to_int n).

(** [response.raise_for_status()] of requests: an [HTTPError] for the
    statuses 400-599, nothing for any other. *)
Definition raise_for_status {B : Type} (r : response B) : result unit :=
  let message (kind : string) :=
    decimal (status_code r) ++ " " ++ kind ++ " Error: " ++ reason r
    ++ " for url: " ++ response_url r in
  if (400 <=? status_code r) && (status_code r <? 500)
  then Raise (HTTPError (message "Client"))
  else if (500 <=? status_code r) && (status_code r <? 600)
  then Raise (HTTPError (message "Server"))
  else Ok tt.

(** One announcement, the dict [{"title": ..., "url": ...}] of line 102. *)
Record announcement : Type := { title : value; url : string }.

(** The [params] dict of lines 66-76, a field per key. *)
Record params : Type :=
  { isPagination : string;
    pageHelp_pageSize : Z;
    pageHelp_cacheSize : Z;
    START_DATE : string;
    END_DATE : string;
    SECURITY_CODE : string;
    pageHelp_beginPage : Z;
    pageHelp_pageNo : Z;
    TITLE : value }.

(** What [download_pdf_hybrid] returns: one of its two f-strings,
    ["成功下载: {basename}"] and ["下载失败: {basename}, 原因: {e}"], kept as
    the template and the values that fill it. *)
Inductive download_result : Type :=
| Success (filename : string)
| Failure (filename : string) (e : exn).

(** The lines the program prints, each the [print] of one source line with
    the values its f-string shows. *)
Inductive line : Type :=
| JsonSkipped (page_num : Z)                        (* line 85 *)
| RequestRetried (page_num : Z) (e : exn)           (* line 110 *)
| NothingToDownload                                 (* line 159 *)
| SavingTo (target_dir : string)                    (* line 163, shown absolute *)
| Processing (i total : Z) (title : value)          (* line 167 *)
| Shown (r : download_result)                       (* line 171 *)
| TaskParameters (security_code start_date end_date title target_dir : string)
                                                    (* lines 195-201, as one *)
| StartingSelenium                                  (* line 203 *)
| VisitingSite                                      (* line 216 *)
| GotCookies (n : Z)                                (* line 224 *)
| RangesSplit (ranges : list (string * string))     (* line 237 *)
| RangeStarted (start_date end_date : string)       (* line 242 *)
| RangeDone (start_date end_date : string) (n : Z)  (* line 245 *)
| ListComplete (n : Z)                              (* line 247 *)
| AllDone                                           (* line 253 *)
| FatalError (e : exn)                              (* line 256 *)
| BrowserClosed.                                    (* line 260 *)

(** What the program does to the outside world, in the order it does it. *)
Inductive event : Type :=
| Console (l : line)                                           (* print *)
| Sleep (milliseconds : Z)                                     (* time.sleep *)
| GetListing (s : Session) (url : string) (p : params) (timeout : Z)
                                                               (* line 79 *)
| GetFile (s : Session) (url : string) (hdrs : list (string * string))
    (timeout : Z)                                              (* line 141 *)
| StartChrome (arguments : list string)                        (* line 214 *)
| DriverGet (url : string)                                     (* driver.get *)
| DriverGetCookies                                             (* driver.get_cookies *)
| DriverQuit                                                   (* driver.quit *)
| Makedirs (path : string)                                     (* os.makedirs *)
| OpenWb (path : string)                                       (* open(path, 'wb') *)
| WriteChunk (path : string) (chunk : list Byte.byte).         (* f.write *)

(* ================================================================= *)
(** ** fetch_all_announcements_paginated (ann.py, lines 54-113) *)

(** The function's local variables that live across iterations of its
    [while True].  [title] is the function's parameter, and also the
    variable line 98 assigns. *)
Module Locals.
Record t : Type :=
  { all_announcements : list announcement; page_num : Z; title : value }.
End Locals.
Definition locals : Type := Locals.t.

Definition base_url : string :=
  "https://query.sse.com.cn/security/stock/queryCompanyBulletinNew.do".

Definition static_host : string := "https://static.sse.com.cn".

(** Lines 98-102, the body of the inner [for], on the pair
    ([announcements_on_page], [title]). *)
Definition item_body `{Formatter} (vars : list announcement * value) (item : value)
  : result (list announcement * value) :=
  let announcements_on_page := fst vars in
  title <- get item "TITLE" VNone ;;
  url_path <- get item "URL" VNone ;;
  if truthy title && truthy url_path then
    let full_url := static_host ++ fstring_field url_path in
    Ok ((announcements_on_page ++ [{| title := title; url := full_url |}])%list,
        title)
  else Ok (announcements_on_page, title).

(** Lines 97-102: [for item in inner_list]. *)
Definition inner_list_body `{Formatter} (vars : list announcement * value)
    (inner_list : value) : result (list announcement * value) :=
  items <- iterate inner_list ;;
  for_each item_body items vars.

(** Lines 95-102: the page's announcements, and [title] as the loops
    leave it. *)
Definition scan_page `{Formatter} (current_page_data title : value)
  : result (list announcement * value) :=
  inner_lists <- iterate current_page_data ;;
  for_each inner_list_body inner_lists ([], title).

(** How one pass through the [while True] ends. *)
Inductive flow : Type :=
| Again (st : locals)     (* the loop goes round, with these variables *)
| Break                   (* line 93 *)
| Propagate (e : exn).    (* an exception no handler of the function takes *)

Definition request_params (security_code start_date end_date : string)
    (st : locals) : params :=
  {| isPagination := "true";
     pageHelp_pageSize := 100;
     pageHelp_cacheSize := 1;
     START_DATE := start_date;
     END_DATE := end_date;
     SECURITY_CODE := security_code;
     pageHelp_beginPage := Locals.page_num st;
     pageHelp_pageNo := Locals.page_num st;
     TITLE := Locals.title st |}.

(** Lines 79-107, the body of the outer [try], once [session.get] has
    been answered: the events after the request, and how the body ends.
    A body of [None] is one [response.json()] cannot decode; the inner
    [try] takes that [JSONDecodeError]. *)
Definition try_body `{Formatter} (st : locals) (answer : http (option value))
  : list event * result flow :=
  match answer with
  | Failed text => ([], Raise (RequestException text))
  | Responded response =>
      match raise_for_status response with
      | Raise e => ([], Raise e)
      | Ok _ =>
          match body response with
          | None =>
              ([Console (JsonSkipped (Locals.page_num st))],
               Ok (Again {| Locals.all_announcements := Locals.all_announcements st;
                            Locals.page_num := Locals.page_num st + 1;
                            Locals.title := Locals.title st |}))
          | Some data =>
              match (pageHelp <- get data "pageHelp" (VDict []) ;;
                     get pageHelp "data" (VList [])) with
              | Raise e => ([], Raise e)
              | Ok current_page_data =>
                  if negb (truthy current_page_data) then ([], Ok Break)
                  else
                    match scan_page current_page_data (Locals.title st) with
                    | Raise e => ([], Raise e)
                    | Ok (announcements_on_page, title) =>
                        ([Sleep 500],
                         Ok (Again
                               {| Locals.all_announcements :=
                                    (Locals.all_announcements st
                                     ++ announcements_on_page)%list;
                                  Locals.page_num := Locals.page_num st + 1;
                                  Locals.title := title |}))
                    end
              end
          end
      end
  end.

(** One pass through the [while True] (lines 61-111): the request, the
    [try] body, and the handler of line 109 for a [RequestException]. *)
Definition iteration `{Formatter} (session : Session)
    (security_code start_date end_date : string)
    (st : locals) (answer : http (option value)) : list event * flow :=
  let request :=
    GetListing session base_url
      (request_params security_code start_date end_date st) 15 in
  match try_body st answer with
  | (events, Ok f) => (request :: events, f)
  | (events, Raise e) =>
      if is_RequestException e then
        ((request :: events)
         ++ [Console (RequestRetried (Locals.page_num st) e); Sleep 2000],
         Again st)%list
      else (request :: events, Propagate e)
  end.

(** How a run of the function stands once the answers it was given are
    used up: it has returned, an exception has left it, or it is still
    paging and its next request waits for an answer. *)
Inductive fetch_end : Type :=
| Fetched (all_announcements : list announcement)
| Crashed (e : exn)
| StillPaging (st : locals).

Record fetch_run : Type :=
  { fetch_events : list event;
    fetch_result : fetch_end;
    unread : list (http (option value)) }.

(** The [while True], run against the answers the listing API gives to
    the successive requests. *)
Fixpoint paging `{Formatter} (session : Session)
    (security_code start_date end_date : string)
    (answers : list (http (option value))) (st : locals) : fetch_run :=
  match answers with
  | [] => {| fetch_events := []; fetch_result := StillPaging st; unread := [] |}
  | answer :: later =>
      match iteration session security_code start_date end_date st answer with
      | (events, Again st') =>
          let run := paging session security_code start_date end_date later st' in
          {| fetch_events := (events ++ fetch_events run)%list;
             fetch_result := fetch_result run;
             unread := unread run |}
      | (events, Break) =>
          {| fetch_events := events;
             fetch_result := Fetched (Locals.all_announcements st);
             unread := later |}
      | (events, Propagate e) =>
          {| fetch_events := events; fetch_result := Crashed e; unread := later |}
      end
  end.

Definition fetch_all_announcements_paginated `{Formatter} (session : Session)
    (security_code start_date end_date : string) (title : value)
    (answers : list (http (option value))) : fetch_run :=
  paging session security_code start_date end_date answers
    {| Locals.all_announcements := []; Locals.page_num := 1; Locals.title := title |}.

(* ================================================================= *)
(** ** Code that touches the disk: a state monad over the file system *)

(** The part of the file system the program can change: the directories
    there are, each by the path it was made with, and the files, with
    their contents. *)
Record filesystem : Type :=
  { directories : list string; files : list (string * list Byte.byte) }.

Fixpoint store (path : string) (content : list Byte.byte)
    (fs : list (string * list Byte.byte)) : list (string * list Byte.byte) :=
  match fs with
  | [] => [(path, content)]
  | (p, c) :: rest =>
      if String.eqb p path then (p, content) :: rest
      else (p, c) :: store path content rest
  end.

Fixpoint read (path : string) (fs : list (string * list Byte.byte))
  : option (list Byte.byte) :=
  match fs with
  | [] => None
  | (p, c) :: rest => if String.eqb p path then Some c else read path rest
  end.

(** A computation that logs events, may change the file system, and ends
    by returning or raising. *)
Definition io (A : Type) : Type :=
  filesystem -> list event * filesystem * result A.

Definition io_ret {A : Type} (a : A) : io A := fun fs => ([], fs, Ok a).

Definition io_bind {A B : Type} (c : io A) (k : A -> io B) : io B :=
  fun fs =>
    match c fs with
    | (events, fs', Ok a) =>
        match k a fs' with
        | (events', fs'', r) => ((events ++ events')%list, fs'', r)
        end
    | (events, fs', Raise e) => (events, fs', Raise e)
    end.

Definition emit (e : event) : io unit := fun fs => ([e], fs, Ok tt).

Definition raise {A : Type} (e : exn) : io A := fun fs => ([], fs, Raise e).

Definition lift {A : Type} (r : result A) : io A := fun fs => ([], fs, r).

(** A call the outside world lets through or answers with an exception. *)
Definition unless_raised (answer : option exn) : io unit :=
  match answer with
  | None => io_ret tt
  | Some e => raise e
  end.

Definition change (f : filesystem -> filesystem) : io unit :=
  fun fs => ([], f fs, Ok tt).

(** [try: body except Exception as e: handler(e)].  Every class of [exn]
    derives from [Exception]. *)
Definition try_except {A : Type} (body : io A) (handler : exn -> io A) : io A :=
  fun fs =>
    match body fs with
    | (events, fs', Ok a) => (events, fs', Ok a)
    | (events, fs', Raise e) =>
        match handler e fs' with
        | (events', fs'', r) => ((events ++ events')%list, fs'', r)
        end
    end.

Declare Scope io_scope.
Delimit Scope io_scope with io.
Notation "x <- c ;; k" := (io_bind c (fun x => k))
  (at level 61, c at next level, right associativity) : io_scope.
Notation "c ;; k" := (io_bind c (fun _ => k))
  (at level 61, right associativity) : io_scope.

(** [for i, x in enumerate(l)], from index [i]. *)
Fixpoint for_enumerate {A : Type} (body : nat -> A -> io unit) (i : nat)
    (l : list A) : io unit :=
  match l with
  | [] => io_ret tt
  | x :: rest => (body i x ;; for_enumerate body (S i) rest)%io
  end.

(* ================================================================= *)
(** ** download_pdf_hybrid (ann.py, lines 115-152) *)

(** What the browser, the document host and the disk do during one call:
    - [navigation]: the exception [driver.get(url)] raises, if it does;
    - [browser_cookies]: what [driver.get_cookies()] gives;
    - [reply]: what [session.get(url, ..., stream=True)] gives, the body
      being the chunks [iter_content] yields and, when the stream breaks
      after them, the text of the [RequestException];
    - [open_error]: the exception [open(filepath, 'wb')] raises, if it does;
    - [write_error k]: the exception the write of chunk [k] raises. *)
Record download_world : Type :=
  { navigation : option exn;
    browser_cookies : result (list cookie);
    reply : http (list (list Byte.byte) * option string);
    open_error : option exn;
    write_error : nat -> option exn }.

Definition no_cookies_for_download : string :=
  "无法从浏览器获取Cookie，下载可能被拦截。".

Definition create (path : string) (fs : filesystem) : filesystem :=
  {| directories := directories fs; files := store path [] (files fs) |}.

Definition append_to (path : string) (chunk : list Byte.byte) (fs : filesystem)
  : filesystem :=
  {| directories := directories fs;
     files :=
       store path
         (match read path (files fs) with Some c => c | None => [] end ++ chunk)%list
         (files fs) |}.

(** Lines 146-147: [for chunk in response.iter_content(...): f.write(chunk)]. *)
Fixpoint write_chunks (w : download_world) (filepath : string) (k : nat)
    (chunks : list (list Byte.byte)) : io unit :=
  match chunks with
  | [] => io_ret tt
  | chunk :: rest =>
      (emit (WriteChunk filepath chunk) ;;
       unless_raised (write_error w k) ;;
       change (append_to filepath chunk) ;;
       write_chunks w filepath (S k) rest)%io
  end.

(** Lines 121-149, the body of the [try]. *)
Definition download_steps (w : download_world) (url filepath : string)
  : io download_result :=
  (emit (DriverGet url) ;;
   unless_raised (navigation w) ;;
   emit (Sleep 0) ;;
   emit DriverGetCookies ;;
   cookies <- lift (browser_cookies w) ;;
   match cookies with
   | [] => raise (Exception no_cookies_for_download)
   | _ :: _ =>
       let session := load_cookies cookies new_Session in
       emit (GetFile session url browser_headers 60) ;;
       match reply w with
       | Failed text => raise (RequestException text)
       | Responded response =>
           lift (raise_for_status response) ;;
           emit (OpenWb filepath) ;;
           unless_raised (open_error w) ;;
           change (create filepath) ;;
           write_chunks w filepath 0 (fst (body response)) ;;
           match snd (body response) with
           | Some text => raise (RequestException text)
           | None => io_ret (Success (basename filepath))
           end
       end
   end)%io.

Definition download_pdf_hybrid (w : download_world) (url filepath : string)
  : io download_result :=
  try_except (download_steps w url filepath)
    (fun e => io_ret (Failure (basename filepath) e)).

(* ================================================================= *)
(** ** batch_download_sequential (ann.py, lines 154-171) *)

(** What the outside world does during a batch: the exception
    [os.makedirs] raises, if it does, and the world of each call of
    [download_pdf_hybrid], by the index of its announcement. *)
Record batch_world : Type :=
  { makedirs_error : option exn; download : nat -> download_world }.

(** The directories above [path]: what stands before each slash of it,
    but for the root and for a slash that follows a slash. *)
Fixpoint parents_from (seen p : string) : list string :=
  match p with
  | EmptyString => []
  | String c rest =>
      if Ascii.eqb c "/" then
        ((if String.eqb seen "" || ends_with_slash seen then [] else [seen])
         ++ parents_from (seen ++ "/") rest)%list
      else parents_from (seen ++ String c "") rest
  end.

Definition parents (path : string) : list string := parents_from "" path.

(** The directories of a list, the deepest first, down to the first that
    is there. *)
Fixpoint missing (there : list string) (deepest_first : list string)
  : list string :=
  match deepest_first with
  | [] => []
  | d :: above =>
      if existsb (String.eqb d) there then [] else d :: missing there above
  end.

(** [os.makedirs(path, exist_ok=True)] when it raises nothing: the
    parents that are missing are made, from the highest down, and then the
    directory itself unless it is there.  A path that ends with a slash
    names its last parent.  The components [.] and [..] are taken as
    names. *)
Definition make_directory (path : string) (fs : filesystem) : filesystem :=
  let there := directories fs in
  let itself := if ends_with_slash path then [] else [path] in
  {| directories :=
       (there ++ rev (missing there (itself ++ rev (parents path))))%list;
     files := files fs |}.

(** Line 168: [os.path.join(target_dir, f"{clean_filename(ann['title'])}.pdf")]. *)
Definition destination (target_dir : string) (ann : announcement) : result string :=
  name <- clean_filename (title ann) ;;
  Ok (path_join target_dir (name ++ ".pdf")).

(** Lines 167-171, the body of the [for]. *)
Definition batch_body (driver : batch_world) (total : Z) (target_dir : string)
    (i : nat) (ann : announcement) : io unit :=
  (emit (Console (Processing (Z.of_nat i + 1) total (title ann))) ;;
   filepath <- lift (destination target_dir ann) ;;
   result <- download_pdf_hybrid (download driver i) (url ann) filepath ;;
   emit (Console (Shown result)))%io.

Definition batch_download_sequential (driver : batch_world)
    (announcements : list announcement) (target_dir : string) : io unit :=
  match announcements with
  | [] => emit (Console NothingToDownload)
  | _ :: _ =>
      (emit (Makedirs target_dir) ;;
       unless_raised (makedirs_error driver) ;;
       change (make_directory target_dir) ;;
       emit (Console (SavingTo target_dir)) ;;
       let total := Z.of_nat (List.length announcements) in
       for_enumerate (batch_body driver total target_dir) 0 announcements)%io
  end.

(* ================================================================= *)
(** ** The script body (ann.py, lines 173-260) *)

(** The parsed command line ([args]); [output] is [None] when the option
    is not given. *)
Module Args.
Record t : Type :=
  { security_code : string;
    start : string;
    end_ : string;
    output : option string;
    title : string }.
End Args.

(** What the outside world does during a run of the script. *)
Record world : Type :=
  { timestamp : string;                    (* datetime.now() as line 192 formats it *)
    chrome_error : option exn;             (* webdriver.Chrome(options) *)
    entry_navigation : option exn;         (* driver.get of line 217 *)
    entry_cookies : result (list cookie);  (* driver.get_cookies() of line 220 *)
    listing : list (http (option value));  (* the listing API, request after request *)
    batch : batch_world }.

(** Lines 14-15. *)
Definition DOWNLOAD_DIR : string := "downloads".
Definition DEFAULT_SECURITY_CODE : string := "600036".

Definition chrome_arguments : list string :=
  ["--headless"; "--no-sandbox"; "--disable-dev-shm-usage";
   "user-agent=" ++ user_agent].

Definition entry_url : string :=
  "https://www.sse.com.cn/disclosure/listedinfo/announcement/".

Definition no_initial_cookies : string := "无法从浏览器获取到任何初始Cookie。".

(** Lines 189-193. *)
Definition target_directory (args : Args.t) (w : world) : string :=
  let by_default :=
    path_join DOWNLOAD_DIR (Args.security_code args ++ "_" ++ timestamp w) in
  match Args.output args with
  | Some name => if String.eqb name "" then by_default else path_join DOWNLOAD_DIR name
  | None => by_default
  end.

(** Lines 214-233: the browser is started and sent to the site, and its
    cookies become a [requests] session. *)
Definition bootstrap (w : world) : io Session :=
  (emit (StartChrome chrome_arguments) ;;
   unless_raised (chrome_error w) ;;
   emit (Console VisitingSite) ;;
   emit (DriverGet entry_url) ;;
   unless_raised (entry_navigation w) ;;
   emit (Sleep 5000) ;;
   emit DriverGetCookies ;;
   cookies <- lift (entry_cookies w) ;;
   match cookies with
   | [] => raise (Exception no_initial_cookies)
   | _ :: _ =>
       emit (Console (GotCookies (Z.of_nat (List.length cookies)))) ;;
       io_ret (update_headers browser_headers (load_cookies cookies new_Session))
   end)%io.

(** Lines 240-245: one fetch per range, each reading on where the one
    before stopped in the listing API's answers. *)
Fixpoint fetch_ranges `{Formatter} (session : Session) (security_code title : string)
    (date_ranges : list (string * string))
    (answers : list (http (option value))) (full_ann_list : list announcement)
  : list event * outcome (list announcement) :=
  match date_ranges with
  | [] => ([], Returned full_ann_list)
  | (start, end_) :: rest =>
      let run :=
        fetch_all_announcements_paginated session security_code start end_
          (VStr title) answers in
      let events := Console (RangeStarted start end_) :: fetch_events run in
      match fetch_result run with
      | Fetched ann_list_for_range =>
          let n := Z.of_nat (List.length ann_list_for_range) in
          match fetch_ranges session security_code title rest (unread run)
                  (full_ann_list ++ ann_list_for_range)%list with
          | (later, r) =>
              ((events ++ Console (RangeDone start end_ n) :: later)%list, r)
          end
      | Crashed e => (events, Raised e)
      | StillPaging _ => (events, Unfinished)
      end
  end.

(** Lines 214-253, the body of the script's [try]. *)
Definition main_try `{Formatter} (args : Args.t) (w : world) (fs : filesystem)
  : list event * filesystem * outcome unit :=
  match bootstrap w fs with
  | (events, fs, Raise e) => (events, fs, Raised e)
  | (events, fs, Ok requests_session) =>
      match generate_yearly_date_ranges (Args.start args) (Args.end_ args) with
      | Raised e => (events, fs, Raised e)
      | Unfinished => (events, fs, Unfinished)
      | Returned date_ranges =>
          let events := (events ++ [Console (RangesSplit date_ranges)])%list in
          match fetch_ranges requests_session (Args.security_code args)
                  (Args.title args) date_ranges (listing w) [] with
          | (fetching, Raised e) => ((events ++ fetching)%list, fs, Raised e)
          | (fetching, Unfinished) => ((events ++ fetching)%list, fs, Unfinished)
          | (fetching, Returned full_ann_list) =>
              let events :=
                (events ++ fetching
                 ++ [Console (ListComplete (Z.of_nat (List.length full_ann_list)))])%list in
              let downloading :=
                match full_ann_list with
                | [] => io_ret tt
                | _ :: _ =>
                    batch_download_sequential (batch w) full_ann_list
                      (target_directory args w)
                end in
              match downloading fs with
              | (saving, fs, Raise e) => ((events ++ saving)%list, fs, Raised e)
              | (saving, fs, Ok _) =>
                  ((events ++ saving ++ [Console AllDone])%list, fs, Returned tt)
              end
          end
      end
  end.

(** The script: what it prints before the [try], the [try], the handler
    of line 255 and the [finally] of line 257, which quits the browser
    when one was started. *)
Definition main `{Formatter} (args : Args.t) (w : world) (fs : filesystem)
  : list event * filesystem * outcome unit :=
  let before :=
    [Console (TaskParameters (Args.security_code args) (Args.start args)
                (Args.end_ args) (Args.title args) (target_directory args w));
     Console StartingSelenium] in
  let finally :=
    match chrome_error w with
    | None => [DriverQuit; Console BrowserClosed]
    | Some _ => []
    end in
  match main_try args w fs with
  | (events, fs, Returned _) => ((before ++ events ++ finally)%list, fs, Returned tt)
  | (events, fs, Raised e) =>
      ((before ++ events ++ Console (FatalError e) :: finally)%list, fs, Returned tt)
  | (events, fs, Unfinished) => ((before ++ events)%list, fs, Unfinished)
  end.

(* ================================================================= *)
(** ** Vocabulary of the statements about date ranges *)

(** A range of dates as the function writes it. *)
Definition formatted (r : datetime * datetime) : string * string :=
  (strftime (fst r), strftime (snd r)).

(** [d] lies in the range, both ends included. *)
Definition within (r : datetime * datetime) (d : datetime) : Prop :=
  datetime_le (fst r) d = true /\ datetime_le d (snd r) = true.

(** The ranges [l] split the interval from [start_date] to [end_date]:
    the first starts at [start_date] and the last ends at [end_date]; each
    lies in one calendar year; each but the last is followed by a range
    that starts on the next day; and the days they hold are the days of
    the interval. *)
Definition splits (start_date end_date : datetime)
    (l : list (datetime * datetime)) : Prop :=
  (exists b rest, l = (start_date, b) :: rest)
  /\ snd (last l (start_date, start_date)) = end_date
  /\ Forall (fun r => datetime_le (fst r) (snd r) = true
                      /\ year (fst r) = year (snd r)
                      /\ valid (fst r) = true /\ valid (snd r) = true) l
  /\ (forall (i : nat) (r1 r2 : datetime * datetime),
         nth_error l i = Some r1 -> nth_error l (S i) = Some r2 ->
         next_day (snd r1) = Ok (fst r2) /\ datetime_lt (snd r1) (fst r2) = true)
  /\ (forall d : datetime,
         valid d = true ->
         (exists r, In r l /\ within r d)
         <-> (datetime_le start_date d = true /\ datetime_le d end_date = true)).

(* ================================================================= *)
(** ** Vocabulary of the statements about the yearly ranges and the default dates *)

(** The ranges of an interval that goes through [n] year ends: the
    first from [current_start] to 31 December, then whole years, the last
    from 1 January to [end_date]. *)
Fixpoint year_chunks (n : nat) (current_start end_date : datetime)
  : list (datetime * datetime) :=
  match n with
  | O => [(current_start, end_date)]
  | S k =>
      (current_start, mkdatetime (year current_start) 12 31)
      :: year_chunks k (mkdatetime (year current_start + 1) 1 1) end_date
  end.

(** The string is a Python [str] of ASCII characters. *)
Definition ascii_only (s : string) : bool :=
  forallb (fun c => Z.of_nat (nat_of_ascii c) <? 128) (list_ascii_of_string s).

(** One when the year has a 29 February. *)
Definition leap_day (y : Z) : Z := if is_leap y then 1 else 0.

(** The days of the years before year [y], of the months of year [y]
    before month [m], and the number of a day counted from 0001-01-01 as
    day 1 ([date.toordinal]). *)
Definition days_before_year (y : Z) : Z :=
  365 * (y - 1) + (y - 1) / 4 - (y - 1) / 100 + (y - 1) / 400.

Definition days_before_month (y m : Z) : Z :=
  match m with
  | 1 => 0
  | 2 => 31
  | 3 => 59 + leap_day y
  | 4 => 90 + leap_day y
  | 5 => 120 + leap_day y
  | 6 => 151 + leap_day y
  | 7 => 181 + leap_day y
  | 8 => 212 + leap_day y
  | 9 => 243 + leap_day y
  | 10 => 273 + leap_day y
  | 11 => 304 + leap_day y
  | 12 => 334 + leap_day y
  | _ => 0
  end.

Definition toordinal (d : datetime) : Z :=
  days_before_year (year d) + days_before_month (year d) (month d) + day d.

(* ================================================================= *)
(** ** Vocabulary of the statements about the listing fetch *)

(** The [current_page_data] of line 89 for an answer that gets there:
    [Ok None] when the request failed or the body is not JSON, [Raise]
    when the JSON is not a dict of dicts. *)
Definition payload (answer : http (option value)) : result (option value) :=
  match answer with
  | Failed _ => Ok None
  | Responded response =>
      match raise_for_status response, body response with
      | Ok _, Some data =>
          pageHelp <- get data "pageHelp" (VDict []) ;;
          current_page_data <- get pageHelp "data" (VList []) ;;
          Ok (Some current_page_data)
      | _, _ => Ok None
      end
  end.

(** The answer is a page whose data payload is empty. *)
Definition is_last_page (answer : http (option value)) : bool :=
  match payload answer with
  | Ok (Some current_page_data) => negb (truthy current_page_data)
  | _ => false
  end.

(** The records lines 95-102 extract from a payload. *)
Definition page_records `{Formatter} (current_page_data : value)
  : result (list announcement) :=
  vars <- scan_page current_page_data VNone ;; Ok (fst vars).

(** The records an answer contributes: those of its page, none when
    it has no page. *)
Definition records `{Formatter} (answer : http (option value)) : list announcement :=
  match payload answer with
  | Ok (Some current_page_data) =>
      match page_records current_page_data with
      | Ok l => l
      | Raise _ => []
      end
  | _ => []
  end.

(** The answer has the shape the function expects of the API: no
    [AttributeError] or [TypeError] comes of reading it. *)
Definition well_shaped `{Formatter} (answer : http (option value)) : bool :=
  match payload answer with
  | Ok (Some current_page_data) =>
      match page_records current_page_data with
      | Ok _ => true
      | Raise _ => false
      end
  | Ok None => true
  | Raise _ => false
  end.

(** The query parameters of the listing requests among some events. *)
Fixpoint requests (events : list event) : list params :=
  match events with
  | [] => []
  | GetListing _ _ p _ :: rest => p :: requests rest
  | _ :: rest => requests rest
  end.

(** What an item given as its fields yields, in the specification's
    words: an announcement when both ["TITLE"] and ["URL"] are present
    and non-empty, its url the URL path behind the static host. *)
Definition announcement_of `{Formatter} (fields : list (string * value))
  : option announcement :=
  match dict_lookup "TITLE" fields, dict_lookup "URL" fields with
  | Some t, Some u =>
      if truthy t && truthy u
      then Some {| title := t; url := static_host ++ fstring_field u |}
      else None
  | _, _ => None
  end.

(** The list of what an option holds. *)
Definition option_list {A : Type} (o : option A) : list A :=
  match o with Some a => [a] | None => [] end.

(** The loop variables a body or a loop starts from do not change what it
    appends, nor whether it raises. *)
Definition same_delta (base : result (list announcement * value))
    (acc : list announcement) (shifted : result (list announcement * value)) : Prop :=
  match base, shifted with
  | Ok (l, _), Ok (l', _) => l' = (acc ++ l)%list
  | Raise e, Raise e' => e = e'
  | _, _ => False
  end.

(** The request a pass makes from the variables [st]. *)
Definition request_of (session : Session) (security_code start_date end_date : string)
    (st : locals) : event :=
  GetListing session base_url
    (request_params security_code start_date end_date st) 15.

(** The variables after [page_num += 1]. *)
Definition turn_page (st : locals) : locals :=
  {| Locals.all_announcements := Locals.all_announcements st;
     Locals.page_num := Locals.page_num st + 1;
     Locals.title := Locals.title st |}.

(** A run that comes after some events. *)
Definition after_events (events : list event) (run : fetch_run) : fetch_run :=
  {| fetch_events := (events ++ fetch_events run)%list;
     fetch_result := fetch_result run;
     unread := unread run |}.

(** The fixed parameters of a request, its two page numbers equal and at
    least [n]. *)
Definition paged_from (security_code start_date end_date : string) (n : Z)
    (p : params) : Prop :=
  isPagination p = "true" /\ pageHelp_pageSize p = 100 /\ pageHelp_cacheSize p = 1
  /\ START_DATE p = start_date /\ END_DATE p = end_date
  /\ SECURITY_CODE p = security_code
  /\ pageHelp_beginPage p = pageHelp_pageNo p /\ n <= pageHelp_pageNo p.

(* ================================================================= *)
(** ** Vocabulary of the statements about what the fetch keeps and loses *)

(** What line 98 assigns to [title] for an item given as its fields. *)
Definition title_of (fields : list (string * value)) : value :=
  match dict_lookup "TITLE" fields with Some t => t | None => VNone end.

(** The exception is one of the two that reading a JSON value of the
    wrong shape raises. *)
Definition shape_error (e : exn) : Prop := e = AttributeError \/ e = TypeError.

(** An announcement as line 100 lets it through: the title is true, and
    the url is the static host followed by a URL path that is true. *)
Definition listed `{Formatter} (a : announcement) : Prop :=
  truthy (title a) = true
  /\ exists url_path, truthy url_path = true
                      /\ url a = static_host ++ fstring_field url_path.

(** The answers the listing API gives while one range is fetched: pages,
    failures and undecodable bodies, then the empty page that ends it. *)
Record range_answers : Type :=
  { range : string * string;
    pages : list (http (option value));
    closing : http (option value) }.

Definition answers_of (b : range_answers) : list (http (option value)) :=
  (pages b ++ [closing b])%list.

(** The answers are those of a range that the fetch reads to its end. *)
Definition read_to_the_end `{Formatter} (b : range_answers) : Prop :=
  Forall (fun a => is_last_page a = false) (pages b)
  /\ Forall (fun a => well_shaped a = true) (pages b)
  /\ is_last_page (closing b) = true.

(* ================================================================= *)
(** ** Vocabulary of the statements about downloads *)

(** The exception of the first write that fails, from chunk [k] on. *)
Fixpoint first_write_error (w : download_world) (k : nat)
    (chunks : list (list Byte.byte)) : option exn :=
  match chunks with
  | [] => None
  | _ :: rest =>
      match write_error w k with
      | Some e => Some e
      | None => first_write_error w (S k) rest
      end
  end.

(** The exception of the first stage of a download that fails, the
    stages taken in the order the function goes through them. *)
Definition failing_stage (w : download_world) : option exn :=
  match navigation w with
  | Some e => Some e
  | None =>
      match browser_cookies w with
      | Raise e => Some e
      | Ok [] => Some (Exception no_cookies_for_download)
      | Ok (_ :: _) =>
          match reply w with
          | Failed text => Some (RequestException text)
          | Responded response =>
              match raise_for_status response with
              | Raise e => Some e
              | Ok _ =>
                  match open_error w with
                  | Some e => Some e
                  | None =>
                      match first_write_error w 0 (fst (body response)) with
                      | Some e => Some e
                      | None =>
                          match snd (body response) with
                          | Some text => Some (RequestException text)
                          | None => None
                          end
                      end
                  end
              end
          end
      end
  end.

(** The result a download ought to give: a [Failure] with the base name
    of the destination and the exception of the failing stage, a [Success]
    when no stage fails. *)
Definition verdict (w : download_world) (filepath : string) : download_result :=
  match failing_stage w with
  | Some e => Failure (basename filepath) e
  | None => Success (basename filepath)
  end.



(** The results a run shows, in order (line 171). *)
Fixpoint shown (events : list event) : list download_result :=
  match events with
  | [] => []
  | Console (Shown r) :: rest => r :: shown rest
  | _ :: rest => shown rest
  end.

(** The paths a run opens for writing or writes to. *)
Fixpoint written (events : list event) : list string :=
  match events with
  | [] => []
  | OpenWb p :: rest => p :: written rest
  | WriteChunk p _ :: rest => p :: written rest
  | _ :: rest => written rest
  end.

(** The file name line 168 makes of a title that is a string. *)
Definition filename_of (ann : announcement) : string :=
  match title ann with
  | VStr t => re_sub_class is_illegal t ++ ".pdf"
  | _ => ".pdf"
  end.

(** The results a batch ought to show: for each announcement, in order,
    the verdict of its own download. *)
Fixpoint verdicts (driver : batch_world) (target_dir : string) (i : nat)
    (announcements : list announcement) : list download_result :=
  match announcements with
  | [] => []
  | ann :: rest =>
      verdict (download driver i) (path_join target_dir (filename_of ann))
      :: verdicts driver target_dir (S i) rest
  end.

(** The announcement's title is a string, as the API's titles are. *)
Definition has_string_title (ann : announcement) : Prop :=
  exists t, title ann = VStr t.

(* ================================================================= *)
(** ** Vocabulary of the statements about the disk *)

(** The chunks of a download that gets as far as opening its file: the
    navigation works, the browser has a cookie, the document host replies
    with a status that is no error, and [open] works. *)
Definition opened (w : download_world) : option (list (list Byte.byte)) :=
  match navigation w, browser_cookies w, reply w with
  | None, Ok (_ :: _), Responded response =>
      match raise_for_status response, open_error w with
      | Ok _, None => Some (fst (body response))
      | _, _ => None
      end
  | _, _, _ => None
  end.

(** The chunks written before the first write that fails, from chunk [k]
    on. *)
Fixpoint written_chunks (w : download_world) (k : nat)
    (chunks : list (list Byte.byte)) : list (list Byte.byte) :=
  match chunks with
  | [] => []
  | chunk :: rest =>
      match write_error w k with
      | Some _ => []
      | None => chunk :: written_chunks w (S k) rest
      end
  end.

(** What a download leaves at its destination: the bytes it wrote when it
    opened the file, what was there when it did not. *)
Definition left_behind (w : download_world) (was : option (list Byte.byte))
  : option (list Byte.byte) :=
  match opened w with
  | Some chunks => Some (List.concat (written_chunks w 0 chunks))
  | None => was
  end.


(* ================================================================= *)
(** ** Worlds for the examples *)

(** A formatter for the examples, none of which formats anything but a
    string. *)
Definition unused_repr : Formatter := fun _ => "".

(** A 200 reply of the listing API with this data payload. *)
Definition listing_page (current_page_data : value) : http (option value) :=
  Responded
    {| status_code := 200; reason := "OK"; response_url := base_url;
       body := Some (VDict [("pageHelp", VDict [("data", current_page_data)])]) |}.

Definition one_cookie : list cookie :=
  [{| cookie_name := "acw_tc"; cookie_value := "0a1b" |}].

(** A download in which the document host replies with this status and
    these chunks, and every other stage works. *)
Definition download_replying (status : Z) (phrase : string)
    (chunks : list (list Byte.byte)) : download_world :=
  {| navigation := None;
     browser_cookies := Ok one_cookie;
     reply :=
       Responded {| status_code := status; reason := phrase;
                    response_url := "https://static.sse.com.cn/a.pdf";
                    body := (chunks, None) |};
     open_error := None;
     write_error := fun _ => None |}.

Definition smooth_download : download_world :=
  download_replying 200 "OK" [[Byte.x25; Byte.x50]; [Byte.x44; Byte.x46]].

(* ================================================================= *)
(** * Theorems *)

(* ================================================================= *)
(** ** Strings and paths *)













(* ================================================================= *)
(** ** Dates *)

Lemma datetime_lt_spec (a b : datetime) :
  datetime_lt a b = true <->
  (year a < year b
   \/ (year a = year b
       /\ (month a < month b \/ (month a = month b /\ day a < day b)))).
Proof.
  unfold datetime_lt.
  rewrite !orb_true_iff, !andb_true_iff, !orb_true_iff, !andb_true_iff,
    !Z.ltb_lt, !Z.eqb_eq.
  tauto.
Qed.

Lemma datetime_le_spec (a b : datetime) :
  datetime_le a b = true <->
  (year a < year b
   \/ (year a = year b
       /\ (month a < month b \/ (month a = month b /\ day a <= day b)))).
Proof.
  unfold datetime_le. rewrite negb_true_iff, <- not_true_iff_false, datetime_lt_spec.
  lia.
Qed.

Lemma datetime_le_false (a b : datetime) :
  datetime_le a b = false <-> datetime_lt b a = true.
Proof. unfold datetime_le. rewrite negb_false_iff. tauto. Qed.

Lemma days_in_month_le (y m : Z) : days_in_month y m <= 31.
Proof.
  unfold days_in_month.
  repeat match goal with
         | |- context [match ?x with _ => _ end] => destruct x
         end; lia.
Qed.

Lemma valid_spec (d : datetime) :
  valid d = true <->
  (1 <= year d <= MAXYEAR /\ 1 <= month d <= 12
   /\ 1 <= day d <= days_in_month (year d) (month d)).
Proof.
  unfold valid, valid_date, MINYEAR.
  rewrite !andb_true_iff, !Z.leb_le. tauto.
Qed.

Lemma datetime_eq (a b : datetime) :
  year a = year b -> month a = month b -> day a = day b -> a = b.
Proof. destruct a, b; simpl; intros; subst; reflexivity. Qed.

Lemma strptime_valid (s : string) (d : datetime) :
  strptime s = Ok d -> valid d = true.
Proof.
  unfold strptime.
  destruct (parse_Y s) as [[y s1]|]; [|discriminate].
  destruct (expect "-" s1) as [s2|]; [|discriminate].
  destruct (parse_m s2) as [[m s3]|]; [|discriminate].
  destruct (expect "-" s3) as [s4|]; [|discriminate].
  destruct (parse_d s4) as [[dd [|]]|]; try discriminate.
  unfold datetime_new. destruct (valid_date y m dd) eqn:V; [|discriminate].
  intros [= <-]. exact V.
Qed.

(** The body of the loop, for a datetime [current_start]: it fails in the
    last year a datetime can have, and only there. *)
Lemma range_step_spec (end_date current_start : datetime)
    (ranges : list (string * string)) :
  valid current_start = true ->
  range_step end_date current_start ranges
  = if year current_start <? MAXYEAR then
      Ok ((ranges
           ++ [(strftime current_start,
                strftime (min_datetime (mkdatetime (year current_start) 12 31)
                            end_date))])%list,
          mkdatetime (year current_start + 1) 1 1)
    else Raise OverflowError.
Proof.
  intros V. apply valid_spec in V. unfold range_step, datetime_new.
  replace (valid_date (year current_start) 12 31) with true.
  2:{ symmetry. unfold valid_date, MINYEAR. rewrite !andb_true_iff, !Z.leb_le.
      simpl. lia. }
  simpl. unfold next_day. simpl.
  destruct (year current_start <? MAXYEAR); reflexivity.
Qed.

Lemma passes_left_valid (d : datetime) :
  valid d = true -> (1 <= passes_left d)%nat.
Proof. intros V. apply valid_spec in V. unfold passes_left, MAXYEAR in *. lia. Qed.

Lemma new_year_valid (y : Z) :
  1 <= y -> y < MAXYEAR -> valid (mkdatetime (y + 1) 1 1) = true.
Proof. intros. apply valid_spec. simpl. unfold MAXYEAR in *. lia. Qed.

(** The bound on the passes is never reached. *)
Lemma range_loop_finishes (end_date : datetime) (fuel : nat) :
  forall (current_start : datetime) (ranges : list (string * string)),
    valid current_start = true ->
    (passes_left current_start <= fuel)%nat ->
    range_loop fuel end_date current_start ranges <> Unfinished.
Proof.
  induction fuel as [|fuel IH]; intros cs ranges V F.
  - pose proof (passes_left_valid cs V). lia.
  - simpl. destruct (datetime_le cs end_date); [|discriminate].
    rewrite (range_step_spec _ _ _ V).
    destruct (Z.ltb_spec (year cs) MAXYEAR) as [L|L]; [|discriminate].
    pose proof (proj1 (valid_spec cs) V) as B.
    apply IH.
    + apply new_year_valid; lia.
    + unfold passes_left, MAXYEAR in *. cbn [year] in *. lia.
Qed.

Lemma range_loop_stops (end_date current_start : datetime)
    (ranges : list (string * string)) (fuel : nat) :
  datetime_le current_start end_date = false ->
  range_loop fuel end_date current_start ranges = Returned ranges.
Proof. intros E. destruct fuel; simpl; rewrite E; reflexivity. Qed.

(** When the interval ends in the last year, the pass through that year
    raises: the next [current_start] would be 1 January of a year no
    datetime has. *)
Lemma range_loop_overflows (end_date : datetime) (fuel : nat) :
  valid end_date = true ->
  year end_date = MAXYEAR ->
  forall (current_start : datetime) (ranges : list (string * string)),
    valid current_start = true ->
    datetime_le current_start end_date = true ->
    (passes_left current_start <= fuel)%nat ->
    range_loop fuel end_date current_start ranges = Raised OverflowError.
Proof.
  intros VE YE. induction fuel as [|fuel IH]; intros cs ranges V LE F.
  - pose proof (passes_left_valid cs V). lia.
  - simpl. rewrite LE, (range_step_spec _ _ _ V).
    destruct (Z.ltb_spec (year cs) MAXYEAR) as [L|L]; [|reflexivity].
    pose proof (proj1 (valid_spec cs) V) as B.
    pose proof (proj1 (valid_spec end_date) VE) as BE.
    apply IH.
    + apply new_year_valid; lia.
    + apply datetime_le_spec. simpl. lia.
    + unfold passes_left, MAXYEAR in *. cbn [year] in *. lia.
Qed.

Lemma valid_bounds (d : datetime) :
  valid d = true ->
  1 <= year d <= MAXYEAR /\ 1 <= month d <= 12 /\ 1 <= day d <= 31.
Proof.
  intros V. apply valid_spec in V.
  pose proof (days_in_month_le (year d) (month d)). lia.
Qed.

Lemma year_end_valid (y : Z) :
  1 <= y <= MAXYEAR -> valid (mkdatetime y 12 31) = true.
Proof. intros. apply valid_spec. simpl. lia. Qed.

Lemma last_default {A : Type} (l : list A) (d1 d2 : A) :
  l <> [] -> last l d1 = last l d2.
Proof.
  induction l as [|x l IH]; intros N; [contradiction|].
  destruct l as [|y l]; [reflexivity|].
  change (last (y :: l) d1 = last (y :: l) d2). apply IH. discriminate.
Qed.

Lemma min_in_last_year (end_date : datetime) (y : Z) :
  valid end_date = true -> year end_date = y ->
  min_datetime (mkdatetime y 12 31) end_date = end_date.
Proof.
  intros V Y. unfold min_datetime.
  destruct (datetime_lt end_date (mkdatetime y 12 31)) eqn:L; [reflexivity|].
  apply valid_bounds in V.
  apply not_true_iff_false in L. rewrite datetime_lt_spec in L. simpl in L.
  apply datetime_eq; simpl; lia.
Qed.

Lemma min_before_last_year (end_date : datetime) (y : Z) :
  y < year end_date ->
  min_datetime (mkdatetime y 12 31) end_date = mkdatetime y 12 31.
Proof.
  intros Y. unfold min_datetime.
  destruct (datetime_lt end_date (mkdatetime y 12 31)) eqn:L; [|reflexivity].
  apply datetime_lt_spec in L. simpl in L. lia.
Qed.

Lemma splits_one_year (start_date end_date : datetime) :
  valid start_date = true -> valid end_date = true ->
  datetime_le start_date end_date = true ->
  year start_date = year end_date ->
  splits start_date end_date [(start_date, end_date)].
Proof.
  intros VS VE LE Y. unfold splits. split; [|split; [|split; [|split]]].
  - exists end_date, []. reflexivity.
  - reflexivity.
  - repeat constructor; assumption.
  - intros i r1 r2 _ N. destruct i; discriminate.
  - intros d VD. split.
    + intros (r & [<-|[]] & W). exact W.
    + intros W. exists (start_date, end_date). split; [left; reflexivity | exact W].
Qed.

Lemma splits_le (start_date end_date : datetime) (l : list (datetime * datetime)) :
  splits start_date end_date l -> datetime_le start_date end_date = true.
Proof.
  intros ((b & rest & ->) & _ & Fa & _ & Un).
  inversion Fa as [|r l' (LE & _ & V & _) _]; subst. cbn [fst snd] in *.
  apply (Un start_date V). exists (start_date, b). split; [left; reflexivity|].
  split; cbn [fst snd]; [|exact LE].
  apply datetime_le_spec. lia.
Qed.

Lemma splits_next_year (start_date end_date : datetime)
    (l : list (datetime * datetime)) :
  valid start_date = true ->
  year start_date < MAXYEAR ->
  splits (mkdatetime (year start_date + 1) 1 1) end_date l ->
  splits start_date end_date
    ((start_date, mkdatetime (year start_date) 12 31) :: l).
Proof.
  intros VS YS Sp. pose proof (splits_le _ _ _ Sp) as LE'.
  destruct Sp as ((b & rest & ->) & La & Fa & Ad & Un).
  pose proof (valid_bounds _ VS) as BS.
  apply datetime_le_spec in LE'. cbn [year month day] in LE'.
  unfold splits. split; [|split; [|split; [|split]]].
  - do 2 eexists; reflexivity.
  - rewrite <- La. f_equal.
    refine (last_default ((mkdatetime (year start_date + 1) 1 1, b) :: rest) _ _ _).
    discriminate.
  - constructor; [|exact Fa]. cbn [fst snd]. repeat split.
    + apply datetime_le_spec. simpl. lia.
    + exact VS.
    + apply year_end_valid. lia.
  - intros [|i] r1 r2.
    + intros [= <-] [= <-]. cbn [fst snd]. split.
      * unfold next_day. simpl.
        replace (year start_date <? MAXYEAR) with true
          by (symmetry; apply Z.ltb_lt; exact YS).
        reflexivity.
      * apply datetime_lt_spec. simpl. lia.
    + intros N1 N2. apply (Ad i r1 r2 N1 N2).
  - intros d VD. pose proof (valid_bounds _ VD) as BD.
    specialize (Un d VD). split.
    + intros (r & [<-|I] & W1 & W2).
      * cbn [fst snd] in W1, W2. split; [exact W1|].
        apply datetime_le_spec in W2. cbn [year month day] in W2.
        apply datetime_le_spec. lia.
      * destruct (proj1 Un (ex_intro _ r (conj I (conj W1 W2)))) as [U1 U2].
        split; [|exact U2].
        apply datetime_le_spec in U1. cbn [year month day] in U1.
        apply datetime_le_spec. lia.
    + intros (W1 & W2).
      destruct (Z_le_gt_dec (year d) (year start_date)) as [Y|Y].
      * exists (start_date, mkdatetime (year start_date) 12 31).
        split; [left; reflexivity|]. split; cbn [fst snd]; [exact W1|].
        apply datetime_le_spec. cbn [year month day]. lia.
      * destruct (proj2 Un) as (r & I & W).
        { split; [|exact W2]. apply datetime_le_spec. cbn [year month day]. lia. }
        exists r. split; [right; exact I | exact W].
Qed.

(** The loop, for an interval that ends before the last year. *)
Lemma range_loop_splits (end_date : datetime) (fuel : nat) :
  valid end_date = true ->
  year end_date < MAXYEAR ->
  forall (current_start : datetime) (ranges : list (string * string)),
    valid current_start = true ->
    datetime_le current_start end_date = true ->
    (passes_left current_start <= fuel)%nat ->
    exists l,
      range_loop fuel end_date current_start ranges
      = Returned (ranges ++ map formatted l)%list
      /\ splits current_start end_date l.
Proof.
  intros VE YE. induction fuel as [|fuel IH]; intros cs ranges V LE F.
  - pose proof (passes_left_valid cs V). lia.
  - pose proof (valid_bounds _ V) as B. pose proof (valid_bounds _ VE) as BE.
    pose proof (proj1 (datetime_le_spec _ _) LE) as LE'.
    simpl. rewrite LE, (range_step_spec _ _ _ V).
    replace (year cs <? MAXYEAR) with true by (symmetry; apply Z.ltb_lt; lia).
    destruct (Z.eq_dec (year cs) (year end_date)) as [Y|Y].
    + rewrite (min_in_last_year _ _ VE (eq_sym Y)).
      rewrite range_loop_stops.
      2:{ apply datetime_le_false, datetime_lt_spec. simpl. lia. }
      exists [(cs, end_date)]. split; [reflexivity|].
      apply splits_one_year; assumption.
    + rewrite min_before_last_year by lia.
      destruct (IH (mkdatetime (year cs + 1) 1 1)
                  (ranges ++ [(strftime cs, strftime (mkdatetime (year cs) 12 31))])%list)
        as (l & E & Sp).
      * apply new_year_valid; lia.
      * apply datetime_le_spec. simpl. lia.
      * unfold passes_left, MAXYEAR in *. cbn [year] in *. lia.
      * exists ((cs, mkdatetime (year cs) 12 31) :: l). split.
        -- rewrite E, <- app_assoc. reflexivity.
        -- apply splits_next_year; [exact V | lia | exact Sp].
Qed.

(* ================================================================= *)
(** ** The claims about date ranges *)

(** C2, where the code departs from it.  The interval from 9999-06-15
    to 9999-12-31 has start <= end, and the function raises
    [OverflowError] instead of returning its one range: after appending the
    range, line 50 adds a day to 9999-12-31. *)
Theorem no_ranges_for_an_interval_ending_in_year_9999 :
  generate_yearly_date_ranges "9999-06-15" "9999-12-31" = Raised OverflowError.
Proof. reflexivity. Qed.

(** C3, as amended.  When the start date is after the end date the loop
    body never runs: the function returns the empty list, and raises
    nothing. *)
Theorem reversed_interval_gives_no_ranges
    (start_date_str end_date_str : string) (start_date end_date : datetime) :
  strptime start_date_str = Ok start_date ->
  strptime end_date_str = Ok end_date ->
  datetime_lt end_date start_date = true ->
  generate_yearly_date_ranges start_date_str end_date_str = Returned [].
Proof.
  intros S E L. unfold generate_yearly_date_ranges. rewrite S, E.
  apply range_loop_stops. apply datetime_le_false. exact L.
Qed.

Lemma reversed_interval_gives_no_ranges_witness :
  generate_yearly_date_ranges "2024-02-10" "2022-06-15" = Returned [].
Proof.
  apply (reversed_interval_gives_no_ranges "2024-02-10" "2022-06-15"
           (mkdatetime 2024 2 10) (mkdatetime 2022 6 15));
    reflexivity.
Defined.

(** The counterexample to C3 as stated: start > end, and the function
    returns normally. *)
Lemma reversed_interval_raises_nothing :
  strptime "2023-01-02" = Ok (mkdatetime 2023 1 2)
  /\ strptime "2023-01-01" = Ok (mkdatetime 2023 1 1)
  /\ datetime_lt (mkdatetime 2023 1 1) (mkdatetime 2023 1 2) = true
  /\ generate_yearly_date_ranges "2023-01-02" "2023-01-01" = Returned [].
Proof. repeat split. Qed.

(** Beyond C2: what the code keeps of it.  For dates with start <= end
    and the end before year 9999, the function returns ranges that split
    the interval: the first starts at the start date and the last ends at
    the end date, each lies in one calendar year, each but the last is
    followed by a range starting on the next day (so they are in order and
    do not overlap), and a day lies in one of them exactly when it lies in
    the interval.  The specification's example is computed. *)
Theorem ranges_split_the_interval
    (start_date_str end_date_str : string) (start_date end_date : datetime) :
  strptime start_date_str = Ok start_date ->
  strptime end_date_str = Ok end_date ->
  datetime_le start_date end_date = true ->
  year end_date < MAXYEAR ->
  (exists l,
      generate_yearly_date_ranges start_date_str end_date_str
      = Returned (map formatted l)
      /\ l <> []
      /\ splits start_date end_date l)
  /\ generate_yearly_date_ranges "2022-06-15" "2024-02-10"
     = Returned [("2022-06-15", "2022-12-31"); ("2023-01-01", "2023-12-31");
                 ("2024-01-01", "2024-02-10")].
Proof.
  intros S E LE Y. split; [|reflexivity].
  unfold generate_yearly_date_ranges. rewrite S, E.
  destruct (range_loop_splits end_date (passes_left start_date)
              (strptime_valid _ _ E) Y start_date [] (strptime_valid _ _ S) LE
              (Nat.le_refl _)) as (l & R & Sp).
  exists l. split; [exact R|]. split; [|exact Sp].
  destruct Sp as ((b & rest & ->) & _). discriminate.
Qed.

Lemma ranges_split_the_interval_witness :
  exists l,
    generate_yearly_date_ranges "2022-06-15" "2024-02-10" = Returned (map formatted l)
    /\ l <> []
    /\ splits (mkdatetime 2022 6 15) (mkdatetime 2024 2 10) l.
Proof.
  apply (ranges_split_the_interval "2022-06-15" "2024-02-10"
           (mkdatetime 2022 6 15) (mkdatetime 2024 2 10));
    reflexivity.
Defined.

(** Beyond C2: the extent of the departure.  Every interval with
    start <= end that ends in year 9999 makes the function raise
    [OverflowError]. *)
Theorem intervals_ending_in_the_last_year_overflow
    (start_date_str end_date_str : string) (start_date end_date : datetime) :
  strptime start_date_str = Ok start_date ->
  strptime end_date_str = Ok end_date ->
  datetime_le start_date end_date = true ->
  year end_date = MAXYEAR ->
  generate_yearly_date_ranges start_date_str end_date_str = Raised OverflowError.
Proof.
  intros S E LE Y. unfold generate_yearly_date_ranges. rewrite S, E.
  apply range_loop_overflows;
    [apply (strptime_valid _ _ E) | exact Y | apply (strptime_valid _ _ S)
    | exact LE | apply Nat.le_refl].
Qed.

Lemma intervals_ending_in_the_last_year_overflow_witness :
  generate_yearly_date_ranges "2022-06-15" "9999-01-01" = Raised OverflowError.
Proof.
  apply (intervals_ending_in_the_last_year_overflow "2022-06-15" "9999-01-01"
           (mkdatetime 2022 6 15) (mkdatetime 9999 1 1));
    reflexivity.
Defined.

(** Beyond C2: the function is total.  On every pair of strings it
    returns or raises; the bound on the passes of its loop is never what
    ends a run. *)
Theorem generate_yearly_date_ranges_total (start_date_str end_date_str : string) :
  (exists ranges,
      generate_yearly_date_ranges start_date_str end_date_str = Returned ranges)
  \/ (exists e,
         generate_yearly_date_ranges start_date_str end_date_str = Raised e).
Proof.
  assert (N : generate_yearly_date_ranges start_date_str end_date_str <> Unfinished).
  { unfold generate_yearly_date_ranges.
    destruct (strptime start_date_str) as [start_date|] eqn:S; [|discriminate].
    destruct (strptime end_date_str) as [end_date|]; [|discriminate].
    apply range_loop_finishes; [apply (strptime_valid _ _ S) | apply Nat.le_refl]. }
  destruct (generate_yearly_date_ranges start_date_str end_date_str) as [ranges|e|].
  - left. exists ranges. reflexivity.
  - right. exists e. reflexivity.
  - contradiction.
Qed.

(** *** Writing a date and reading it back *)

Lemma digit_of_digit_char (k : Z) :
  0 <= k <= 9 -> digit_of (digit_char k) = Some k.
Proof.
  intros K.
  assert (C : k = 0 \/ k = 1 \/ k = 2 \/ k = 3 \/ k = 4 \/ k = 5 \/ k = 6
              \/ k = 7 \/ k = 8 \/ k = 9) by lia.
  repeat (destruct C as [->|C]; [reflexivity|]). subst; reflexivity.
Qed.

Lemma parse_Y_zero_pad4 (y : Z) (rest : string) :
  0 <= y <= 9999 -> parse_Y (zero_pad4 y ++ rest) = Some (y, rest).
Proof.
  intros Y. unfold zero_pad4, zero_pad2, parse_Y. cbn [append].
  rewrite !digit_of_digit_char by (Z.to_euclidean_division_equations; lia).
  do 2 f_equal. Z.to_euclidean_division_equations; lia.
Qed.

Lemma parse_m_zero_pad2 (m : Z) (rest : string) :
  1 <= m <= 12 -> parse_m (zero_pad2 m ++ rest) = Some (m, rest).
Proof.
  intros M.
  assert (C : m = 1 \/ m = 2 \/ m = 3 \/ m = 4 \/ m = 5 \/ m = 6 \/ m = 7
              \/ m = 8 \/ m = 9 \/ m = 10 \/ m = 11 \/ m = 12) by lia.
  repeat (destruct C as [->|C]; [reflexivity|]). subst; reflexivity.
Qed.

Lemma parse_d_zero_pad2 (d : Z) :
  1 <= d <= 31 -> parse_d (zero_pad2 d) = Some (d, "").
Proof.
  intros D.
  assert (C : (d = 1 \/ d = 2 \/ d = 3 \/ d = 4 \/ d = 5 \/ d = 6 \/ d = 7
               \/ d = 8 \/ d = 9 \/ d = 10)
              \/ (d = 11 \/ d = 12 \/ d = 13 \/ d = 14 \/ d = 15 \/ d = 16
                  \/ d = 17 \/ d = 18 \/ d = 19 \/ d = 20)
              \/ (d = 21 \/ d = 22 \/ d = 23 \/ d = 24 \/ d = 25 \/ d = 26
                  \/ d = 27 \/ d = 28 \/ d = 29 \/ d = 30 \/ d = 31)) by lia.
  destruct C as [C|[C|C]];
    repeat (destruct C as [->|C]; [reflexivity|]); subst; reflexivity.
Qed.

Lemma write_year_four_digits (y : Z) : 1000 <= y -> write_year y = zero_pad4 y.
Proof.
  intros Y. unfold write_year.
  replace (y <? 10) with false by (symmetry; apply Z.ltb_ge; lia).
  replace (y <? 100) with false by (symmetry; apply Z.ltb_ge; lia).
  replace (y <? 1000) with false by (symmetry; apply Z.ltb_ge; lia).
  reflexivity.
Qed.

Lemma day_le_31 (d : datetime) :
  valid d = true -> 1 <= year d <= 9999 /\ 1 <= month d <= 12 /\ 1 <= day d <= 31.
Proof.
  intros V. unfold valid, valid_date, MINYEAR, MAXYEAR in V.
  rewrite !andb_true_iff, !Z.leb_le in V.
  pose proof (days_in_month_le (year d) (month d)). lia.
Qed.

(** A date of a year from 1000 on is read back as it was written. *)
Lemma read_back (d : datetime) :
  valid d = true -> 1000 <= year d -> strptime (strftime d) = Ok d.
Proof.
  intros V Y. pose proof (day_le_31 d V) as B.
  unfold strptime, strftime. rewrite (write_year_four_digits _ Y).
  rewrite parse_Y_zero_pad4 by lia. cbn [append expect].
  rewrite Ascii.eqb_refl.
  rewrite parse_m_zero_pad2 by lia. cbn [append expect].
  rewrite Ascii.eqb_refl.
  rewrite parse_d_zero_pad2 by lia.
  unfold datetime_new. unfold valid in V. rewrite V.
  destruct d; reflexivity.
Qed.

(** A date of a year before 1000 is written with fewer than four digits
    of year, and is not read back. *)
Lemma not_read_back (d : datetime) :
  valid d = true -> year d < 1000 -> strptime (strftime d) = Raise ValueError.
Proof.
  intros V Y. pose proof (day_le_31 d V) as B.
  unfold strptime, strftime, write_year.
  destruct (Z.ltb_spec (year d) 10); [|destruct (Z.ltb_spec (year d) 100)];
    [| |replace (year d <? 1000) with true by (symmetry; apply Z.ltb_lt; lia)];
    unfold zero_pad2; cbn [append parse_Y];
    rewrite !digit_of_digit_char by (Z.to_euclidean_division_equations; lia);
    reflexivity.
Qed.

(** Beyond C2: which of the strings the function writes are dates it can
    read back.  A valid date of a year from 1000 on, written by
    [strftime], is read by [strptime] as the same date; a date of a year
    before 1000 is written without the zeros [strptime] asks for, and
    reading it raises [ValueError]. *)
Theorem strptime_strftime (d : datetime) :
  valid d = true ->
  strptime (strftime d) = if 1000 <=? year d then Ok d else Raise ValueError.
Proof.
  intros V. destruct (Z.leb_spec 1000 (year d)) as [Y|Y].
  - apply read_back; assumption.
  - apply not_read_back; assumption.
Qed.

Lemma strptime_strftime_witness :
  strptime (strftime (mkdatetime 2024 2 29)) = Ok (mkdatetime 2024 2 29).
Proof. apply (strptime_strftime (mkdatetime 2024 2 29)). reflexivity. Defined.


(* ================================================================= *)
(** ** The listing fetch *)

Section Fetch.
Context `{Formatter}.

Lemma requests_app (e1 e2 : list event) :
  requests (e1 ++ e2) = (requests e1 ++ requests e2)%list.
Proof.
  induction e1 as [|e e1 IH]; simpl; [reflexivity|].
  destruct e; simpl; rewrite ?IH; reflexivity.
Qed.

(** *** The two [for] loops *)

Lemma item_body_dict (acc : list announcement) (t0 : value)
    (fields : list (string * value)) :
  item_body (acc, t0) (VDict fields)
  = Ok ((acc ++ option_list (announcement_of fields))%list,
        match dict_lookup "TITLE" fields with Some t => t | None => VNone end).
Proof.
  unfold item_body, announcement_of; simpl.
  destruct (dict_lookup "TITLE" fields) as [t|], (dict_lookup "URL" fields) as [u|];
    simpl; try (destruct (truthy t)); try (destruct (truthy u)); simpl;
    rewrite ?app_nil_r, ?andb_false_r; reflexivity.
Qed.

Lemma item_body_shift (acc : list announcement) (t : value) (item : value) :
  same_delta (item_body ([], VNone) item) acc (item_body (acc, t) item).
Proof.
  destruct item; try exact eq_refl.
  rewrite !item_body_dict. simpl. reflexivity.
Qed.

Lemma for_each_shift {A : Type}
    (body : list announcement * value -> A -> result (list announcement * value)) :
  (forall acc t x, same_delta (body ([], VNone) x) acc (body (acc, t) x)) ->
  forall (l : list A) acc t,
    same_delta (for_each body l ([], VNone)) acc (for_each body l (acc, t)).
Proof.
  intros Hbody l. 
  assert (G : forall acc0 t0 acc t,
             match for_each body l (acc0, t0), for_each body l ((acc ++ acc0)%list, t) with
             | Ok (l0, _), Ok (l1, _) => l1 = (acc ++ l0)%list
             | Raise e, Raise e' => e = e'
             | _, _ => False
             end).
  { induction l as [|x l IH]; intros acc0 t0 acc t; simpl.
    - reflexivity.
    - pose proof (Hbody acc0 t0 x) as H0.
      pose proof (Hbody (acc ++ acc0)%list t x) as H1.
      unfold same_delta in H0, H1.
      destruct (body ([], VNone) x) as [[d td]|e].
      + destruct (body (acc0, t0) x) as [[l0 t0']|]; [|contradiction].
        destruct (body ((acc ++ acc0)%list, t) x) as [[l1 t1']|]; [|contradiction].
        subst. simpl. rewrite <- app_assoc. apply IH.
      + destruct (body (acc0, t0) x) as [|e0]; [contradiction|].
        destruct (body ((acc ++ acc0)%list, t) x) as [|e1]; [contradiction|].
        simpl. congruence. }
  intros acc t. specialize (G [] VNone acc t). rewrite app_nil_r in G. exact G.
Qed.

Lemma inner_list_body_shift (acc : list announcement) (t : value) (inner : value) :
  same_delta (inner_list_body ([], VNone) inner) acc (inner_list_body (acc, t) inner).
Proof.
  unfold inner_list_body.
  destruct (iterate inner) as [items|e]; simpl; [|reflexivity].
  apply for_each_shift. intros; apply item_body_shift.
Qed.

Lemma scan_page_title (v t : value) :
  match page_records v, scan_page v t with
  | Ok l, Ok (l', _) => l' = l
  | Raise e, Raise e' => e = e'
  | _, _ => False
  end.
Proof.
  unfold page_records, scan_page.
  destruct (iterate v) as [lists|e]; simpl; [|reflexivity].
  pose proof (for_each_shift inner_list_body
                (fun acc t x => inner_list_body_shift acc t x) lists [] t) as G.
  unfold same_delta in G.
  destruct (for_each inner_list_body lists ([], VNone)) as [[l0 t0]|e0]; simpl;
    destruct (for_each inner_list_body lists ([], t)) as [[l1 t1]|e1]; simpl in *;
    try contradiction; auto.
Qed.


(** *** One pass through the loop *)

Section OnePass.
Variables (session : Session) (security_code start_date end_date : string).

Let pass := iteration session security_code start_date end_date.
Let request := request_of session security_code start_date end_date.

Lemma pass_on_failed_request (st : locals) (text : string) :
  pass st (Failed text)
  = ([request st;
      Console (RequestRetried (Locals.page_num st) (RequestException text));
      Sleep 2000], Again st).
Proof. reflexivity. Qed.

Lemma raise_for_status_class {B : Type} (response : response B) (e : exn) :
  raise_for_status response = Raise e -> is_RequestException e = true.
Proof.
  unfold raise_for_status.
  destruct ((400 <=? status_code response) && (status_code response <? 500));
    [intros [= <-]; reflexivity|].
  destruct ((500 <=? status_code response) && (status_code response <? 600));
    [intros [= <-]; reflexivity | discriminate].
Qed.

Lemma pass_on_error_status (st : locals) (response : response (option value))
    (e : exn) :
  raise_for_status response = Raise e ->
  pass st (Responded response)
  = ([request st; Console (RequestRetried (Locals.page_num st) e); Sleep 2000],
     Again st).
Proof.
  intros E. unfold pass, iteration, try_body. rewrite E.
  rewrite (raise_for_status_class _ _ E). reflexivity.
Qed.

Lemma pass_on_undecodable_body (st : locals) (response : response (option value)) :
  raise_for_status response = Ok tt ->
  body response = None ->
  pass st (Responded response)
  = ([request st; Console (JsonSkipped (Locals.page_num st))],
     Again (turn_page st)).
Proof.
  intros E B. unfold pass, iteration, try_body. rewrite E, B. reflexivity.
Qed.

Lemma pass_on_last_page (st : locals) (answer : http (option value)) :
  is_last_page answer = true ->
  pass st answer = ([request st], Break).
Proof.
  unfold is_last_page, payload, pass, iteration, try_body.
  destruct answer as [text|response]; [discriminate|].
  destruct (raise_for_status response) as [[]|e]; [|discriminate].
  destruct (body response) as [data|]; [|discriminate].
  destruct (get data "pageHelp" (VDict [])) as [pageHelp|e]; simpl; [|discriminate].
  destruct (get pageHelp "data" (VList [])) as [current|e]; simpl; [|discriminate].
  intros ->. reflexivity.
Qed.

Lemma break_only_on_last_page (st : locals) (answer : http (option value))
    (events : list event) :
  pass st answer = (events, Break) -> is_last_page answer = true.
Proof.
  unfold is_last_page, payload, pass, iteration, try_body.
  destruct answer as [text|response]; [discriminate|].
  destruct (raise_for_status response) as [[]|e] eqn:E.
  2:{ rewrite (raise_for_status_class _ _ E). discriminate. }
  destruct (body response) as [data|]; [|discriminate].
  destruct (get data "pageHelp" (VDict [])) as [pageHelp|e]; simpl.
  2:{ destruct (is_RequestException e); discriminate. }
  destruct (get pageHelp "data" (VList [])) as [current|e]; simpl.
  2:{ destruct (is_RequestException e); discriminate. }
  destruct (truthy current); simpl; [|reflexivity].
  destruct (scan_page current (Locals.title st)) as [[l t]|e]; [discriminate|].
  destruct (is_RequestException e); discriminate.
Qed.

(** A well-shaped answer that is not the last page sends the loop round:
    one request is made, and the records of the answer are appended. *)
Lemma pass_on_page (st : locals) (answer : http (option value)) :
  is_last_page answer = false ->
  well_shaped answer = true ->
  exists events st',
    pass st answer = (events, Again st')
    /\ requests events = [request_params security_code start_date end_date st]
    /\ Locals.all_announcements st'
       = (Locals.all_announcements st ++ records answer)%list.
Proof.
  unfold is_last_page, well_shaped, records.
  destruct answer as [text|response].
  - intros _ _. rewrite pass_on_failed_request.
    do 2 eexists; split; [reflexivity|]. simpl. rewrite app_nil_r. auto.
  - destruct (raise_for_status response) as [[]|e] eqn:E.
    2:{ intros _ _. rewrite (pass_on_error_status _ _ _ E).
        do 2 eexists; split; [reflexivity|].
        unfold payload; rewrite E; simpl. rewrite app_nil_r. auto. }
    destruct (body response) as [data|] eqn:B.
    2:{ intros _ _. rewrite (pass_on_undecodable_body _ _ E B).
        do 2 eexists; split; [reflexivity|].
        unfold payload; rewrite E, B; simpl. rewrite app_nil_r. auto. }
    unfold pass, iteration, try_body, payload. rewrite E, B.
    destruct (get data "pageHelp" (VDict [])) as [pageHelp|e]; simpl; [|discriminate].
    destruct (get pageHelp "data" (VList [])) as [current|e]; simpl; [|discriminate].
    intros T. apply negb_false_iff in T. rewrite T. simpl.
    pose proof (scan_page_title current (Locals.title st)) as S.
    destruct (page_records current) as [l|e]; [|discriminate].
    intros _.
    destruct (scan_page current (Locals.title st)) as [[l' t']|e]; [|contradiction].
    subst l'. do 2 eexists; split; [reflexivity|]. simpl. auto.
Qed.

(** *** The loop *)

Let loop := paging session security_code start_date end_date.

Lemma loop_round (answer : http (option value)) (later : list (http (option value)))
    (st st' : locals) (events : list event) :
  pass st answer = (events, Again st') ->
  loop (answer :: later) st = after_events events (loop later st').
Proof.
  intros E. unfold loop, pass in *. simpl. rewrite E. reflexivity.
Qed.

Lemma after_events_app (e1 e2 : list event) (run : fetch_run) :
  after_events e1 (after_events e2 run) = after_events (e1 ++ e2) run.
Proof. unfold after_events; simpl. rewrite app_assoc. reflexivity. Qed.

Lemma loop_through_pages (before : list (http (option value))) :
  Forall (fun a => is_last_page a = false) before ->
  Forall (fun a => well_shaped a = true) before ->
  forall (later : list (http (option value))) (st : locals),
  exists events st',
    loop (before ++ later) st = after_events events (loop later st')
    /\ List.length (requests events) = List.length before
    /\ Locals.all_announcements st'
       = (Locals.all_announcements st ++ List.concat (map records before))%list.
Proof.
  induction before as [|a before IH]; intros NL WS later st.
  - exists [], st. simpl. rewrite app_nil_r. repeat split.
    unfold after_events; simpl. destruct (loop later st); reflexivity.
  - inversion NL as [|? ? NLa NLb]; inversion WS as [|? ? WSa WSb]; subst.
    destruct (pass_on_page st a NLa WSa) as (ev & st1 & P & R & A).
    destruct (IH NLb WSb later st1) as (ev' & st' & L & R' & A').
    exists (ev ++ ev')%list, st'. split; [|split].
    + simpl app. rewrite (loop_round _ _ _ _ _ P), L. apply after_events_app.
    + rewrite requests_app, length_app, R, R'. reflexivity.
    + rewrite A', A. simpl. rewrite app_assoc. reflexivity.
Qed.

Lemma loop_never_returns_without_last_page (answers : list (http (option value))) :
  Forall (fun a => is_last_page a = false) answers ->
  forall (st : locals) (l : list announcement),
    fetch_result (loop answers st) <> Fetched l.
Proof.
  induction answers as [|a answers IH]; intros NL st l; [discriminate|].
  inversion NL as [|? ? NLa NLb]; subst.
  unfold loop; simpl. fold pass.
  destruct (pass st a) as [events [st'| |e]] eqn:P; simpl.
  - apply (IH NLb).
  - apply break_only_on_last_page in P. congruence.
  - discriminate.
Qed.

Lemma loop_retries (n : nat) (text : string)
    (later : list (http (option value))) (st : locals) :
  loop (repeat (Failed text) n ++ later) st
  = after_events
      (List.concat (repeat [request st;
                       Console (RequestRetried (Locals.page_num st)
                                  (RequestException text));
                       Sleep 2000] n))
      (loop later st).
Proof.
  induction n as [|n IH]; simpl.
  - unfold after_events; simpl. destruct (loop later st); reflexivity.
  - change (loop (Failed text :: (repeat (Failed text) n ++ later)) st = 
            after_events ([request st;
                       Console (RequestRetried (Locals.page_num st)
                                  (RequestException text));
                       Sleep 2000] ++ List.concat (repeat [request st;
                       Console (RequestRetried (Locals.page_num st)
                                  (RequestException text));
                       Sleep 2000] n)) (loop later st)).
    rewrite (loop_round _ _ _ _ _ (pass_on_failed_request st text)), IH.
    apply after_events_app.
Qed.


(** Whatever the answer, a pass makes one request, with the parameters
    of the variables it starts from; and the page number never goes back. *)
Lemma pass_requests (st : locals) (answer : http (option value)) :
  requests (fst (pass st answer))
  = [request_params security_code start_date end_date st].
Proof.
  unfold pass, iteration.
  destruct (try_body st answer) as [events [f|e]] eqn:T; simpl.
  - f_equal. revert T. unfold try_body.
    destruct answer as [text|response]; [discriminate|].
    destruct (raise_for_status response); [|discriminate].
    destruct (body response) as [data|]; [|intros [= <- _]; reflexivity].
    destruct (pageHelp <- get data "pageHelp" (VDict []);; get pageHelp "data" (VList []))
      as [current|]; [|discriminate].
    destruct (truthy current); simpl; [|intros [= <- _]; reflexivity].
    destruct (scan_page current (Locals.title st)) as [[l t]|]; [|discriminate].
    intros [= <- _]; reflexivity.
  - assert (E : events = []).
    { revert T. unfold try_body.
      destruct answer as [text|response]; [intros [= <- _]; reflexivity|].
      destruct (raise_for_status response); [|intros [= <- _]; reflexivity].
      destruct (body response) as [data|]; [|discriminate].
      destruct (pageHelp <- get data "pageHelp" (VDict []);; get pageHelp "data" (VList []))
        as [current|]; [|intros [= <- _]; reflexivity].
      destruct (truthy current); simpl; [|discriminate].
      destruct (scan_page current (Locals.title st)) as [[l t]|]; [discriminate|].
      intros [= <- _]; reflexivity. }
    subst events. destruct (is_RequestException e); reflexivity.
Qed.

Lemma pass_page_num (st st' : locals) (answer : http (option value))
    (events : list event) :
  pass st answer = (events, Again st') ->
  Locals.page_num st <= Locals.page_num st'.
Proof.
  unfold pass, iteration, try_body.
  destruct answer as [text|response]; simpl.
  { intros [= _ <-]. lia. }
  destruct (raise_for_status response) as [[]|e] eqn:E.
  2:{ rewrite (raise_for_status_class _ _ E). intros [= _ <-]. lia. }
  destruct (body response) as [data|]; [|intros [= _ <-]; simpl; lia].
  destruct (pageHelp <- get data "pageHelp" (VDict []);; get pageHelp "data" (VList []))
    as [current|e].
  2:{ destruct (is_RequestException e); [intros [= _ <-]; lia | discriminate]. }
  destruct (truthy current); simpl; [|discriminate].
  destruct (scan_page current (Locals.title st)) as [[l t]|e].
  - intros [= _ <-]; simpl; lia.
  - destruct (is_RequestException e); [intros [= _ <-]; lia | discriminate].
Qed.

Lemma paged_from_le (n m : Z) (p : params) :
  m <= n ->
  paged_from security_code start_date end_date n p ->
  paged_from security_code start_date end_date m p.
Proof. unfold paged_from. intuition lia. Qed.

Lemma loop_requests (answers : list (http (option value))) :
  forall st : locals,
    Forall (paged_from security_code start_date end_date (Locals.page_num st))
      (requests (fetch_events (loop answers st)))
    /\ match requests (fetch_events (loop answers st)) with
       | p :: _ => pageHelp_pageNo p = Locals.page_num st /\ TITLE p = Locals.title st
       | [] => answers = []
       end.
Proof.
  induction answers as [|a answers IH]; intros st; [split; [constructor|reflexivity]|].
  pose proof (pass_requests st a) as R.
  unfold loop; simpl. fold pass. fold loop.
  assert (P0 : paged_from security_code start_date end_date (Locals.page_num st)
                 (request_params security_code start_date end_date st)).
  { unfold paged_from; simpl. repeat split; lia. }
  destruct (pass st a) as [events [st'| |e]] eqn:P; simpl in *.
  - rewrite requests_app, R. simpl. split; [|split; reflexivity].
    constructor; [exact P0|].
    destruct (IH st') as [F _].
    eapply Forall_impl; [|exact F].
    intros p. apply paged_from_le. eapply pass_page_num; eassumption.
  - rewrite R. split; [constructor; [exact P0 | constructor] | split; reflexivity].
  - rewrite R. split; [constructor; [exact P0 | constructor] | split; reflexivity].
Qed.

End OnePass.

(** *** Items and pages *)

Lemma for_each_items (inner : list (list (string * value))) :
  forall (acc : list announcement) (t0 : value),
  exists t',
    for_each item_body (map VDict inner) (acc, t0)
    = Ok ((acc ++ flat_map (fun fields => option_list (announcement_of fields)) inner)%list,
          t').
Proof.
  induction inner as [|fields inner IH]; intros acc t0; simpl.
  - exists t0. rewrite app_nil_r. reflexivity.
  - rewrite item_body_dict. simpl.
    destruct (IH (acc ++ option_list (announcement_of fields))%list
                (match dict_lookup "TITLE" fields with Some t => t | None => VNone end))
      as [t' E].
    exists t'. rewrite E, <- app_assoc. reflexivity.
Qed.

Lemma for_each_inner_lists (page : list (list (list (string * value)))) :
  forall (acc : list announcement) (t0 : value),
  exists t',
    for_each inner_list_body (map (fun inner => VList (map VDict inner)) page) (acc, t0)
    = Ok ((acc ++ flat_map (flat_map (fun fields => option_list (announcement_of fields)))
                    page)%list, t').
Proof.
  induction page as [|inner page IH]; intros acc t0; simpl.
  - exists t0. rewrite app_nil_r. reflexivity.
  - unfold inner_list_body at 1. simpl.
    destruct (for_each_items inner acc t0) as [t1 E1]. rewrite E1. simpl.
    destruct (IH (acc ++ flat_map (fun fields => option_list (announcement_of fields)) inner)%list t1)
      as [t' E].
    exists t'. rewrite E, <- app_assoc. reflexivity.
Qed.

Lemma announcement_of_spec (fields : list (string * value)) (a : announcement) :
  announcement_of fields = Some a <->
  exists t u,
    dict_lookup "TITLE" fields = Some t /\ dict_lookup "URL" fields = Some u
    /\ truthy t = true /\ truthy u = true
    /\ a = {| title := t; url := static_host ++ fstring_field u |}.
Proof.
  unfold announcement_of. split.
  - destruct (dict_lookup "TITLE" fields) as [t|]; [|discriminate].
    destruct (dict_lookup "URL" fields) as [u|]; [|discriminate].
    destruct (truthy t) eqn:Tt, (truthy u) eqn:Tu; simpl; try discriminate.
    intros [= <-]. exists t, u. auto.
  - intros (t & u & -> & -> & -> & -> & ->). reflexivity.
Qed.

Lemma truthy_str (s : string) : truthy (VStr s) = true <-> s <> "".
Proof.
  simpl. rewrite negb_true_iff. split.
  - intros E ->. discriminate.
  - intros N. apply String.eqb_neq. exact N.
Qed.


(** *** The claims about the listing fetch *)

(** C1.  Given answers of the API's shape, none of them an empty page,
    followed by a first page whose data payload is empty, the function
    returns at that page: it has made one request per answer up to and
    including the empty page, it reads none of the later answers, and what
    it returns is the records of the earlier answers, concatenated in page
    order.  And it returns at an empty page only: while no answer is one,
    it has not returned. *)
Theorem fetch_stops_at_first_empty_page
    (session : Session) (security_code start_date end_date : string)
    (title : value) (before : list (http (option value)))
    (last : http (option value)) (later : list (http (option value))) :
  Forall (fun a => is_last_page a = false) before ->
  Forall (fun a => well_shaped a = true) before ->
  is_last_page last = true ->
  let run :=
    fetch_all_announcements_paginated session security_code start_date end_date
      title (before ++ last :: later) in
  fetch_result run = Fetched (List.concat (map records before))
  /\ unread run = later
  /\ List.length (requests (fetch_events run)) = S (List.length before)
  /\ (forall l, fetch_result
                 (fetch_all_announcements_paginated session security_code
                    start_date end_date title before) <> Fetched l).
Proof.
  intros NL WS LP run. subst run. unfold fetch_all_announcements_paginated.
  set (st0 := {| Locals.all_announcements := []; Locals.page_num := 1;
                 Locals.title := title |}).
  destruct (loop_through_pages session security_code start_date end_date before
              NL WS (last :: later) st0) as (events & st' & L & R & A).
  rewrite L. simpl paging.
  rewrite (pass_on_last_page session security_code start_date end_date st' last LP).
  simpl. rewrite A. simpl. repeat split.
  - rewrite requests_app, length_app, R. simpl. lia.
  - intros l. apply loop_never_returns_without_last_page. exact NL.
Qed.

(** C4, where the code departs from it.  The filter is ["annual"]; the
    first page lists one announcement titled ["Q1 Report"]; the request for
    page 2 carries [TITLE = "Q1 Report"]: line 98 assigns the item's title
    to the variable that holds the filter. *)
Theorem title_filter_is_overwritten_by_items :
  map TITLE
    (requests
       (fetch_events
          (fetch_all_announcements_paginated new_Session "600036" "2023-01-01"
             "2023-12-31" (VStr "annual")
             [Responded
                {| status_code := 200; reason := "OK"; response_url := base_url;
                   body :=
                     Some (VDict
                             [("pageHelp",
                               VDict
                                 [("data",
                                   VList
                                     [VList
                                        [VDict [("TITLE", VStr "Q1 Report");
                                                ("URL", VStr "/a.pdf")]]])])]) |};
              Responded
                {| status_code := 200; reason := "OK"; response_url := base_url;
                   body := Some (VDict [("pageHelp", VDict [("data", VList [])])]) |}])))
  = [VStr "annual"; VStr "Q1 Report"].
Proof. reflexivity. Qed.

(** C5.  A page that is a list of lists of items yields the announcements
    of its items, in order, an item that yields none not stopping the
    scan: an item yields an announcement exactly when its ["TITLE"] and
    ["URL"] are both present and non-empty (for a string: not [""]; [None]
    counts as empty), and the announcement's url is the URL path behind
    the static host.  The specification's page yields its one
    announcement. *)
Theorem items_with_title_and_url_yield_announcements :
  (forall (page : list (list (list (string * value)))) (t0 : value),
      exists t',
        scan_page (VList (map (fun inner => VList (map VDict inner)) page)) t0
        = Ok (flat_map (flat_map (fun fields => option_list (announcement_of fields)))
                page, t'))
  /\ (forall (fields : list (string * value)) (a : announcement),
         announcement_of fields = Some a <->
         exists t u,
           dict_lookup "TITLE" fields = Some t /\ dict_lookup "URL" fields = Some u
           /\ truthy t = true /\ truthy u = true
           /\ a = {| title := t; url := static_host ++ fstring_field u |})
  /\ (forall s : string, truthy (VStr s) = true <-> s <> "")
  /\ truthy VNone = false
  /\ (forall s : string, static_host ++ fstring_field (VStr s)
                         = "https://static.sse.com.cn" ++ s)
  /\ (forall t0 : value,
         scan_page
           (VList [VList [VDict [("TITLE", VStr "Q1 Report"); ("URL", VStr "/a.pdf")]];
                   VList [VDict [("TITLE", VStr ""); ("URL", VStr "/b.pdf")]]])
           t0
         = Ok ([{| title := VStr "Q1 Report";
                   url := "https://static.sse.com.cn/a.pdf" |}],
               VStr "")).
Proof.
  split; [|split; [|split; [|split; [|split]]]].
  - intros page t0. unfold scan_page. simpl.
    destruct (for_each_inner_lists page [] t0) as [t' E]. exists t'. exact E.
  - apply announcement_of_spec.
  - apply truthy_str.
  - reflexivity.
  - reflexivity.
  - reflexivity.
Qed.

(** C6.  A body that is not JSON costs the page: the pass ends after the
    request and a printed line, and the loop goes on with the next page
    number and the same records.  A failed request, or a 4xx or 5xx
    status, is followed by a printed line and a 2 s pause, and the loop
    goes on with the variables it had: the same page is requested again.
    However many requests fail in a row, the loop is retrying that page
    after them.  In neither case does the pass end the function. *)
Theorem failures_do_not_abort_paging
    (session : Session) (security_code start_date end_date : string)
    (st : locals) :
  let pass := iteration session security_code start_date end_date in
  let request := request_of session security_code start_date end_date st in
  let retry (e : exn) :=
    [request; Console (RequestRetried (Locals.page_num st) e); Sleep 2000] in
  (forall response : response (option value),
      raise_for_status response = Ok tt ->
      body response = None ->
      pass st (Responded response)
      = ([request; Console (JsonSkipped (Locals.page_num st))],
         Again {| Locals.all_announcements := Locals.all_announcements st;
                  Locals.page_num := Locals.page_num st + 1;
                  Locals.title := Locals.title st |}))
  /\ (forall text : string,
         pass st (Failed text) = (retry (RequestException text), Again st))
  /\ (forall response : response (option value),
         400 <= status_code response < 600 ->
         exists text,
           pass st (Responded response) = (retry (HTTPError text), Again st))
  /\ (forall (n : nat) (text : string) (later : list (http (option value))),
         paging session security_code start_date end_date
           (repeat (Failed text) n ++ later) st
         = after_events (List.concat (repeat (retry (RequestException text)) n))
             (paging session security_code start_date end_date later st)).
Proof.
  intros pass request retry. split; [|split; [|split]].
  - intros response E B.
    apply (pass_on_undecodable_body session security_code start_date end_date st
             response E B).
  - intros text. reflexivity.
  - intros response S.
    assert (E : exists text, raise_for_status response = Raise (HTTPError text)).
    { unfold raise_for_status.
      destruct (Z.ltb_spec (status_code response) 500).
      - replace ((400 <=? status_code response) && true) with true
          by (symmetry; rewrite andb_true_r; apply Z.leb_le; lia).
        eexists; reflexivity.
      - replace ((400 <=? status_code response) && false) with false
          by (rewrite andb_false_r; reflexivity).
        replace ((500 <=? status_code response) && (status_code response <? 600))
          with true
          by (symmetry; apply andb_true_iff; split;
              [apply Z.leb_le | apply Z.ltb_lt]; lia).
        eexists; reflexivity. }
    destruct E as [text E]. exists text.
    apply (pass_on_error_status session security_code start_date end_date st
             response _ E).
  - intros n text later. apply loop_retries.
Qed.

(** Beyond C4: the part of it the code keeps.  Every request carries the
    fixed pagination parameters, the dates and the security code it was
    given, and [beginPage = pageNo], a page number that is at least 1;
    the first request asks for page 1 with [TITLE] the filter. *)
Theorem requests_are_paged_from_one
    (session : Session) (security_code start_date end_date : string)
    (title : value) (answers : list (http (option value))) :
  let sent :=
    requests
      (fetch_events
         (fetch_all_announcements_paginated session security_code start_date
            end_date title answers)) in
  Forall (fun p =>
            isPagination p = "true" /\ pageHelp_pageSize p = 100
            /\ pageHelp_cacheSize p = 1
            /\ START_DATE p = start_date /\ END_DATE p = end_date
            /\ SECURITY_CODE p = security_code
            /\ pageHelp_beginPage p = pageHelp_pageNo p /\ 1 <= pageHelp_pageNo p)
    sent
  /\ match sent with
     | first :: _ => pageHelp_pageNo first = 1 /\ TITLE first = title
     | [] => answers = []
     end.
Proof.
  intros sent. subst sent. unfold fetch_all_announcements_paginated.
  apply (loop_requests session security_code start_date end_date answers
           {| Locals.all_announcements := []; Locals.page_num := 1;
              Locals.title := title |}).
Qed.

End Fetch.


Lemma fetch_stops_at_first_empty_page_witness :
  let answers :=
    [listing_page
       (VList [VList [VDict [("TITLE", VStr "Q1 Report"); ("URL", VStr "/a.pdf")]];
               VList [VDict [("TITLE", VStr ""); ("URL", VStr "/b.pdf")]]]);
     Failed "Read timed out.";
     Responded {| status_code := 200; reason := "OK"; response_url := base_url;
                  body := None |};
     listing_page
       (VList [VList [VDict [("TITLE", VStr "Q2 Report"); ("URL", VStr "/c.pdf")]]]);
     listing_page (VList []);
     listing_page
       (VList [VList [VDict [("TITLE", VStr "Never read"); ("URL", VStr "/d.pdf")]]])] in
  let run :=
    @fetch_all_announcements_paginated unused_repr new_Session "600036"
      "2023-01-01" "2023-12-31" (VStr "") answers in
  fetch_result run
  = Fetched [{| title := VStr "Q1 Report"; url := "https://static.sse.com.cn/a.pdf" |};
             {| title := VStr "Q2 Report"; url := "https://static.sse.com.cn/c.pdf" |}]
  /\ List.length (unread run) = 1%nat
  /\ List.length (requests (fetch_events run)) = 5%nat.
Proof.
  pose proof
    (@fetch_stops_at_first_empty_page unused_repr new_Session "600036"
       "2023-01-01" "2023-12-31" (VStr "")
       [listing_page
          (VList [VList [VDict [("TITLE", VStr "Q1 Report"); ("URL", VStr "/a.pdf")]];
                  VList [VDict [("TITLE", VStr ""); ("URL", VStr "/b.pdf")]]]);
        Failed "Read timed out.";
        Responded {| status_code := 200; reason := "OK"; response_url := base_url;
                     body := None |};
        listing_page
          (VList [VList [VDict [("TITLE", VStr "Q2 Report"); ("URL", VStr "/c.pdf")]]])]
       (listing_page (VList []))
       [listing_page
          (VList [VList [VDict [("TITLE", VStr "Never read"); ("URL", VStr "/d.pdf")]]])])
    as T.
  destruct T as (R & U & N & _).
  - repeat constructor.
  - repeat constructor.
  - reflexivity.
  - intros answers run. subst run answers. split; [|split].
    + exact R.
    + simpl app in U. rewrite U. reflexivity.
    + exact N.
Defined.

(* ================================================================= *)
(** ** Downloads *)

Lemma shown_app (e1 e2 : list event) : shown (e1 ++ e2) = (shown e1 ++ shown e2)%list.
Proof.
  induction e1 as [|e e1 IH]; simpl; [reflexivity|].
  destruct e as [[]| | | | | | | | | |]; simpl; rewrite ?IH; reflexivity.
Qed.

Lemma written_app (e1 e2 : list event) :
  written (e1 ++ e2) = (written e1 ++ written e2)%list.
Proof.
  induction e1 as [|e e1 IH]; simpl; [reflexivity|].
  destruct e; simpl; rewrite ?IH; reflexivity.
Qed.

Ltac run_io :=
  unfold io_bind, emit, unless_raised, lift, raise, io_ret, change, try_except;
  simpl.

Section OneDownload.
Variables (w : download_world) (url filepath : string).

Lemma write_chunks_run (chunks : list (list Byte.byte)) :
  forall (k : nat) (fs : filesystem),
  exists events fs',
    write_chunks w filepath k chunks fs
    = (events, fs',
       match first_write_error w k chunks with
       | Some e => Raise e
       | None => Ok tt
       end)
    /\ shown events = []
    /\ Forall (eq filepath) (written events).
Proof.
  induction chunks as [|chunk chunks IH]; intros k fs; simpl.
  - exists [], fs. repeat split; constructor.
  - run_io. destruct (write_error w k) as [e|]; simpl.
    + do 2 eexists. split; [reflexivity|]. split; [reflexivity|].
      repeat constructor.
    + destruct (IH (S k) (append_to filepath chunk fs)) as (ev & fs' & E & S & W).
      rewrite E. do 2 eexists. split; [reflexivity|]. split; [exact S|].
      simpl. constructor; [reflexivity | exact W].
Qed.

(** The function always returns, and what it returns is the verdict. *)
Lemma download_run (fs : filesystem) :
  exists events fs',
    download_pdf_hybrid w url filepath fs = (events, fs', Ok (verdict w filepath))
    /\ shown events = []
    /\ Forall (eq filepath) (written events).
Proof.
  unfold download_pdf_hybrid, download_steps, verdict, failing_stage. run_io.
  destruct (navigation w) as [e|]; simpl.
  { do 2 eexists; repeat split; constructor. }
  destruct (browser_cookies w) as [[|c cs]|e]; simpl;
    try (do 2 eexists; repeat split; constructor).
  destruct (reply w) as [text|response]; simpl.
  { do 2 eexists; repeat split; constructor. }
  destruct (raise_for_status response) as [[]|e]; simpl.
  2:{ do 2 eexists; repeat split; constructor. }
  destruct (open_error w) as [e|]; simpl.
  { do 2 eexists; split; [reflexivity|]. split; [reflexivity|]. repeat constructor. }
  destruct (write_chunks_run (fst (body response)) 0 (create filepath fs))
    as (ev & fs' & E & S & W).
  rewrite E.
  destruct (first_write_error w 0 (fst (body response))) as [e|]; simpl;
    [|destruct (snd (body response)) as [text|]; simpl];
    (do 2 eexists; split; [reflexivity|]; split;
     [ simpl; rewrite ?shown_app, S; reflexivity
     | simpl; rewrite ?written_app; simpl; rewrite ?app_nil_r;
       constructor; [reflexivity | exact W] ]).
Qed.





End OneDownload.

(* ================================================================= *)
(** ** The batch *)

Section Batch.
Variables (driver : batch_world) (target_dir : string).

Lemma destination_of_string_title (ann : announcement) :
  has_string_title ann ->
  destination target_dir ann = Ok (path_join target_dir (filename_of ann)).
Proof. intros [t T]. unfold destination, filename_of. rewrite T. reflexivity. Qed.

Lemma batch_loop (total : Z) (announcements : list announcement) :
  Forall has_string_title announcements ->
  forall (i : nat) (fs : filesystem),
  exists events fs',
    for_enumerate (batch_body driver total target_dir) i announcements fs
    = (events, fs', Ok tt)
    /\ shown events = verdicts driver target_dir i announcements
    /\ Forall (fun p => exists ann, In ann announcements
                                   /\ p = path_join target_dir (filename_of ann))
         (written events).
Proof.
  induction announcements as [|ann rest IH]; intros ST i fs.
  - exists [], fs. repeat split; constructor.
  - inversion ST as [|? ? STa STr]; subst.
    simpl. unfold batch_body at 1. run_io.
    rewrite (destination_of_string_title _ STa). simpl.
    destruct (download_run (download driver i) (url ann)
                (path_join target_dir (filename_of ann)) fs)
      as (ev & fs1 & E & Sh & W).
    rewrite E.
    destruct (IH STr (S i) fs1) as (ev' & fs' & E' & Sh' & W').
    rewrite E'. do 2 eexists. split; [reflexivity|]. split.
    + simpl. rewrite !shown_app, Sh. simpl. rewrite Sh'. reflexivity.
    + simpl. rewrite !written_app. simpl. rewrite app_nil_r. apply Forall_app. split.
      * eapply Forall_impl; [|exact W]. intros p <-. exists ann. simpl; auto.
      * eapply Forall_impl; [|exact W']. intros p (a & I & ->). exists a. simpl; auto.
Qed.

Lemma batch_run (announcements : list announcement) (fs : filesystem) :
  Forall has_string_title announcements ->
  makedirs_error driver = None ->
  exists events fs',
    batch_download_sequential driver announcements target_dir fs
    = (events, fs', Ok tt)
    /\ shown events = verdicts driver target_dir 0 announcements
    /\ Forall (fun p => exists ann, In ann announcements
                                   /\ p = path_join target_dir (filename_of ann))
         (written events).
Proof.
  intros ST MK. unfold batch_download_sequential.
  destruct announcements as [|ann rest].
  { do 2 eexists. split; [reflexivity|]. split; [reflexivity | constructor]. }
  run_io. rewrite MK. simpl.
  destruct (batch_loop (Z.of_nat (List.length (ann :: rest))) (ann :: rest) ST 0%nat
              (make_directory target_dir fs)) as (ev & fs' & E & Sh & W).
  simpl in E. rewrite E. do 2 eexists. split; [reflexivity|]. split.
  - simpl. exact Sh.
  - simpl. exact W.
Qed.

End Batch.

(* ================================================================= *)
(** ** The claims about downloads *)



(** C10.  On an empty list the function prints its notice and returns:
    that line is its only event, no directory is made, and the file system
    is the one it was given.  On any other list its first act is to make
    the directory. *)
Theorem empty_batch_touches_nothing
    (driver : batch_world) (target_dir : string) (fs : filesystem) :
  batch_download_sequential driver [] target_dir fs
  = ([Console NothingToDownload], fs, Ok tt)
  /\ (forall (ann : announcement) (rest : list announcement),
         exists events fs' r,
           batch_download_sequential driver (ann :: rest) target_dir fs
           = (Makedirs target_dir :: events, fs', r)).
Proof.
  split; [reflexivity|].
  intros ann rest. unfold batch_download_sequential.
  generalize (for_enumerate
                (batch_body driver (Z.of_nat (List.length (ann :: rest))) target_dir)
                0 (ann :: rest)).
  intros loop. run_io.
  destruct (makedirs_error driver) as [e|]; simpl.
  - do 3 eexists; reflexivity.
  - destruct (loop (make_directory target_dir fs)) as [[ev fs'] r].
    do 3 eexists; reflexivity.
Qed.

(** *** What a download leaves on the disk *)

Lemma read_store (path : string) (content : list Byte.byte)
    (fs : list (string * list Byte.byte)) :
  read path (store path content fs) = Some content.
Proof.
  induction fs as [|[p c] fs IH]; simpl.
  - rewrite String.eqb_refl. reflexivity.
  - destruct (String.eqb p path) eqn:E; simpl; rewrite E; [reflexivity | exact IH].
Qed.

Lemma read_store_other (path other : string) (content : list Byte.byte)
    (fs : list (string * list Byte.byte)) :
  other <> path -> read other (store path content fs) = read other fs.
Proof.
  intros N. induction fs as [|[p c] fs IH]; simpl.
  - replace (String.eqb path other) with false; [reflexivity|].
    symmetry. apply String.eqb_neq. congruence.
  - destruct (String.eqb p path) eqn:E; simpl.
    + apply String.eqb_eq in E. subst p.
      replace (String.eqb path other) with false; [reflexivity|].
      symmetry. apply String.eqb_neq. congruence.
    + destruct (String.eqb p other); [reflexivity | exact IH].
Qed.

Section Written.
Variables (w : download_world) (url filepath : string).



End Written.



(* ================================================================= *)
(** ** The script *)

Section Script.
Context `{Formatter}.

(** C8.  When the browser has started and reached the site, and reports
    no cookie, line 222 raises; the script prints the error, quits the
    browser and ends.  Its events are those below whatever the listing API
    and the document host would have answered: no listing request, no
    download, no directory, no file, and the file system is as it was. *)
Theorem no_cookies_ends_the_run (args : Args.t) (w : world) (fs : filesystem) :
  chrome_error w = None ->
  entry_navigation w = None ->
  entry_cookies w = Ok [] ->
  bootstrap w fs
  = ([StartChrome chrome_arguments; Console VisitingSite; DriverGet entry_url;
      Sleep 5000; DriverGetCookies],
     fs, Raise (Exception no_initial_cookies))
  /\ main args w fs
     = ([Console (TaskParameters (Args.security_code args) (Args.start args)
                    (Args.end_ args) (Args.title args) (target_directory args w));
         Console StartingSelenium;
         StartChrome chrome_arguments; Console VisitingSite; DriverGet entry_url;
         Sleep 5000; DriverGetCookies;
         Console (FatalError (Exception no_initial_cookies));
         DriverQuit; Console BrowserClosed],
        fs, Returned tt).
Proof.
  intros C N K.
  assert (B : bootstrap w fs
              = ([StartChrome chrome_arguments; Console VisitingSite;
                  DriverGet entry_url; Sleep 5000; DriverGetCookies],
                 fs, Raise (Exception no_initial_cookies))).
  { unfold bootstrap, io_bind, emit, unless_raised, lift, raise, io_ret.
    rewrite C, N, K. reflexivity. }
  split; [exact B|].
  unfold main, main_try. rewrite B, C. reflexivity.
Qed.

End Script.

Lemma no_cookies_ends_the_run_witness :
  let w :=
    {| timestamp := "20240301_093000";
       chrome_error := None;
       entry_navigation := None;
       entry_cookies := Ok [];
       listing :=
         [listing_page
            (VList [VList [VDict [("TITLE", VStr "Q1 Report"); ("URL", VStr "/a.pdf")]]]);
          listing_page (VList [])];
       batch := {| makedirs_error := None; download := fun _ => smooth_download |} |} in
  let args :=
    {| Args.security_code := "600036"; Args.start := "2023-01-01";
       Args.end_ := "2023-12-31"; Args.output := None; Args.title := "" |} in
  let fs := {| directories := []; files := [] |} in
  @main unused_repr args w fs
  = ([Console (TaskParameters "600036" "2023-01-01" "2023-12-31" ""
                 "downloads/600036_20240301_093000");
      Console StartingSelenium;
      StartChrome chrome_arguments; Console VisitingSite; DriverGet entry_url;
      Sleep 5000; DriverGetCookies;
      Console (FatalError (Exception no_initial_cookies));
      DriverQuit; Console BrowserClosed],
     fs, Returned tt).
Proof.
  intros w args fs.
  apply (@no_cookies_ends_the_run unused_repr args w fs); reflexivity.
Defined.


(** A complete run: one cookie, a listing of one announcement and an
    empty second page, a download that works.  Two listing requests are
    made, and the file is on the disk when the script ends. *)
Example run_with_a_cookie :
  let w :=
    {| timestamp := "20240301_093000";
       chrome_error := None;
       entry_navigation := None;
       entry_cookies := Ok one_cookie;
       listing :=
         [listing_page
            (VList [VList [VDict [("TITLE", VStr "Q1 Report"); ("URL", VStr "/a.pdf")]]]);
          listing_page (VList [])];
       batch := {| makedirs_error := None; download := fun _ => smooth_download |} |} in
  let args :=
    {| Args.security_code := "600036"; Args.start := "2023-01-01";
       Args.end_ := "2023-12-31"; Args.output := Some "q1"; Args.title := "" |} in
  let run := @main unused_repr args w {| directories := []; files := [] |} in
  List.length (requests (fst (fst run))) = 2%nat
  /\ shown (fst (fst run)) = [Success "Q1 Report.pdf"]
  /\ snd (fst run)
     = {| directories := ["downloads"; "downloads/q1"];
          files := [("downloads/q1/Q1 Report.pdf",
                     [Byte.x25; Byte.x50; Byte.x44; Byte.x46])] |}
  /\ snd run = Returned tt.
Proof. repeat split. Qed.

(* ================================================================= *)
(** ** Instances of the claims *)

Lemma failures_do_not_abort_paging_witness :
  let st :=
    {| Locals.all_announcements := []; Locals.page_num := 3;
       Locals.title := VStr "" |} in
  let request := request_of new_Session "600036" "2023-01-01" "2023-12-31" st in
  let retry :=
    [request; Console (RequestRetried 3 (RequestException "Read timed out."));
     Sleep 2000] in
  fetch_events
    (@paging unused_repr new_Session "600036" "2023-01-01" "2023-12-31"
       (repeat (Failed "Read timed out.") 3 ++ [listing_page (VList [])]) st)
  = (retry ++ retry ++ retry ++ [request])%list.
Proof.
  intros st request retry.
  rewrite (proj2 (proj2 (proj2
             (@failures_do_not_abort_paging unused_repr new_Session "600036"
                "2023-01-01" "2023-12-31" st))) 3%nat "Read timed out."
             [listing_page (VList [])]).
  reflexivity.
Defined.


(* ================================================================= *)
(** ** The yearly ranges in closed form *)

Lemma range_loop_year_chunks (end_date : datetime) (fuel : nat) :
  valid end_date = true ->
  year end_date < MAXYEAR ->
  forall (current_start : datetime) (ranges : list (string * string)),
    valid current_start = true ->
    datetime_le current_start end_date = true ->
    (passes_left current_start <= fuel)%nat ->
    range_loop fuel end_date current_start ranges
    = Returned
        (ranges
         ++ map formatted
              (year_chunks (Z.to_nat (year end_date - year current_start))
                 current_start end_date))%list.
Proof.
  intros VE YE. induction fuel as [|fuel IH]; intros cs ranges V LE F.
  - pose proof (passes_left_valid cs V). lia.
  - pose proof (valid_bounds _ V) as B. pose proof (valid_bounds _ VE) as BE.
    pose proof (proj1 (datetime_le_spec _ _) LE) as LE'.
    simpl. rewrite LE, (range_step_spec _ _ _ V).
    replace (year cs <? MAXYEAR) with true by (symmetry; apply Z.ltb_lt; lia).
    destruct (Z.eq_dec (year cs) (year end_date)) as [Y|Y].
    + rewrite (min_in_last_year _ _ VE (eq_sym Y)).
      rewrite range_loop_stops.
      2:{ apply datetime_le_false, datetime_lt_spec. simpl. lia. }
      rewrite Y, Z.sub_diag. reflexivity.
    + rewrite min_before_last_year by lia.
      rewrite IH.
      * replace (Z.to_nat (year end_date - year cs))
          with (S (Z.to_nat (year end_date - (year cs + 1)))) by lia.
        cbn [year_chunks map year]. rewrite <- app_assoc. reflexivity.
      * apply new_year_valid; lia.
      * apply datetime_le_spec. simpl. lia.
      * unfold passes_left, MAXYEAR in *. cbn [year] in *. lia.
Qed.

Lemma year_chunks_length (n : nat) (cs e : datetime) :
  List.length (year_chunks n cs e) = S n.
Proof. revert cs. induction n as [|n IH]; intros cs; simpl; [|rewrite IH]; reflexivity. Qed.

(** The [i]th range of [year_chunks]. *)
Lemma year_chunks_nth (n : nat) (e : datetime) :
  forall (i : nat) (cs : datetime),
    (i <= n)%nat ->
    nth_error (year_chunks n cs e) i
    = Some (if Nat.eqb i 0 then cs else mkdatetime (year cs + Z.of_nat i) 1 1,
            if Nat.eqb i n then e else mkdatetime (year cs + Z.of_nat i) 12 31).
Proof.
  induction n as [|n IH]; intros i cs L.
  - assert (i = 0%nat) by lia. subst. reflexivity.
  - destruct i as [|i].
    + simpl. rewrite Z.add_0_r. reflexivity.
    + cbn [year_chunks nth_error]. rewrite IH by lia. cbn [year].
      replace (Nat.eqb (S i) 0) with false by reflexivity.
      change (Nat.eqb (S i) (S n)) with (Nat.eqb i n).
      replace (year cs + 1 + Z.of_nat i) with (year cs + Z.of_nat (S i)) by lia.
      destruct (Nat.eqb i 0) eqn:E; [|reflexivity].
      apply Nat.eqb_eq in E. subst. simpl. reflexivity.
Qed.

(** X7.  The function's ranges, one by one: there is one for every calendar
    year from the start date's to the end date's; the first starts at the
    start date and every other on 1 January; the last ends at the end date
    and every other on 31 December. *)
Theorem ranges_are_the_calendar_years
    (start_date_str end_date_str : string) (start_date end_date : datetime) :
  strptime start_date_str = Ok start_date ->
  strptime end_date_str = Ok end_date ->
  datetime_le start_date end_date = true ->
  year end_date < MAXYEAR ->
  exists l,
    generate_yearly_date_ranges start_date_str end_date_str
    = Returned (map formatted l)
    /\ Z.of_nat (List.length l) = year end_date - year start_date + 1
    /\ (forall i : Z,
           0 <= i <= year end_date - year start_date ->
           nth_error l (Z.to_nat i)
           = Some (if i =? 0 then start_date
                   else mkdatetime (year start_date + i) 1 1,
                   if i =? year end_date - year start_date then end_date
                   else mkdatetime (year start_date + i) 12 31)).
Proof.
  intros S E LE Y.
  pose proof (proj1 (datetime_le_spec _ _) LE) as LE'.
  exists (year_chunks (Z.to_nat (year end_date - year start_date)) start_date end_date).
  split; [|split].
  - unfold generate_yearly_date_ranges. rewrite S, E.
    apply (range_loop_year_chunks end_date (passes_left start_date)
             (strptime_valid _ _ E) Y start_date [] (strptime_valid _ _ S) LE
             (Nat.le_refl _)).
  - rewrite year_chunks_length. lia.
  - intros i I. rewrite year_chunks_nth by lia.
    rewrite Z2Nat.id by lia.
    replace (Nat.eqb (Z.to_nat i) 0) with (i =? 0).
    2:{ destruct (Z.eqb_spec i 0) as [->|N]; [reflexivity|].
        symmetry. apply Nat.eqb_neq. lia. }
    replace (Nat.eqb (Z.to_nat i) (Z.to_nat (year end_date - year start_date)))
      with (i =? year end_date - year start_date).
    2:{ destruct (Z.eqb_spec i (year end_date - year start_date)) as [->|N].
        - symmetry. apply Nat.eqb_refl.
        - symmetry. apply Nat.eqb_neq. lia. }
    reflexivity.
Qed.

Lemma ranges_are_the_calendar_years_witness :
  exists l,
    generate_yearly_date_ranges "2022-6-15" "2024-02-10" = Returned (map formatted l)
    /\ Z.of_nat (List.length l) = 3
    /\ nth_error l 1 = Some (mkdatetime 2023 1 1, mkdatetime 2023 12 31).
Proof.
  destruct (ranges_are_the_calendar_years "2022-6-15" "2024-02-10"
              (mkdatetime 2022 6 15) (mkdatetime 2024 2 10)
              eq_refl eq_refl eq_refl eq_refl) as (l & R & N & P).
  exists l. split; [exact R|]. split; [exact N|]. exact (P 1 ltac:(simpl; lia)).
Defined.

Lemma strptime_raises_ValueError (s : string) (e : exn) :
  strptime s = Raise e -> e = ValueError.
Proof.
  unfold strptime, datetime_new.
  destruct (parse_Y s) as [[y s1]|]; [|congruence].
  destruct (expect "-" s1) as [s2|]; [|congruence].
  destruct (parse_m s2) as [[m s3]|]; [|congruence].
  destruct (expect "-" s3) as [s4|]; [|congruence].
  destruct (parse_d s4) as [[dd [|]]|]; try congruence.
  destruct (valid_date y m dd); congruence.
Qed.

(** X8.  When the function returns and when it raises, for strings of
    ASCII characters.  It returns exactly when both strings are dates and
    the start is after the end or the end lies before year 9999; it raises
    [ValueError] exactly when one of the strings is not a date, and
    [OverflowError] exactly when both are dates, start <= end and the end
    lies in year 9999. *)
Theorem when_generate_yearly_date_ranges_returns
    (start_date_str end_date_str : string) :
  ascii_only start_date_str = true ->
  ascii_only end_date_str = true ->
  let run := generate_yearly_date_ranges start_date_str end_date_str in
  ((exists ranges, run = Returned ranges)
   <-> (exists start_date end_date,
          strptime start_date_str = Ok start_date
          /\ strptime end_date_str = Ok end_date
          /\ (datetime_lt end_date start_date = true \/ year end_date < MAXYEAR)))
  /\ (run = Raised ValueError
      <-> (strptime start_date_str = Raise ValueError
           \/ strptime end_date_str = Raise ValueError))
  /\ (run = Raised OverflowError
      <-> (exists start_date end_date,
             strptime start_date_str = Ok start_date
             /\ strptime end_date_str = Ok end_date
             /\ datetime_le start_date end_date = true
             /\ year end_date = MAXYEAR)).
Proof.
  intros _ _ run. subst run. unfold generate_yearly_date_ranges.
  destruct (strptime start_date_str) as [a|ea] eqn:S.
  2:{ pose proof (strptime_raises_ValueError _ _ S); subst ea.
      split; [|split]; split; intros H;
        try (decompose [ex and or] H; congruence); auto. }
  destruct (strptime end_date_str) as [b|eb] eqn:E.
  2:{ pose proof (strptime_raises_ValueError _ _ E); subst eb.
      split; [|split]; split; intros H;
        try (decompose [ex and or] H; congruence); auto. }
  pose proof (strptime_valid _ _ S) as VA. pose proof (strptime_valid _ _ E) as VB.
  destruct (datetime_le a b) eqn:LE.
  - destruct (Z.eq_dec (year b) MAXYEAR) as [Y|Y].
    + rewrite (range_loop_overflows b (passes_left a) VB Y a [] VA LE (Nat.le_refl _)).
      split; [|split]; split; intros H;
        try (decompose [ex and or] H; congruence).
      * destruct H as (x & y & [= <-] & [= <-] & [L|L]); [|lia].
        unfold datetime_le in LE. rewrite L in LE. discriminate.
      * exists a, b. auto.
    + pose proof (valid_bounds _ VB) as BB.
      destruct (range_loop_splits b (passes_left a) VB ltac:(lia) a [] VA LE
                  (Nat.le_refl _)) as (l & R & _).
      rewrite R. split; [|split]; split; intros H;
        try (decompose [ex and or] H; congruence).
      * exists a, b. repeat split; auto. right. lia.
      * eexists; reflexivity.
  - rewrite (range_loop_stops _ _ _ _ LE).
    split; [|split]; split; intros H;
      try (decompose [ex and or] H; congruence).
    + exists a, b. repeat split; auto. left. apply datetime_le_false. exact LE.
    + eexists; reflexivity.
Qed.

Lemma when_generate_yearly_date_ranges_returns_witness :
  generate_yearly_date_ranges "2023-02-30" "2023-03-01" = Raised ValueError.
Proof.
  apply (proj2 (proj1 (proj2 (when_generate_yearly_date_ranges_returns
                                "2023-02-30" "2023-03-01" eq_refl eq_refl)))).
  left. reflexivity.
Defined.

Lemma one_year_one_range (a b : datetime) :
  valid a = true -> valid b = true ->
  datetime_le a b = true -> year a = year b -> 1000 <= year b < MAXYEAR ->
  generate_yearly_date_ranges (strftime a) (strftime b)
  = Returned [(strftime a, strftime b)].
Proof.
  intros VA VB LE Y [K M]. unfold generate_yearly_date_ranges.
  rewrite (read_back _ VA), (read_back _ VB) by lia.
  rewrite (range_loop_year_chunks b (passes_left a) VB M a [] VA LE (Nat.le_refl _)).
  rewrite Y, Z.sub_diag. reflexivity.
Qed.

Lemma year_chunks_in_one_year (e : datetime) (n : nat) :
  valid e = true ->
  forall cs : datetime,
    valid cs = true ->
    datetime_le cs e = true ->
    Z.of_nat n = year e - year cs ->
    Forall (fun r => valid (fst r) = true /\ valid (snd r) = true
                     /\ datetime_le (fst r) (snd r) = true
                     /\ year (fst r) = year (snd r)
                     /\ year cs <= year (snd r) <= year e)
      (year_chunks n cs e).
Proof.
  intros VE. induction n as [|n IH]; intros cs V LE N; simpl.
  - repeat constructor; auto; cbn [fst snd]; lia.
  - pose proof (valid_bounds _ V) as B. pose proof (valid_bounds _ VE) as BE.
    constructor.
    + cbn [fst snd]. repeat split; auto.
      * apply year_end_valid. lia.
      * apply datetime_le_spec. simpl. lia.
      * simpl. lia.
      * simpl. lia.
    + eapply Forall_impl; [|apply IH].
      * intros r (A1 & A2 & A3 & A4 & A5). cbn [year] in A5.
        repeat split; auto; lia.
      * apply new_year_valid; unfold MAXYEAR in *; lia.
      * apply datetime_le_spec. simpl. lia.
      * simpl. lia.
Qed.

(** X9.  Splitting is idempotent from year 1000 on: for a start date of a
    year from 1000 on, each range the function returns, given back to it,
    comes back as the one range it is.  (A range of a year before 1000 is
    written without the zeros [strptime] asks for, and cannot be given
    back.) *)
Theorem returned_ranges_are_not_split_again
    (start_date_str end_date_str : string) (start_date end_date : datetime) :
  strptime start_date_str = Ok start_date ->
  strptime end_date_str = Ok end_date ->
  datetime_le start_date end_date = true ->
  1000 <= year start_date ->
  year end_date < MAXYEAR ->
  exists ranges,
    generate_yearly_date_ranges start_date_str end_date_str = Returned ranges
    /\ Forall (fun r => generate_yearly_date_ranges (fst r) (snd r) = Returned [r])
         ranges.
Proof.
  intros S E LE K Y.
  pose proof (strptime_valid _ _ S) as VS. pose proof (strptime_valid _ _ E) as VE.
  pose proof (proj1 (datetime_le_spec _ _) LE) as LE'.
  eexists. split.
  - unfold generate_yearly_date_ranges. rewrite S, E.
    apply (range_loop_year_chunks end_date (passes_left start_date) VE Y
             start_date [] VS LE (Nat.le_refl _)).
  - cbn [app]. apply Forall_map.
    eapply Forall_impl;
      [|apply (year_chunks_in_one_year end_date
                 (Z.to_nat (year end_date - year start_date)) VE start_date VS LE);
        lia].
    intros [a b] (VA & VB & L & SY & M). cbn [fst snd] in *.
    unfold formatted; cbn [fst snd].
    apply one_year_one_range; auto. lia.
Qed.

Lemma returned_ranges_are_not_split_again_witness :
  exists ranges,
    generate_yearly_date_ranges "2022-06-15" "2024-02-10" = Returned ranges
    /\ Forall (fun r => generate_yearly_date_ranges (fst r) (snd r) = Returned [r])
         ranges.
Proof.
  apply (returned_ranges_are_not_split_again "2022-06-15" "2024-02-10"
           (mkdatetime 2022 6 15) (mkdatetime 2024 2 10));
    try reflexivity.
  simpl. lia.
Defined.

(* ================================================================= *)
(** ** The default dates *)

Lemma leap_day_range (y : Z) : 0 <= leap_day y <= 1.
Proof. unfold leap_day. destruct (is_leap y); lia. Qed.

Lemma days_before_next_year (y : Z) :
  days_before_year (y + 1) = days_before_year y + 365 + leap_day y.
Proof.
  unfold days_before_year, leap_day, is_leap.
  replace (y + 1 - 1) with y by lia.
  destruct (Z.eqb_spec (y mod 4) 0), (Z.eqb_spec (y mod 100) 0),
    (Z.eqb_spec (y mod 400) 0); cbn [andb orb negb];
    Z.to_euclidean_division_equations; lia.
Qed.

Ltac by_month m :=
  let C := fresh "C" in
  assert (C : m = 1 \/ m = 2 \/ m = 3 \/ m = 4 \/ m = 5 \/ m = 6 \/ m = 7
              \/ m = 8 \/ m = 9 \/ m = 10 \/ m = 11 \/ m = 12) by lia;
  repeat (destruct C as [C|C]; [subst m|]); [..|subst m].

Lemma days_before_next_month (y m : Z) :
  1 <= m <= 11 ->
  days_before_month y (m + 1) = days_before_month y m + days_in_month y m.
Proof.
  intros M. by_month m; try lia;
    match goal with
    | |- context [days_before_month _ (?a + 1)] =>
        let v := eval compute in (a + 1) in change (a + 1) with v
    end;
    cbv beta iota delta [days_before_month days_in_month leap_day];
    destruct (is_leap y); lia.
Qed.

Lemma day_of_year_range (d : datetime) :
  valid d = true ->
  1 <= days_before_month (year d) (month d) + day d <= 365 + leap_day (year d).
Proof.
  intros V. apply valid_spec in V. destruct V as (_ & M & D).
  revert M D. generalize (day d) as dd. generalize (month d) as m.
  generalize (year d) as y.
  intros y m dd M. by_month m;
    cbv beta iota delta [days_before_month days_in_month leap_day];
    destruct (is_leap y); lia.
Qed.

Lemma days_before_year_mono (a b : Z) :
  a <= b -> days_before_year a <= days_before_year b.
Proof.
  intros L. replace b with (a + Z.of_nat (Z.to_nat (b - a))) by lia.
  induction (Z.to_nat (b - a)) as [|n IH]; [rewrite Z.add_0_r; lia|].
  replace (a + Z.of_nat (S n)) with (a + Z.of_nat n + 1) by lia.
  rewrite days_before_next_year.
  pose proof (leap_day_range (a + Z.of_nat n)). lia.
Qed.

Lemma days_before_month_mono (y a b : Z) :
  1 <= a -> a <= b -> b <= 12 ->
  days_before_month y a + days_in_month y a <= days_before_month y b + days_in_month y b.
Proof.
  intros A L B. replace b with (a + Z.of_nat (Z.to_nat (b - a))) in * by lia.
  induction (Z.to_nat (b - a)) as [|n IH]; [rewrite Z.add_0_r; lia|].
  replace (a + Z.of_nat (S n)) with (a + Z.of_nat n + 1) in * by lia.
  rewrite (days_before_next_month y (a + Z.of_nat n)) by lia.
  assert (0 <= days_in_month y (a + Z.of_nat n + 1)).
  { unfold days_in_month.
    repeat match goal with
           | |- context [match ?x with _ => _ end] => destruct x
           end; lia. }
  specialize (IH ltac:(lia)). lia.
Qed.

(** The ordinal follows the order of the dates. *)
Lemma toordinal_lt (a b : datetime) :
  valid a = true -> valid b = true ->
  datetime_lt a b = true -> toordinal a < toordinal b.
Proof.
  intros VA VB L. apply datetime_lt_spec in L.
  pose proof (day_of_year_range a VA) as RA.
  pose proof (day_of_year_range b VB) as RB.
  unfold toordinal.
  destruct L as [Y|[Y [M|[M D]]]].
  - pose proof (days_before_year_mono (year a + 1) (year b) ltac:(lia)) as Mo.
    rewrite days_before_next_year in Mo. lia.
  - rewrite Y in *.
    apply valid_spec in VA, VB. rewrite Y in VA.
    pose proof (days_before_month_mono (year b) (month a) (month b - 1)
                  ltac:(lia) ltac:(lia) ltac:(lia)) as Mo.
    replace (days_before_month (year b) (month b - 1)
             + days_in_month (year b) (month b - 1))
      with (days_before_month (year b) (month b)) in Mo.
    2:{ rewrite <- (days_before_next_month (year b) (month b - 1)) by lia.
        f_equal. lia. }
    lia.
  - rewrite Y, M. lia.
Qed.

Lemma toordinal_le (a b : datetime) :
  valid a = true -> valid b = true ->
  toordinal a <= toordinal b -> datetime_le a b = true.
Proof.
  intros VA VB L. unfold datetime_le.
  destruct (datetime_lt b a) eqn:E; [|reflexivity].
  pose proof (toordinal_lt b a VB VA E). lia.
Qed.

Lemma toordinal_inj (a b : datetime) :
  valid a = true -> valid b = true -> toordinal a = toordinal b -> a = b.
Proof.
  intros VA VB E.
  pose proof (toordinal_le a b VA VB ltac:(lia)) as L1.
  pose proof (toordinal_le b a VB VA ltac:(lia)) as L2.
  apply datetime_le_spec in L1, L2. apply datetime_eq; lia.
Qed.

Lemma toordinal_positive (d : datetime) : valid d = true -> 1 <= toordinal d.
Proof.
  intros V. pose proof (day_of_year_range d V) as R.
  pose proof (valid_bounds d V) as B.
  pose proof (days_before_year_mono 1 (year d) ltac:(lia)) as M.
  unfold toordinal. change (days_before_year 1) with 0 in M. lia.
Qed.

Lemma days_in_month_positive (y m : Z) : 1 <= m <= 12 -> 28 <= days_in_month y m.
Proof.
  intros M. by_month m;
    cbv beta iota delta [days_in_month]; try destruct (is_leap y); lia.
Qed.

Lemma previous_day_spec (d : datetime) :
  valid d = true -> 1 < toordinal d ->
  exists d',
    previous_day d = Ok d' /\ valid d' = true /\ toordinal d' = toordinal d - 1.
Proof.
  intros V O. pose proof (proj1 (valid_spec d) V) as (Y & M & D).
  unfold previous_day.
  destruct (Z.ltb_spec 1 (day d)) as [L|L].
  { eexists; split; [reflexivity|]. split.
    - apply valid_spec. simpl. lia.
    - unfold toordinal. cbn [year month day]. lia. }
  destruct (Z.ltb_spec 1 (month d)) as [L'|L'].
  { eexists; split; [reflexivity|]. split.
    - apply valid_spec. simpl.
      pose proof (days_in_month_positive (year d) (month d - 1) ltac:(lia)). lia.
    - unfold toordinal. cbn [year month day].
      pose proof (days_before_next_month (year d) (month d - 1) ltac:(lia)) as S.
      replace (month d - 1 + 1) with (month d) in S by lia. lia. }
  destruct (Z.ltb_spec MINYEAR (year d)) as [L''|L'']; unfold MINYEAR in *.
  { eexists; split; [reflexivity|]. split.
    - apply valid_spec. simpl. lia.
    - unfold toordinal. cbn [year month day].
      pose proof (days_before_next_year (year d - 1)) as S.
      replace (year d - 1 + 1) with (year d) in S by lia.
      replace (month d) with 1 by lia.
      cbv beta iota delta [days_before_month]. lia. }
  exfalso. unfold toordinal in O.
  replace (year d) with 1 in O by lia. replace (month d) with 1 in O by lia.
  change (days_before_year 1) with 0 in O.
  cbv beta iota delta [days_before_month] in O. lia.
Qed.

Lemma subtract_days_spec (n : nat) :
  forall d : datetime,
    valid d = true -> Z.of_nat n < toordinal d ->
    exists d',
      subtract_days d n = Ok d' /\ valid d' = true
      /\ toordinal d' = toordinal d - Z.of_nat n.
Proof.
  induction n as [|n IH]; intros d V O.
  - exists d. simpl. repeat split; auto. lia.
  - destruct (previous_day_spec d V ltac:(lia)) as (d1 & P & V1 & O1).
    destruct (IH d1 V1 ltac:(lia)) as (d' & S & V' & O').
    exists d'. cbn [subtract_days]. rewrite P. simpl. rewrite S.
    repeat split; auto. lia.
Qed.

Lemma three_years_of_days (y : Z) :
  days_before_year y
  = days_before_year (y - 3) + 1095 + leap_day (y - 3) + leap_day (y - 2)
    + leap_day (y - 1).
Proof.
  pose proof (days_before_next_year (y - 1)) as A.
  pose proof (days_before_next_year (y - 2)) as B.
  pose proof (days_before_next_year (y - 3)) as C.
  replace (y - 1 + 1) with y in A by lia.
  replace (y - 2 + 1) with (y - 1) in B by lia.
  replace (y - 3 + 1) with (y - 2) in C by lia.
  lia.
Qed.

(** The year of the day 1095 days before a day of year [y] is [y - 3] or
    [y - 2]. *)
Lemma year_three_years_back (now start : datetime) :
  valid now = true -> valid start = true ->
  toordinal start = toordinal now - 1095 ->
  year now - 3 <= year start <= year now - 2.
Proof.
  intros VN VS O.
  pose proof (day_of_year_range now VN) as RN.
  pose proof (day_of_year_range start VS) as RS.
  pose proof (three_years_of_days (year now)) as T.
  pose proof (leap_day_range (year now)). pose proof (leap_day_range (year now - 1)).
  pose proof (leap_day_range (year now - 2)). pose proof (leap_day_range (year now - 3)).
  pose proof (leap_day_range (year start)).
  unfold toordinal in O. split.
  - destruct (Z_le_gt_dec (year now - 3) (year start)) as [L|G]; [exact L|].
    pose proof (days_before_year_mono (year start + 1) (year now - 3) ltac:(lia)) as M.
    rewrite days_before_next_year in M. lia.
  - destruct (Z_le_gt_dec (year start) (year now - 2)) as [L|G]; [exact L|].
    pose proof (days_before_year_mono (year now - 1) (year start) ltac:(lia)) as M.
    pose proof (days_before_next_year (year now - 1)) as A.
    replace (year now - 1 + 1) with (year now) in A by lia.
    lia.
Qed.

Lemma leap_years_are_four_apart (y : Z) :
  leap_day (y - 2) + leap_day (y - 1) + leap_day y <= 1.
Proof.
  assert (forall k, leap_day k = 1 -> k mod 4 = 0) as L4.
  { intros k. unfold leap_day, is_leap.
    destruct (Z.eqb_spec (k mod 4) 0); simpl; [auto|lia]. }
  pose proof (leap_day_range y). pose proof (leap_day_range (y - 1)).
  pose proof (leap_day_range (y - 2)).
  destruct (Z.eq_dec (leap_day y) 1) as [A|A];
    destruct (Z.eq_dec (leap_day (y - 1)) 1) as [B|B];
    destruct (Z.eq_dec (leap_day (y - 2)) 1) as [C|C];
    try apply L4 in A; try apply L4 in B; try apply L4 in C; try lia;
    exfalso; revert A B C; Z.to_euclidean_division_equations; lia.
Qed.

Lemma day_of_year_before_31_December (d : datetime) :
  valid d = true ->
  (month d =? 12) && (day d =? 31) = false ->
  days_before_month (year d) (month d) + day d <= 364 + leap_day (year d).
Proof.
  intros V N. apply valid_spec in V. destruct V as (_ & M & D).
  revert M D N. generalize (day d) as dd. generalize (month d) as m.
  generalize (year d) as y. intros y m dd M.
  by_month m; try lia;
    cbv beta iota delta [days_before_month days_in_month leap_day];
    destruct (is_leap y); intros D N; try lia.
  all: destruct (Z.eqb_spec dd 31); simpl in N; try discriminate; lia.
Qed.

Lemma day_of_year_on_31_December (d : datetime) :
  (month d =? 12) && (day d =? 31) = true ->
  days_before_month (year d) (month d) + day d = 365 + leap_day (year d).
Proof.
  intros N. apply andb_true_iff in N. destruct N as (M & D).
  apply Z.eqb_eq in M. apply Z.eqb_eq in D. rewrite M, D.
  cbv beta iota delta [days_before_month]. lia.
Qed.

Lemma generate_yearly_date_ranges_length
    (start_date end_date : datetime) :
  valid start_date = true -> valid end_date = true ->
  datetime_le start_date end_date = true ->
  1000 <= year start_date ->
  year end_date < MAXYEAR ->
  exists ranges,
    generate_yearly_date_ranges (strftime start_date) (strftime end_date)
    = Returned ranges
    /\ Z.of_nat (List.length ranges) = year end_date - year start_date + 1.
Proof.
  intros VS VE LE K Y.
  pose proof (proj1 (datetime_le_spec _ _) LE) as LE'.
  eexists. split.
  - unfold generate_yearly_date_ranges.
    rewrite (read_back _ VS), (read_back _ VE) by lia.
    apply (range_loop_year_chunks end_date (passes_left start_date)
             VE Y start_date [] VS LE (Nat.le_refl _)).
  - cbn [app]. rewrite length_map, year_chunks_length. lia.
Qed.

(** X10.  The default dates (no [--start], no [--end]), both taken on one
    day [now] of a year from 1003 to 9998, so that the start date lies in
    a year from 1000 on: the start date is computed, and the interval from
    it to the end date is cut into four ranges; except on a 31 December
    with a leap year among this year and the two before, when the start
    date falls on 1 January and there are three. *)
Theorem default_dates_give_four_ranges (now : datetime) :
  valid now = true ->
  1003 <= year now < MAXYEAR ->
  exists start_date_str ranges,
    get_default_start_date now = Ok start_date_str
    /\ generate_yearly_date_ranges start_date_str (get_default_end_date now)
       = Returned ranges
    /\ List.length ranges
       = if (month now =? 12) && (day now =? 31)
            && (is_leap (year now - 2) || is_leap (year now - 1)
                || is_leap (year now))
         then 3%nat else 4%nat.
Proof.
  intros V Y.
  pose proof (day_of_year_range now V) as RN.
  pose proof (three_years_of_days (year now)) as T.
  pose proof (leap_day_range (year now)) as L0.
  pose proof (leap_day_range (year now - 1)) as L1.
  pose proof (leap_day_range (year now - 2)) as L2.
  pose proof (leap_day_range (year now - 3)) as L3.
  pose proof (leap_years_are_four_apart (year now)) as A0.
  pose proof (leap_years_are_four_apart (year now - 1)) as A1.
  replace (year now - 1 - 2) with (year now - 3) in A1 by lia.
  replace (year now - 1 - 1) with (year now - 2) in A1 by lia.
  pose proof (days_before_year_mono 4 (year now) ltac:(lia)) as M4.
  change (days_before_year 4) with 1095 in M4.
  destruct (subtract_days_spec (3 * 365) now V) as (start & S & VS & O).
  { unfold toordinal. change (Z.of_nat (3 * 365)) with 1095. lia. }
  change (Z.of_nat (3 * 365)) with 1095 in O.
  pose proof (year_three_years_back now start V VS O) as YS.
  pose proof (day_of_year_range start VS) as RS.
  assert (datetime_le start now = true) as LE.
  { apply toordinal_le; auto. lia. }
  destruct (generate_yearly_date_ranges_length start now VS V LE ltac:(lia)
              (proj2 Y)) as (ranges & G & N).
  exists (strftime start), ranges. split; [|split].
  - unfold get_default_start_date. rewrite S. reflexivity.
  - exact G.
  - unfold toordinal in O.
    pose proof (days_before_next_year (year now - 3)) as B3.
    replace (year now - 3 + 1) with (year now - 2) in B3 by lia.
    assert (leap_day (year now - 2) + leap_day (year now - 1)
            + leap_day (year now) = 0
            <-> is_leap (year now - 2) || is_leap (year now - 1)
                || is_leap (year now) = false) as Z0.
    { unfold leap_day.
      destruct (is_leap (year now - 2)), (is_leap (year now - 1)),
        (is_leap (year now)); simpl; split; intros; congruence || lia. }
    destruct ((month now =? 12) && (day now =? 31)) eqn:D.
    + pose proof (day_of_year_on_31_December now D) as E.
      destruct (is_leap (year now - 2) || is_leap (year now - 1)
                || is_leap (year now)) eqn:LP; cbn [andb].
      * assert (year start = year now - 2) as Q2; [|lia].
        destruct (Z.eq_dec (year start) (year now - 2)) as [Q|Q]; [exact Q|].
        exfalso. assert (year start = year now - 3) as Q3 by lia.
        rewrite Q3 in *.
        assert (leap_day (year now - 2) + leap_day (year now - 1)
                + leap_day (year now) <> 0) as NZ.
        { intros Z. apply Z0 in Z. discriminate. }
        lia.
      * assert (year start = year now - 3) as Q3; [|lia].
        destruct (Z.eq_dec (year start) (year now - 3)) as [Q|Q]; [exact Q|].
        exfalso. assert (year start = year now - 2) as Q2 by lia.
        rewrite Q2 in *. pose proof (proj2 Z0 eq_refl). lia.
    + pose proof (day_of_year_before_31_December now V D) as E. cbn [andb].
      assert (year start = year now - 3) as Q3; [|lia].
      destruct (Z.eq_dec (year start) (year now - 3)) as [Q|Q]; [exact Q|].
      exfalso. assert (year start = year now - 2) as Q2 by lia.
      rewrite Q2 in *. lia.
Qed.

Lemma default_dates_give_four_ranges_witness :
  exists start_date_str ranges,
    get_default_start_date (mkdatetime 2024 12 31) = Ok start_date_str
    /\ generate_yearly_date_ranges start_date_str
         (get_default_end_date (mkdatetime 2024 12 31))
       = Returned ranges
    /\ List.length ranges = 3%nat.
Proof.
  apply (default_dates_give_four_ranges (mkdatetime 2024 12 31)).
  - reflexivity.
  - unfold MAXYEAR. simpl. lia.
Defined.

Lemma days_before_month_leap (y y' m : Z) :
  1 <= m <= 12 ->
  days_before_month y m - days_before_month y' m
  = if m <=? 2 then 0 else leap_day y - leap_day y'.
Proof.
  intros M. by_month m; try lia;
    match goal with
    | |- context [?a <=? 2] =>
        let v := eval compute in (a <=? 2) in change (a <=? 2) with v
    end;
    cbv beta iota delta [days_before_month]; lia.
Qed.

Lemma digit_char_inj (j k : Z) :
  0 <= j <= 9 -> 0 <= k <= 9 -> digit_char j = digit_char k -> j = k.
Proof.
  intros J K E. pose proof (digit_of_digit_char j J) as Dj.
  rewrite E, (digit_of_digit_char k K) in Dj. congruence.
Qed.

Lemma digit_char_not_dash (k : Z) : 0 <= k <= 9 -> digit_char k <> "-"%char.
Proof.
  intros K E. pose proof (digit_of_digit_char k K) as D.
  rewrite E in D. discriminate.
Qed.

(** Equations between written digits, taken apart. *)
Ltac digits_apart :=
  repeat match goal with
    | H : String _ _ = String _ _ |- _ => injection H as ? ?
    | H : digit_char ?a = digit_char ?b |- _ =>
        apply digit_char_inj in H;
        [|Z.to_euclidean_division_equations; lia
         |Z.to_euclidean_division_equations; lia]
    | H : digit_char ?a = "-"%char |- _ =>
        exfalso; apply (digit_char_not_dash a);
        [Z.to_euclidean_division_equations; lia | exact H]
    | H : "-"%char = digit_char ?a |- _ =>
        exfalso; apply (digit_char_not_dash a);
        [Z.to_euclidean_division_equations; lia | symmetry; exact H]
    end.

Lemma zero_pad2_inj (m m' : Z) (r r' : string) :
  0 <= m <= 99 -> 0 <= m' <= 99 ->
  zero_pad2 m ++ r = zero_pad2 m' ++ r' -> m = m' /\ r = r'.
Proof.
  intros M M'. unfold zero_pad2. cbn [append]. intros E. digits_apart.
  split; [Z.to_euclidean_division_equations; lia | assumption].
Qed.

Lemma write_year_inj (y y' : Z) (r r' : string) :
  1 <= y <= 9999 -> 1 <= y' <= 9999 ->
  write_year y ++ String "-" r = write_year y' ++ String "-" r' ->
  y = y' /\ r = r'.
Proof.
  intros Y Y'. unfold write_year.
  destruct (Z.ltb_spec y 10); [|destruct (Z.ltb_spec y 100);
                                 [|destruct (Z.ltb_spec y 1000)]];
    (destruct (Z.ltb_spec y' 10); [|destruct (Z.ltb_spec y' 100);
                                     [|destruct (Z.ltb_spec y' 1000)]]);
    unfold zero_pad4, zero_pad2; cbn [append]; intros E; digits_apart;
    (split; [Z.to_euclidean_division_equations; lia | assumption]).
Qed.

(** Two valid dates that are written alike are one date. *)
Lemma strftime_inj (a b : datetime) :
  valid a = true -> valid b = true -> strftime a = strftime b -> a = b.
Proof.
  intros VA VB. pose proof (day_le_31 a VA) as (YA & MA & DA).
  pose proof (day_le_31 b VB) as (YB & MB & DB).
  unfold strftime. change ("-" ++ ?x) with (String "-" x).
  intros E. apply write_year_inj in E; [|lia|lia]. destruct E as [Y E].
  apply zero_pad2_inj in E; [|lia|lia]. destruct E as [M E].
  unfold zero_pad2 in E. cbn [append] in E. digits_apart.
  assert (day a = day b) by (Z.to_euclidean_division_equations; lia).
  destruct a, b. cbn [year month day] in *. congruence.
Qed.

(** X11.  The default start date is the same calendar day three years
    earlier exactly when no 29 February lies in between; otherwise the
    1095 days fall short of three years. *)
Theorem default_start_is_three_years_ago_without_leap_day (now : datetime) :
  valid now = true ->
  4 <= year now ->
  valid (mkdatetime (year now - 3) (month now) (day now)) = true ->
  let first := if month now <=? 2 then year now - 3 else year now - 2 in
  get_default_start_date now
  = Ok (strftime (mkdatetime (year now - 3) (month now) (day now)))
  <-> is_leap first || is_leap (first + 1) || is_leap (first + 2) = false.
Proof.
  intros V Y VA first.
  pose proof (proj1 (valid_spec now) V) as (_ & M & _).
  pose proof (three_years_of_days (year now)) as T.
  pose proof (days_before_month_leap (year now) (year now - 3) (month now) M) as DM.
  pose proof (leap_day_range (year now)) as L0.
  pose proof (leap_day_range (year now - 1)) as L1.
  pose proof (leap_day_range (year now - 2)) as L2.
  pose proof (leap_day_range (year now - 3)) as L3.
  pose proof (days_before_year_mono 4 (year now) ltac:(lia)) as M4.
  change (days_before_year 4) with 1095 in M4.
  pose proof (day_of_year_range now V) as RN.
  destruct (subtract_days_spec (3 * 365) now V) as (start & S & VS & O).
  { unfold toordinal. change (Z.of_nat (3 * 365)) with 1095. lia. }
  change (Z.of_nat (3 * 365)) with 1095 in O.
  unfold get_default_start_date. rewrite S. cbn [bind].
  assert (leap_day first + leap_day (first + 1) + leap_day (first + 2) = 0
          <-> is_leap first || is_leap (first + 1) || is_leap (first + 2)
              = false) as Z0.
  { unfold leap_day.
    destruct (is_leap first), (is_leap (first + 1)), (is_leap (first + 2));
      simpl; split; intros; congruence || lia. }
  rewrite <- Z0. clear Z0.
  pose proof (leap_day_range first). pose proof (leap_day_range (first + 1)).
  pose proof (leap_day_range (first + 2)).
  assert (toordinal now
          - toordinal (mkdatetime (year now - 3) (month now) (day now))
          = 1095 + leap_day first + leap_day (first + 1) + leap_day (first + 2))
    as D.
  { unfold toordinal. cbn [year month day]. subst first.
    destruct (Z.leb_spec (month now) 2).
    - replace (year now - 3 + 1) with (year now - 2) by lia.
      replace (year now - 3 + 2) with (year now - 1) by lia. lia.
    - replace (year now - 2 + 1) with (year now - 1) by lia.
      replace (year now - 2 + 2) with (year now) by lia. lia. }
  split.
  - intros E. assert (start = mkdatetime (year now - 3) (month now) (day now)) as Q.
    { apply strftime_inj; auto. congruence. }
    rewrite <- Q in D. lia.
  - intros E. f_equal. f_equal. apply toordinal_inj; auto. lia.
Qed.

Lemma default_start_is_three_years_ago_without_leap_day_witness :
  get_default_start_date (mkdatetime 2023 7 14) = Ok "2020-07-14"
  <-> is_leap 2021 || is_leap 2022 || is_leap 2023 = false.
Proof.
  apply (default_start_is_three_years_ago_without_leap_day (mkdatetime 2023 7 14)).
  - reflexivity.
  - simpl. lia.
  - reflexivity.
Defined.

(* ================================================================= *)
(** ** What the fetch keeps and loses *)

Section FetchMore.
Context `{Formatter}.

Lemma item_body_raises (vars : list announcement * value) (item : value) (e : exn) :
  item_body vars item = Raise e -> e = AttributeError.
Proof.
  destruct vars as [acc t]. destruct item; try (intros [= <-]; reflexivity).
  rewrite item_body_dict. discriminate.
Qed.

Lemma for_each_raises {A S : Type} (P : exn -> Prop) (body : S -> A -> result S) :
  (forall s x e, body s x = Raise e -> P e) ->
  forall (l : list A) (s : S) (e : exn), for_each body l s = Raise e -> P e.
Proof.
  intros B l. induction l as [|x l IH]; intros s e; simpl; [discriminate|].
  destruct (body s x) as [s'|e'] eqn:E; simpl.
  - apply IH.
  - intros [= <-]. apply (B _ _ _ E).
Qed.

Lemma inner_list_body_raises (vars : list announcement * value) (inner : value)
    (e : exn) :
  inner_list_body vars inner = Raise e -> shape_error e.
Proof.
  unfold inner_list_body.
  destruct (iterate inner) as [items|e'] eqn:I; simpl.
  - intros E. left.
    apply (for_each_raises (fun e => e = AttributeError) item_body
             item_body_raises _ _ _ E).
  - intros [= <-]. right. destruct inner; simpl in I; congruence.
Qed.

Lemma scan_page_raises (v t : value) (e : exn) :
  scan_page v t = Raise e -> shape_error e.
Proof.
  unfold scan_page.
  destruct (iterate v) as [lists|e'] eqn:I; simpl.
  - apply (for_each_raises shape_error inner_list_body inner_list_body_raises).
  - intros [= <-]. right. destruct v; simpl in I; congruence.
Qed.

Lemma get_raises (v : value) (key : string) (default : value) (e : exn) :
  get v key default = Raise e -> e = AttributeError.
Proof. destruct v; simpl; congruence. Qed.

Section Pass.
Variables (session : Session) (security_code start_date end_date : string).

Let pass := iteration session security_code start_date end_date.
Let request := request_of session security_code start_date end_date.
Let loop := paging session security_code start_date end_date.

(** An answer of the wrong shape ends the pass with an exception that
    leaves the function. *)
Lemma pass_on_misshapen (st : locals) (answer : http (option value)) :
  is_last_page answer = false ->
  well_shaped answer = false ->
  exists e, pass st answer = ([request st], Propagate e) /\ shape_error e.
Proof.
  unfold is_last_page, well_shaped, payload, pass, iteration, try_body.
  destruct answer as [text|response]; [discriminate|].
  destruct (raise_for_status response) as [[]|e] eqn:E; [|discriminate].
  destruct (body response) as [data|]; [|discriminate].
  destruct (get data "pageHelp" (VDict [])) as [pageHelp|e] eqn:G1; simpl.
  2:{ intros _ _. apply get_raises in G1. subst e. eexists. split; [reflexivity|].
      left; reflexivity. }
  destruct (get pageHelp "data" (VList [])) as [current|e] eqn:G2; simpl.
  2:{ intros _ _. apply get_raises in G2. subst e. eexists. split; [reflexivity|].
      left; reflexivity. }
  intros T. apply negb_false_iff in T. rewrite T. simpl.
  pose proof (scan_page_title current (Locals.title st)) as S.
  destruct (page_records current) as [l|e] eqn:P; [discriminate|].
  intros _.
  destruct (scan_page current (Locals.title st)) as [[l' t']|e'] eqn:Sc;
    [contradiction|]. subst e'.
  pose proof (scan_page_raises _ _ _ Sc) as SE.
  destruct SE as [-> | ->]; eexists; (split; [reflexivity|]);
    [left|right]; reflexivity.
Qed.

End Pass.

(** X12.  An answer that is not read as an empty page and that lines
    89-99 cannot read ends the fetch: when [response.json()] or its
    ["pageHelp"] is not a dict, when the data cannot be iterated, or when
    the scan meets an element of the data that cannot be iterated or an
    item that is not a dict (the characters of a string and the keys of a
    dict are its items), an [AttributeError] or a [TypeError] leaves the
    function, which no handler of it takes.  The records of the pages read
    before are not returned, and no later answer is asked for.  ([well_shaped]
    is false of exactly the answers whose reading raises; an answer of
    another shape than the API's that raises nothing, such as a data of
    empty strings, is paged through.) *)
Theorem a_misshapen_answer_ends_the_fetch
    (session : Session) (security_code start_date end_date : string)
    (title : value) (before : list (http (option value)))
    (bad : http (option value)) (later : list (http (option value))) :
  Forall (fun a => is_last_page a = false) before ->
  Forall (fun a => well_shaped a = true) before ->
  is_last_page bad = false ->
  well_shaped bad = false ->
  let run :=
    fetch_all_announcements_paginated session security_code start_date end_date
      title (before ++ bad :: later) in
  (fetch_result run = Crashed AttributeError
   \/ fetch_result run = Crashed TypeError)
  /\ unread run = later
  /\ List.length (requests (fetch_events run)) = S (List.length before).
Proof.
  intros NL WS NB B run. subst run. unfold fetch_all_announcements_paginated.
  set (st0 := {| Locals.all_announcements := []; Locals.page_num := 1;
                 Locals.title := title |}).
  destruct (loop_through_pages session security_code start_date end_date before
              NL WS (bad :: later) st0) as (events & st' & L & R & A).
  rewrite L. simpl paging.
  destruct (pass_on_misshapen session security_code start_date end_date st' bad
              NB B)
    as (e & P & SE).
  rewrite P. simpl. split; [|split].
  - destruct SE as [-> | ->]; auto.
  - reflexivity.
  - rewrite requests_app, length_app, R. simpl. lia.
Qed.


(** *** The variable [title] after a page *)

Lemma last_cons {A : Type} (x d : A) (l : list A) : last (x :: l) d = last l x.
Proof.
  destruct l as [|y l]; [reflexivity|].
  change (last (y :: l) d = last (y :: l) x). apply last_default. discriminate.
Qed.

Lemma for_each_items_title (inner : list (list (string * value))) :
  forall (acc : list announcement) (t0 : value),
    for_each item_body (map VDict inner) (acc, t0)
    = Ok ((acc ++ flat_map (fun fields => option_list (announcement_of fields)) inner)%list,
          last (map title_of inner) t0).
Proof.
  induction inner as [|fields inner IH]; intros acc t0.
  - simpl. rewrite app_nil_r. reflexivity.
  - cbn [map for_each flat_map]. rewrite item_body_dict. cbn [bind].
    rewrite IH, <- app_assoc. fold (title_of fields).
    rewrite last_cons. reflexivity.
Qed.

Lemma for_each_inner_lists_title (page : list (list (list (string * value)))) :
  forall (acc : list announcement) (t0 : value),
    for_each inner_list_body (map (fun inner => VList (map VDict inner)) page) (acc, t0)
    = Ok ((acc ++ flat_map (flat_map (fun fields => option_list (announcement_of fields)))
                    page)%list,
          last (map title_of (List.concat page)) t0).
Proof.
  induction page as [|inner page IH]; intros acc t0.
  - simpl. rewrite app_nil_r. reflexivity.
  - cbn [map for_each flat_map List.concat]. unfold inner_list_body at 1.
    cbn [iterate bind]. rewrite for_each_items_title. cbn [bind].
    rewrite IH, <- app_assoc. f_equal. f_equal.
    rewrite map_app.
    generalize (map title_of (List.concat page)) as later.
    generalize (map title_of inner) as first. clear.
    intros first. revert t0.
    induction first as [|x first IHf]; intros t0 later; [reflexivity|].
    cbn [app]. rewrite !last_cons. apply IHf.
Qed.

Section Pass2.
Variables (session : Session) (security_code start_date end_date : string).

Let pass := iteration session security_code start_date end_date.
Let request := request_of session security_code start_date end_date.

(** A page of lists of items sends the loop round with [title] the
    ["TITLE"] of its last item. *)
Lemma pass_on_items_page (st : locals) (answer : http (option value))
    (page : list (list (list (string * value)))) :
  payload answer
  = Ok (Some (VList (map (fun inner => VList (map VDict inner)) page))) ->
  page <> [] ->
  pass st answer
  = ([request st; Sleep 500],
     Again {| Locals.all_announcements :=
                (Locals.all_announcements st
                 ++ flat_map (flat_map (fun fields => option_list (announcement_of fields)))
                      page)%list;
              Locals.page_num := Locals.page_num st + 1;
              Locals.title := last (map title_of (List.concat page)) (Locals.title st) |}).
Proof.
  unfold payload, pass, iteration, try_body.
  destruct answer as [text|response]; [discriminate|].
  destruct (raise_for_status response) as [[]|e] eqn:E; [|discriminate].
  destruct (body response) as [data|]; [|discriminate].
  destruct (get data "pageHelp" (VDict [])) as [pageHelp|e]; simpl; [|discriminate].
  destruct (get pageHelp "data" (VList [])) as [current|e]; simpl; [|discriminate].
  intros [= ->] N.
  destruct page as [|inner page]; [contradiction|].
  cbn [map truthy negb]. unfold scan_page. cbn [iterate bind].
  change (VList (map VDict inner) :: map (fun inner0 => VList (map VDict inner0)) page)
    with (map (fun inner0 => VList (map VDict inner0)) (inner :: page)).
  rewrite for_each_inner_lists_title. reflexivity.
Qed.

End Pass2.

(** X13.  The filter given as [title] is sent with the requests only until
    a page lists an item: from the next request on, [TITLE] is the
    ["TITLE"] of the last item of the page before, [None] when that item
    has none. *)
Theorem the_filter_is_replaced_by_the_last_listed_title
    (session : Session) (security_code start_date end_date : string)
    (title : value) (answer next : http (option value))
    (later : list (http (option value)))
    (page : list (list (list (string * value)))) :
  payload answer
  = Ok (Some (VList (map (fun inner => VList (map VDict inner)) page))) ->
  page <> [] ->
  exists first second rest,
    requests
      (fetch_events
         (fetch_all_announcements_paginated session security_code start_date
            end_date title (answer :: next :: later)))
    = first :: second :: rest
    /\ TITLE first = title /\ pageHelp_pageNo first = 1
    /\ TITLE second = last (map title_of (List.concat page)) title
    /\ pageHelp_pageNo second = 2.
Proof.
  intros P N. unfold fetch_all_announcements_paginated.
  set (st0 := {| Locals.all_announcements := []; Locals.page_num := 1;
                 Locals.title := title |}).
  rewrite (loop_round session security_code start_date end_date answer
             (next :: later) st0 _ _
             (pass_on_items_page session security_code start_date end_date st0
                answer page P N)).
  cbn [after_events fetch_events app requests request_of].
  match goal with
  | |- context [paging _ _ _ _ _ ?st] => set (st1 := st)
  end.
  pose proof (loop_requests session security_code start_date end_date
                (next :: later) st1) as [_ R].
  destruct (requests (fetch_events
              (paging session security_code start_date end_date (next :: later) st1)))
    as [|second rest]; [discriminate|].
  destruct R as [R1 R2].
  eexists _, second, rest. split; [reflexivity|].
  cbn [TITLE pageHelp_pageNo request_params Locals.title Locals.page_num st0].
  repeat split; auto.
Qed.

(** *** What the records are *)

Lemma for_each_invariant {A S : Type} (I : S -> Prop) (body : S -> A -> result S) :
  (forall s x s', body s x = Ok s' -> I s -> I s') ->
  forall (l : list A) (s s' : S), for_each body l s = Ok s' -> I s -> I s'.
Proof.
  intros B l. induction l as [|x l IH]; intros s s'; simpl.
  - intros [= <-]. auto.
  - destruct (body s x) as [s1|e] eqn:E; simpl; [|discriminate].
    intros F Is. apply (IH _ _ F). apply (B _ _ _ E Is).
Qed.

Lemma item_body_listed (vars : list announcement * value) (item : value)
    (vars' : list announcement * value) :
  item_body vars item = Ok vars' ->
  Forall listed (fst vars) -> Forall listed (fst vars').
Proof.
  unfold item_body.
  destruct (get item "TITLE" VNone) as [t|]; simpl; [|discriminate].
  destruct (get item "URL" VNone) as [u|]; simpl; [|discriminate].
  destruct (truthy t) eqn:Tt; simpl; [|intros [= <-]; auto].
  destruct (truthy u) eqn:Tu; simpl; [|intros [= <-]; auto].
  intros [= <-] F. simpl. apply Forall_app. split; [exact F|].
  constructor; [|constructor]. split; [exact Tt|].
  exists u. split; [exact Tu | reflexivity].
Qed.

Lemma inner_list_body_listed (vars : list announcement * value) (inner : value)
    (vars' : list announcement * value) :
  inner_list_body vars inner = Ok vars' ->
  Forall listed (fst vars) -> Forall listed (fst vars').
Proof.
  unfold inner_list_body.
  destruct (iterate inner) as [items|]; simpl; [|discriminate].
  apply (for_each_invariant (fun s => Forall listed (fst s)) item_body
           item_body_listed).
Qed.

Lemma scan_page_listed (v t : value) (l : list announcement) (t' : value) :
  scan_page v t = Ok (l, t') -> Forall listed l.
Proof.
  unfold scan_page. destruct (iterate v) as [lists|]; simpl; [|discriminate].
  intros F.
  apply (for_each_invariant (fun s => Forall listed (fst s)) inner_list_body
           inner_list_body_listed lists _ _ F).
  constructor.
Qed.

Section Pass3.
Variables (session : Session) (security_code start_date end_date : string).

Let pass := iteration session security_code start_date end_date.
Let loop := paging session security_code start_date end_date.

Lemma pass_listed (st st' : locals) (answer : http (option value))
    (events : list event) :
  pass st answer = (events, Again st') ->
  Forall listed (Locals.all_announcements st) ->
  Forall listed (Locals.all_announcements st').
Proof.
  unfold pass, iteration, try_body.
  destruct answer as [text|response]; simpl.
  { intros [= _ <-]. auto. }
  destruct (raise_for_status response) as [[]|e] eqn:E.
  2:{ rewrite (raise_for_status_class _ _ E). intros [= _ <-]. auto. }
  destruct (body response) as [data|]; [|intros [= _ <-]; auto].
  destruct (pageHelp <- get data "pageHelp" (VDict []);; get pageHelp "data" (VList []))
    as [current|e].
  2:{ destruct (is_RequestException e); [intros [= _ <-]; auto | discriminate]. }
  destruct (truthy current); simpl; [|discriminate].
  destruct (scan_page current (Locals.title st)) as [[l t]|e] eqn:Sc.
  - intros [= _ <-] F. simpl. apply Forall_app. split; [exact F|].
    apply (scan_page_listed _ _ _ _ Sc).
  - destruct (is_RequestException e); [intros [= _ <-]; auto | discriminate].
Qed.

Lemma loop_listed (answers : list (http (option value))) :
  forall (st : locals) (l : list announcement),
    Forall listed (Locals.all_announcements st) ->
    fetch_result (loop answers st) = Fetched l -> Forall listed l.
Proof.
  induction answers as [|a answers IH]; intros st l F; [discriminate|].
  unfold loop; simpl. fold pass.
  destruct (pass st a) as [events [st'| |e]] eqn:P; simpl.
  - apply IH. apply (pass_listed _ _ _ _ P F).
  - intros [= <-]. exact F.
  - discriminate.
Qed.

End Pass3.

(** X14.  Whatever the listing API answers, every announcement the function
    returns has a title and a URL path that are true in Python's sense
    (for a string: not empty), and its url is the static host followed by
    that path. *)
Theorem fetched_announcements_have_a_title_and_a_url
    (session : Session) (security_code start_date end_date : string)
    (title : value) (answers : list (http (option value)))
    (all_announcements : list announcement) :
  fetch_result
    (fetch_all_announcements_paginated session security_code start_date end_date
       title answers)
  = Fetched all_announcements ->
  Forall listed all_announcements.
Proof.
  unfold fetch_all_announcements_paginated. apply loop_listed. constructor.
Qed.

End FetchMore.

Lemma a_misshapen_answer_ends_the_fetch_witness :
  let run :=
    @fetch_all_announcements_paginated unused_repr new_Session "600036"
      "2023-01-01" "2023-12-31" (VStr "")
      [listing_page
         (VList [VList [VDict [("TITLE", VStr "Q1 Report"); ("URL", VStr "/a.pdf")]]]);
       listing_page (VList [VDict [("TITLE", VStr "Q2 Report"); ("URL", VStr "/b.pdf")]]);
       listing_page (VList [])] in
  fetch_result run = Crashed AttributeError
  /\ unread run = [listing_page (VList [])].
Proof.
  destruct (@a_misshapen_answer_ends_the_fetch unused_repr new_Session "600036"
              "2023-01-01" "2023-12-31" (VStr "")
              [listing_page
                 (VList [VList [VDict [("TITLE", VStr "Q1 Report");
                                       ("URL", VStr "/a.pdf")]]])]
              (listing_page
                 (VList [VDict [("TITLE", VStr "Q2 Report"); ("URL", VStr "/b.pdf")]]))
              [listing_page (VList [])])
    as ([R|R] & U & _).
  - repeat constructor.
  - repeat constructor.
  - reflexivity.
  - reflexivity.
  - intros run. split; [exact R | exact U].
  - discriminate R.
Defined.

Lemma the_filter_is_replaced_by_the_last_listed_title_witness :
  exists first second rest,
    requests
      (fetch_events
         (@fetch_all_announcements_paginated unused_repr new_Session "600036"
            "2023-01-01" "2023-12-31" (VStr "annual")
            [listing_page
               (VList [VList [VDict [("TITLE", VStr "Q1 Report"); ("URL", VStr "/a.pdf")];
                              VDict [("URL", VStr "/b.pdf")]]]);
             listing_page (VList [])]))
    = first :: second :: rest
    /\ TITLE first = VStr "annual" /\ pageHelp_pageNo first = 1
    /\ TITLE second = VNone
    /\ pageHelp_pageNo second = 2.
Proof.
  apply (@the_filter_is_replaced_by_the_last_listed_title unused_repr new_Session
           "600036" "2023-01-01" "2023-12-31" (VStr "annual")
           (listing_page
              (VList [VList [VDict [("TITLE", VStr "Q1 Report"); ("URL", VStr "/a.pdf")];
                             VDict [("URL", VStr "/b.pdf")]]]))
           (listing_page (VList [])) []
           [[[("TITLE", VStr "Q1 Report"); ("URL", VStr "/a.pdf")];
             [("URL", VStr "/b.pdf")]]]).
  - reflexivity.
  - discriminate.
Defined.

Lemma fetched_announcements_have_a_title_and_a_url_witness :
  Forall (@listed unused_repr)
    [{| title := VStr "Q1 Report"; url := "https://static.sse.com.cn/a.pdf" |}].
Proof.
  apply (@fetched_announcements_have_a_title_and_a_url unused_repr new_Session
           "600036" "2023-01-01" "2023-12-31" (VStr "")
           [listing_page
              (VList [VList [VDict [("TITLE", VStr "Q1 Report"); ("URL", VStr "/a.pdf")];
                             VDict [("TITLE", VStr ""); ("URL", VStr "/b.pdf")]]]);
            listing_page (VList [])]).
  reflexivity.
Defined.

(* ================================================================= *)
(** ** What downloads and batches leave on the disk *)

Section Disk.
Variables (w : download_world) (url filepath : string).

Lemma write_chunks_disk (chunks : list (list Byte.byte)) :
  forall (k : nat) (fs : filesystem) (before : list Byte.byte),
    read filepath (files fs) = Some before ->
    exists events fs' r,
      write_chunks w filepath k chunks fs = (events, fs', r)
      /\ read filepath (files fs')
         = Some (before ++ List.concat (written_chunks w k chunks))%list
      /\ directories fs' = directories fs
      /\ (forall other, other <> filepath ->
                        read other (files fs') = read other (files fs)).
Proof.
  induction chunks as [|chunk chunks IH]; intros k fs before R;
    cbn [write_chunks written_chunks].
  - exists [], fs, (Ok tt). simpl. rewrite app_nil_r. auto.
  - unfold io_bind, emit, unless_raised, change, io_ret, raise.
    destruct (write_error w k) as [e|].
    + do 3 eexists. split; [reflexivity|]. simpl. rewrite app_nil_r. auto.
    + destruct (IH (S k) (append_to filepath chunk fs) (before ++ chunk)%list)
        as (ev & fs' & r & E & C & D & O).
      { unfold append_to; simpl. rewrite R. apply read_store. }
      rewrite E. do 3 eexists. split; [reflexivity|]. split; [|split].
      * rewrite C. cbn [List.concat]. rewrite <- app_assoc. reflexivity.
      * rewrite D. reflexivity.
      * intros other N. rewrite (O other N). unfold append_to; simpl.
        apply read_store_other. exact N.
Qed.

Lemma download_disk (fs : filesystem) :
  exists events fs',
    download_pdf_hybrid w url filepath fs = (events, fs', Ok (verdict w filepath))
    /\ read filepath (files fs') = left_behind w (read filepath (files fs))
    /\ directories fs' = directories fs
    /\ (forall other, other <> filepath ->
                      read other (files fs') = read other (files fs)).
Proof.
  destruct (download_run w url filepath fs) as (ev0 & fs0 & E0 & _).
  exists ev0, fs0. split; [exact E0|].
  revert E0. unfold left_behind, opened.
  unfold download_pdf_hybrid, download_steps, try_except, io_bind, emit,
    unless_raised, lift, raise, io_ret, change.
  destruct (navigation w); [intros [= _ <- _]; auto|].
  destruct (browser_cookies w) as [[|c cs]|]; try (intros [= _ <- _]; auto).
  destruct (reply w) as [text|response]; [intros [= _ <- _]; auto|].
  destruct (raise_for_status response) as [[]|]; [|intros [= _ <- _]; auto].
  destruct (open_error w); [intros [= _ <- _]; auto|].
  destruct (write_chunks_disk (fst (body response)) 0 (create filepath fs) [])
    as (ev & fs' & r & E & C & D & O).
  { unfold create; simpl. apply read_store. }
  rewrite E.
  assert (forall other, other <> filepath ->
                        read other (files fs') = read other (files fs)) as O'.
  { intros other N. rewrite (O other N). unfold create; simpl.
    apply read_store_other. exact N. }
  destruct r as [[]|e]; [destruct (snd (body response))|];
    intros [= _ <- _]; (split; [exact C|]); (split; [exact D | exact O']).
Qed.

End Disk.

(** *** The claim about download failures *)







(** *** Destinations *)





Section BatchDisk.
Variables (driver : batch_world) (target_dir : string).

Lemma batch_body_disk (total : Z) (i : nat) (ann : announcement) (fs : filesystem) :
  has_string_title ann ->
  let filepath := path_join target_dir (filename_of ann) in
  exists events fs',
    batch_body driver total target_dir i ann fs = (events, fs', Ok tt)
    /\ shown events = [verdict (download driver i) filepath]
    /\ read filepath (files fs')
       = left_behind (download driver i) (read filepath (files fs))
    /\ directories fs' = directories fs
    /\ (forall other, other <> filepath ->
                      read other (files fs') = read other (files fs)).
Proof.
  intros ST filepath. unfold batch_body. run_io.
  rewrite (destination_of_string_title target_dir _ ST). simpl.
  destruct (download_disk (download driver i) (url ann) filepath fs)
    as (ev & fs' & E & C & D & O).
  destruct (download_run (download driver i) (url ann) filepath fs)
    as (ev0 & fs0 & E0 & Sh & _).
  rewrite E in E0. injection E0 as <- <-.
  fold filepath. rewrite E. do 2 eexists. split; [reflexivity|].
  split; [|auto].
  simpl. rewrite shown_app, Sh. reflexivity.
Qed.


Lemma batch_loop_upto (total : Z) (before : list announcement) :
  Forall has_string_title before ->
  forall (rest : list announcement) (i : nat) (fs : filesystem),
  exists events fs1,
    for_enumerate (batch_body driver total target_dir) i (before ++ rest) fs
    = (let '(later, fs', r) :=
         for_enumerate (batch_body driver total target_dir)
           (i + List.length before) rest fs1 in
       ((events ++ later)%list, fs', r))
    /\ shown events = verdicts driver target_dir i before
    /\ directories fs1 = directories fs.
Proof.
  induction before as [|ann before IH]; intros ST rest i fs.
  - exists [], fs. cbn [app List.length]. rewrite Nat.add_0_r.
    destruct (for_enumerate _ i rest fs) as [[later fs'] r]. auto.
  - inversion ST as [|? ? STa STr]; subst.
    cbn [app for_enumerate]. unfold io_bind.
    destruct (batch_body_disk total i ann fs STa) as (ev & fs1 & E & Sh & _ & D & _).
    rewrite E.
    destruct (IH STr rest (S i) fs1) as (ev' & fs2 & E' & Sh' & D').
    rewrite E'. exists (ev ++ ev')%list, fs2.
    cbn [List.length]. replace (i + S (List.length before))%nat
      with (S i + List.length before)%nat by lia.
    destruct (for_enumerate _ (S i + List.length before) rest fs2)
      as [[later fs'] r].
    split; [rewrite app_assoc; reflexivity|]. split.
    + rewrite shown_app, Sh, Sh'. reflexivity.
    + congruence.
Qed.

End BatchDisk.



(** X17.  A title that is not a string ends the batch.  [clean_filename]
    raises a [TypeError] at that announcement, which nothing in the
    function takes: the announcements before it have had their download
    and their result shown, the ones after it are never tried. *)
Theorem a_title_that_is_no_string_stops_the_batch
    (driver : batch_world) (target_dir : string)
    (before : list announcement) (ann : announcement) (after : list announcement)
    (fs : filesystem) :
  Forall has_string_title before ->
  (forall t : string, title ann <> VStr t) ->
  makedirs_error driver = None ->
  exists events fs',
    batch_download_sequential driver (before ++ ann :: after) target_dir fs
    = (events, fs', Raise TypeError)
    /\ shown events = verdicts driver target_dir 0 before
    /\ List.length (shown events) = List.length before.
Proof.
  intros STb NS MK.
  unfold batch_download_sequential.
  destruct (before ++ ann :: after)%list as [|x l] eqn:L.
  { destruct before; discriminate. }
  rewrite <- L. clear L x l.
  unfold io_bind, emit, unless_raised, change, io_ret. rewrite MK.
  set (total := Z.of_nat (List.length (before ++ ann :: after))).
  destruct (batch_loop_upto driver target_dir total before STb (ann :: after) 0%nat
              (make_directory target_dir fs)) as (ev & fs1 & E & Sh & _).
  rewrite E. cbn [for_enumerate Nat.add]. unfold io_bind at 1.
  assert (batch_body driver total target_dir (List.length before) ann fs1
          = ([Console (Processing (Z.of_nat (List.length before) + 1) total (title ann))],
             fs1, Raise TypeError)) as B.
  { unfold batch_body, io_bind, emit, lift, destination, clean_filename.
    destruct (title ann) as [| | |t| |]; try reflexivity.
    destruct (NS t eq_refl). }
  rewrite B. do 2 eexists. split; [reflexivity|].
  assert (shown
            ([Makedirs target_dir] ++
             [] ++ [] ++ [Console (SavingTo target_dir)] ++
             ev ++ [Console (Processing (Z.of_nat (List.length before) + 1) total
                               (title ann))])%list
          = verdicts driver target_dir 0 before) as S.
  { cbn [app shown]. rewrite shown_app, Sh. cbn [shown]. apply app_nil_r. }
  split; [exact S|]. rewrite S. clear.
  generalize 0%nat. induction before as [|a before IH]; intros i; simpl; auto.
Qed.

Lemma a_title_that_is_no_string_stops_the_batch_witness :
  exists events fs',
    batch_download_sequential
      {| makedirs_error := None; download := fun _ => smooth_download |}
      [{| title := VStr "Q1 Report"; url := "https://static.sse.com.cn/a.pdf" |};
       {| title := VInt 2023; url := "https://static.sse.com.cn/b.pdf" |};
       {| title := VStr "Q3 Report"; url := "https://static.sse.com.cn/c.pdf" |}]
      "downloads/q1" {| directories := []; files := [] |}
    = (events, fs', Raise TypeError)
    /\ shown events = [Success "Q1 Report.pdf"].
Proof.
  destruct (a_title_that_is_no_string_stops_the_batch
              {| makedirs_error := None; download := fun _ => smooth_download |}
              "downloads/q1"
              [{| title := VStr "Q1 Report"; url := "https://static.sse.com.cn/a.pdf" |}]
              {| title := VInt 2023; url := "https://static.sse.com.cn/b.pdf" |}
              [{| title := VStr "Q3 Report"; url := "https://static.sse.com.cn/c.pdf" |}]
              {| directories := []; files := [] |})
    as (events & fs' & E & S & _).
  - repeat constructor; eexists; reflexivity.
  - intros t. discriminate.
  - reflexivity.
  - exists events, fs'. split; [exact E | exact S].
Defined.

(* ================================================================= *)
(** ** The script as a whole *)




Section BatchInside.
Variables (driver : batch_world) (target_dir : string).





End BatchInside.


Section ScriptInside.
Context `{Formatter}.






End ScriptInside.

Lemma bootstrap_run (w : world) (fs : filesystem) (c : cookie) (cs : list cookie) :
  chrome_error w = None ->
  entry_navigation w = None ->
  entry_cookies w = Ok (c :: cs) ->
  bootstrap w fs
  = ([StartChrome chrome_arguments; Console VisitingSite; DriverGet entry_url;
      Sleep 5000; DriverGetCookies;
      Console (GotCookies (Z.of_nat (List.length (c :: cs))))],
     fs,
     Ok (update_headers browser_headers (load_cookies (c :: cs) new_Session))).
Proof.
  intros C N K.
  unfold bootstrap, io_bind, emit, unless_raised, lift, raise, io_ret.
  rewrite C, N, K. reflexivity.
Qed.

Section ScriptMore.
Context `{Formatter}.

Lemma fetch_to_the_end (session : Session) (security_code start_date end_date : string)
    (title : value) (b : range_answers) (later : list (http (option value))) :
  read_to_the_end b ->
  let run :=
    fetch_all_announcements_paginated session security_code start_date end_date
      title (answers_of b ++ later) in
  fetch_result run = Fetched (List.concat (map records (pages b)))
  /\ unread run = later
  /\ List.length (requests (fetch_events run)) = S (List.length (pages b)).
Proof.
  intros (NL & WS & LP) run. subst run.
  unfold fetch_all_announcements_paginated, answers_of.
  set (st0 := {| Locals.all_announcements := []; Locals.page_num := 1;
                 Locals.title := title |}).
  rewrite <- app_assoc. cbn [app].
  destruct (loop_through_pages session security_code start_date end_date (pages b)
              NL WS (closing b :: later) st0) as (events & st' & L & R & A).
  rewrite L. simpl paging.
  rewrite (pass_on_last_page session security_code start_date end_date st'
             (closing b) LP).
  simpl. rewrite A. simpl. repeat split.
  rewrite requests_app, length_app, R. simpl. lia.
Qed.

Lemma fetch_ranges_to_the_end (session : Session) (security_code title : string)
    (blocks : list range_answers) :
  Forall read_to_the_end blocks ->
  forall (later : list (http (option value))) (full_ann_list : list announcement),
  exists events,
    fetch_ranges session security_code title (map range blocks)
      (flat_map answers_of blocks ++ later) full_ann_list
    = (events,
       Returned (full_ann_list
                 ++ flat_map (fun b => List.concat (map records (pages b))) blocks)%list)
    /\ List.length (requests events)
       = List.length (flat_map answers_of blocks).
Proof.
  induction blocks as [|b blocks IH]; intros RE later acc.
  - exists []. simpl. rewrite app_nil_r. auto.
  - inversion RE as [|? ? REb REr]; subst.
    cbn [map flat_map fetch_ranges]. destruct (range b) as [start end_] eqn:Rg.
    rewrite <- app_assoc.
    destruct (fetch_to_the_end session security_code start end_ (VStr title) b
                (flat_map answers_of blocks ++ later)%list REb) as (F & U & N).
    rewrite F, U.
    destruct (IH REr later (acc ++ List.concat (map records (pages b)))%list)
      as (ev & E & N').
    rewrite E. eexists. split.
    + rewrite <- app_assoc. reflexivity.
    + cbn [requests]. rewrite requests_app. cbn [requests].
      rewrite !length_app, N, N'. unfold answers_of. rewrite length_app. simpl. lia.
Qed.

(** X19.  The announcements of the ranges are gathered one range after the
    other: when the listing API answers each range with pages and then an
    empty page, the list is what the pages of the first range list, then
    those of the second, and so on, and one request is made per answer. *)
Theorem ranges_are_fetched_one_after_the_other
    (session : Session) (security_code title : string)
    (blocks : list range_answers) (later : list (http (option value))) :
  Forall read_to_the_end blocks ->
  exists events,
    fetch_ranges session security_code title (map range blocks)
      (flat_map answers_of blocks ++ later) []
    = (events,
       Returned (flat_map (fun b => List.concat (map records (pages b))) blocks))
    /\ List.length (requests events) = List.length (flat_map answers_of blocks).
Proof.
  intros RE. apply (fetch_ranges_to_the_end session security_code title blocks RE later []).
Qed.

(** X20.  The dates are read only once the browser has started, reached
    the site and given its cookies.  A date of ASCII characters that does
    not parse is then shown as a fatal error; an end date before the start
    date is not reported: there is no range, and the run ends as a
    success.  Either way no listing request is made and the disk is as it
    was. *)
Theorem a_run_without_ranges_requests_nothing
    (args : Args.t) (w : world) (fs : filesystem) (c : cookie) (cs : list cookie) :
  chrome_error w = None ->
  entry_navigation w = None ->
  entry_cookies w = Ok (c :: cs) ->
  let before :=
    [Console (TaskParameters (Args.security_code args) (Args.start args)
                (Args.end_ args) (Args.title args) (target_directory args w));
     Console StartingSelenium;
     StartChrome chrome_arguments; Console VisitingSite; DriverGet entry_url;
     Sleep 5000; DriverGetCookies;
     Console (GotCookies (Z.of_nat (List.length (c :: cs))))] in
  (ascii_only (Args.start args) = true ->
   ascii_only (Args.end_ args) = true ->
   strptime (Args.start args) = Raise ValueError
   \/ strptime (Args.end_ args) = Raise ValueError ->
   main args w fs
   = ((before ++ [Console (FatalError ValueError); DriverQuit; Console BrowserClosed])%list,
      fs, Returned tt))
  /\ (forall start_date end_date : datetime,
         strptime (Args.start args) = Ok start_date ->
         strptime (Args.end_ args) = Ok end_date ->
         datetime_lt end_date start_date = true ->
         main args w fs
         = ((before ++ [Console (RangesSplit []); Console (ListComplete 0);
                        Console AllDone; DriverQuit; Console BrowserClosed])%list,
            fs, Returned tt)).
Proof.
  intros C N K before. subst before. split.
  - intros _ _ P. unfold main, main_try.
    rewrite (bootstrap_run w fs c cs C N K), C.
    assert (generate_yearly_date_ranges (Args.start args) (Args.end_ args)
            = Raised ValueError) as ->; [|reflexivity].
    unfold generate_yearly_date_ranges.
    destruct (strptime (Args.start args)) as [a|e] eqn:S.
    + destruct P as [P|P]; [discriminate|]. rewrite P. reflexivity.
    + destruct P as [P|P]; [congruence|].
      rewrite (strptime_raises_ValueError _ _ S). reflexivity.
  - intros start_date end_date S E L.
    unfold main, main_try. rewrite (bootstrap_run w fs c cs C N K), C.
    assert (generate_yearly_date_ranges (Args.start args) (Args.end_ args)
            = Returned []) as ->; [|reflexivity].
    unfold generate_yearly_date_ranges. rewrite S, E.
    apply range_loop_stops. apply datetime_le_false. exact L.
Qed.

End ScriptMore.

Lemma ranges_are_fetched_one_after_the_other_witness :
  exists events,
    @fetch_ranges unused_repr new_Session "600036" ""
      [("2022-06-15", "2022-12-31"); ("2023-01-01", "2023-03-31")]
      [listing_page
         (VList [VList [VDict [("TITLE", VStr "Q3 Report"); ("URL", VStr "/a.pdf")]]]);
       listing_page (VList []);
       Failed "Read timed out.";
       listing_page
         (VList [VList [VDict [("TITLE", VStr "Annual Report"); ("URL", VStr "/b.pdf")]]]);
       listing_page (VList [])] []
    = (events,
       Returned
         [{| title := VStr "Q3 Report"; url := "https://static.sse.com.cn/a.pdf" |};
          {| title := VStr "Annual Report"; url := "https://static.sse.com.cn/b.pdf" |}])
    /\ List.length (requests events) = 5%nat.
Proof.
  apply (@ranges_are_fetched_one_after_the_other unused_repr new_Session "600036" ""
           [{| range := ("2022-06-15", "2022-12-31");
               pages :=
                 [listing_page
                    (VList [VList [VDict [("TITLE", VStr "Q3 Report");
                                          ("URL", VStr "/a.pdf")]]])];
               closing := listing_page (VList []) |};
            {| range := ("2023-01-01", "2023-03-31");
               pages :=
                 [Failed "Read timed out.";
                  listing_page
                    (VList [VList [VDict [("TITLE", VStr "Annual Report");
                                          ("URL", VStr "/b.pdf")]]])];
               closing := listing_page (VList []) |}]
           []).
  repeat constructor.
Defined.

Lemma a_run_without_ranges_requests_nothing_witness :
  let w :=
    {| timestamp := "20240301_093000";
       chrome_error := None;
       entry_navigation := None;
       entry_cookies := Ok one_cookie;
       listing :=
         [listing_page
            (VList [VList [VDict [("TITLE", VStr "Q1 Report"); ("URL", VStr "/a.pdf")]]]);
          listing_page (VList [])];
       batch := {| makedirs_error := None; download := fun _ => smooth_download |} |} in
  let args :=
    {| Args.security_code := "600036"; Args.start := "2023-12-31";
       Args.end_ := "2023-01-01"; Args.output := Some "q1"; Args.title := "" |} in
  let fs := {| directories := []; files := [] |} in
  @main unused_repr args w fs
  = ([Console (TaskParameters "600036" "2023-12-31" "2023-01-01" "" "downloads/q1");
      Console StartingSelenium;
      StartChrome chrome_arguments; Console VisitingSite; DriverGet entry_url;
      Sleep 5000; DriverGetCookies; Console (GotCookies 1);
      Console (RangesSplit []); Console (ListComplete 0);
      Console AllDone; DriverQuit; Console BrowserClosed],
     fs, Returned tt).
Proof.
  intros w args fs.
  apply (proj2 (@a_run_without_ranges_requests_nothing unused_repr args w fs
                  {| cookie_name := "acw_tc"; cookie_value := "0a1b" |} []
                  eq_refl eq_refl eq_refl)
           (mkdatetime 2023 12 31) (mkdatetime 2023 1 1));
    reflexivity.
Defined.

Section EndToEnd.
Context `{Formatter}.

Lemma iteration_shows_nothing (session : Session)
    (security_code start_date end_date : string)
    (st : locals) (answer : http (option value)) :
  shown (fst (iteration session security_code start_date end_date st answer)) = [].
Proof.
  unfold iteration, try_body.
  destruct answer as [text|response]; [reflexivity|].
  destruct (raise_for_status response) as [[]|e].
  2:{ destruct (is_RequestException e); reflexivity. }
  destruct (body response) as [data|]; [|reflexivity].
  destruct (pageHelp <- get data "pageHelp" (VDict []);; get pageHelp "data" (VList []))
    as [current|e].
  2:{ destruct (is_RequestException e); reflexivity. }
  destruct (truthy current); simpl; [|reflexivity].
  destruct (scan_page current (Locals.title st)) as [[l t]|e]; [reflexivity|].
  destruct (is_RequestException e); reflexivity.
Qed.

Lemma paging_shows_nothing (session : Session)
    (security_code start_date end_date : string)
    (answers : list (http (option value))) :
  forall st : locals,
    shown (fetch_events
             (paging session security_code start_date end_date answers st)) = [].
Proof.
  induction answers as [|a answers IH]; intros st; [reflexivity|].
  pose proof (iteration_shows_nothing session security_code start_date end_date st a)
    as Q.
  cbn [paging].
  destruct (iteration session security_code start_date end_date st a)
    as [events [st'| |e]]; simpl in *.
  - rewrite shown_app, Q, IH. reflexivity.
  - exact Q.
  - exact Q.
Qed.

Lemma fetch_ranges_shows_nothing (session : Session) (security_code title : string)
    (date_ranges : list (string * string)) :
  forall (answers : list (http (option value))) (full_ann_list : list announcement),
    shown (fst (fetch_ranges session security_code title date_ranges answers
                  full_ann_list)) = [].
Proof.
  induction date_ranges as [|[start end_] rest IH]; intros answers acc;
    [reflexivity|].
  cbn [fetch_ranges].
  pose proof (paging_shows_nothing session security_code start end_ answers
                {| Locals.all_announcements := []; Locals.page_num := 1;
                   Locals.title := VStr title |}) as Q.
  unfold fetch_all_announcements_paginated.
  destruct (paging session security_code start end_ answers _)
    as [events [l|e|st] unread]; simpl in *.
  - specialize (IH unread (acc ++ l)%list).
    destruct (fetch_ranges session security_code title rest unread (acc ++ l)%list)
      as [later r]. simpl in *. rewrite shown_app, Q. simpl. exact IH.
  - exact Q.
  - exact Q.
Qed.

(** X21.  A run in which the browser starts, the listing API answers each
    range with pages and then an empty page, the titles are strings and
    the target directory can be made, tries every announcement the pages
    list exactly once, in the order of the ranges and of the pages, and
    shows one result for each: the verdict of its own download.  The
    script then ends normally, whatever the downloads gave. *)
Theorem every_listed_announcement_is_tried_once
    (args : Args.t) (w : world) (fs : filesystem) (c : cookie) (cs : list cookie)
    (blocks : list range_answers) (later : list (http (option value))) :
  chrome_error w = None ->
  entry_navigation w = None ->
  entry_cookies w = Ok (c :: cs) ->
  generate_yearly_date_ranges (Args.start args) (Args.end_ args)
  = Returned (map range blocks) ->
  listing w = (flat_map answers_of blocks ++ later)%list ->
  Forall read_to_the_end blocks ->
  let full_ann_list :=
    flat_map (fun b => List.concat (map records (pages b))) blocks in
  Forall has_string_title full_ann_list ->
  makedirs_error (batch w) = None ->
  exists events fs',
    main args w fs = (events, fs', Returned tt)
    /\ shown events = verdicts (batch w) (target_directory args w) 0 full_ann_list.
Proof.
  intros C N K G L RE full ST MK.
  unfold main, main_try. rewrite (bootstrap_run w fs c cs C N K), C, G, L.
  destruct (fetch_ranges_to_the_end
              (update_headers browser_headers (load_cookies (c :: cs) new_Session))
              (Args.security_code args) (Args.title args) blocks RE later [])
    as (fetching & F & _).
  pose proof (fetch_ranges_shows_nothing
                (update_headers browser_headers (load_cookies (c :: cs) new_Session))
                (Args.security_code args) (Args.title args) (map range blocks)
                (flat_map answers_of blocks ++ later)%list []) as Q.
  cbn [app] in F. fold full in F. rewrite F in *. cbn [fst] in Q.
  destruct (batch_run (batch w) (target_directory args w) full fs ST MK)
    as (saving & fs' & E & Sh & _).
  assert (exists saving',
             match full with
             | [] => io_ret tt
             | _ :: _ => batch_download_sequential (batch w) full
                           (target_directory args w)
             end fs = (saving', fs', Ok tt)
             /\ shown saving' = verdicts (batch w) (target_directory args w) 0 full)
    as (saving' & E' & Sh').
  { destruct full as [|a full'].
    - exists []. unfold batch_download_sequential, emit in E.
      injection E as _ <-. split; reflexivity.
    - exists saving. split; assumption. }
  rewrite E'. do 2 eexists. split; [reflexivity|].
  rewrite !shown_app, Q, Sh'. cbn [shown app]. rewrite !app_nil_r. reflexivity.
Qed.

End EndToEnd.

Lemma every_listed_announcement_is_tried_once_witness :
  let w :=
    {| timestamp := "20240301_093000";
       chrome_error := None;
       entry_navigation := None;
       entry_cookies := Ok one_cookie;
       listing :=
         [listing_page
            (VList [VList [VDict [("TITLE", VStr "Q3 Report"); ("URL", VStr "/a.pdf")]]]);
          listing_page (VList []);
          listing_page
            (VList [VList [VDict [("TITLE", VStr "Annual Report"); ("URL", VStr "/b.pdf")]]]);
          listing_page (VList [])];
       batch :=
         {| makedirs_error := None;
            download :=
              fun i =>
                match i with
                | O => download_replying 404 "Not Found" []
                | _ => smooth_download
                end |} |} in
  let args :=
    {| Args.security_code := "600036"; Args.start := "2022-06-15";
       Args.end_ := "2023-03-31"; Args.output := Some "q1"; Args.title := "" |} in
  exists events fs',
    @main unused_repr args w {| directories := []; files := [] |}
    = (events, fs', Returned tt)
    /\ shown events
       = [Failure "Q3 Report.pdf"
            (HTTPError
               "404 Client Error: Not Found for url: https://static.sse.com.cn/a.pdf");
          Success "Annual Report.pdf"].
Proof.
  intros w args.
  apply (@every_listed_announcement_is_tried_once unused_repr args w
           {| directories := []; files := [] |}
           {| cookie_name := "acw_tc"; cookie_value := "0a1b" |} []
           [{| range := ("2022-06-15", "2022-12-31");
               pages :=
                 [listing_page
                    (VList [VList [VDict [("TITLE", VStr "Q3 Report");
                                          ("URL", VStr "/a.pdf")]]])];
               closing := listing_page (VList []) |};
            {| range := ("2023-01-01", "2023-03-31");
               pages :=
                 [listing_page
                    (VList [VList [VDict [("TITLE", VStr "Annual Report");
                                          ("URL", VStr "/b.pdf")]]])];
               closing := listing_page (VList []) |}]
           []).
  - reflexivity.
  - reflexivity.
  - reflexivity.
  - reflexivity.
  - reflexivity.
  - repeat constructor.
  - repeat constructor; eexists; reflexivity.
  - reflexivity.
Defined.
